(** * Interview portal: session coordination core

    A shallow embedding of the server (socket handlers, timer reconciliation,
    the static grading function [analyzeDebugFixes]) and of the candidate
    page's score aggregation, followed by the properties established about
    them. *)

From Stdlib Require Import ZArith NArith List String Ascii Bool Lia.
From Stdlib Require Import QArith Qround Qminmax Lqa Morphisms.
Import ListNotations.

(* ================================================================== *)
(** ** JavaScript values *)
(* ================================================================== *)

Module JS.

(** A JavaScript string is a sequence of UTF-16 code units. *)
Definition jschar := N.
Definition jsstring := list jschar.

(** An ASCII literal of the source, as code units. *)
Definition js (s : string) : jsstring :=
  map N_of_ascii (list_ascii_of_string s).

(** The double quote and the line feed, which the literals of this file
    spell out. *)
Definition dq : jsstring := [34%N].
Definition nl : jsstring := [10%N].
Definition q (s : string) : jsstring := dq ++ js s ++ dq.

(** [a === b] on strings. *)
Fixpoint str_eqb (a b : jsstring) : bool :=
  match a, b with
  | [], [] => true
  | x :: a', y :: b' => N.eqb x y && str_eqb a' b'
  | _, _ => false
  end.

(** [strip_prefix p s] is the rest of [s] after the prefix [p]. *)
Fixpoint strip_prefix (p s : jsstring) : option jsstring :=
  match p with
  | [] => Some s
  | x :: p' =>
      match s with
      | [] => None
      | y :: s' => if N.eqb x y then strip_prefix p' s' else None
      end
  end.

(** [s.includes(p)]. *)
Fixpoint includes (s p : jsstring) : bool :=
  match strip_prefix p s with
  | Some _ => true
  | None =>
      match s with
      | [] => false
      | _ :: s' => includes s' p
      end
  end.

(** [x ?? d]. *)
Definition nullish {A} (x : option A) (d : A) : A :=
  match x with Some v => v | None => d end.

(** Truthiness of an optional boolean and of an optional number. *)
Definition truthy_bool (x : option bool) : bool :=
  match x with Some b => b | None => false end.
Definition truthy_num (x : option Z) : bool :=
  match x with Some n => negb (Z.eqb n 0) | None => false end.
Definition truthy_str (x : option jsstring) : bool :=
  match x with Some (_ :: _) => true | _ => false end.

(** [Math.round]: the nearest integer, halves rounded up. *)
Definition Math_round (x : Q) : Z := Qfloor (x + (1 # 2)).

End JS.
Import JS.

(* ================================================================== *)
(** ** Regular expressions, as [String.prototype.match] runs them *)
(* ================================================================== *)

Module Regex.

(** The patterns of the grading function use literals, one-unit character
    classes, the quantifiers [*], [+] and [*?] on such classes, sequence,
    alternation, one capturing group and a negative lookahead. *)
Inductive regex : Type :=
| Lit (s : jsstring)
| Cls (p : jschar -> bool)
| Star (p : jschar -> bool)
| Plus (p : jschar -> bool)
| LazyStar (p : jschar -> bool)
| Seq (r1 r2 : regex)
| Alt (r1 r2 : regex)
| Group (r : regex)
| NegLook (r : regex).

(** [\s]: white space and line terminators. *)
Definition ws (c : jschar) : bool :=
  existsb (N.eqb c)
    [9; 10; 11; 12; 13; 32; 160; 5760; 8232; 8233; 8239; 8287; 12288; 65279]%N
  || (N.leb 8192 c && N.leb c 8202).

(** [.] without the [s] flag: anything but a line terminator. *)
Definition dot (c : jschar) : bool :=
  negb (existsb (N.eqb c) [10; 13; 8232; 8233]%N).

(** [[\s\S]]. *)
Definition any (c : jschar) : bool := true.

(** [[^x]] for an ASCII character [x]. *)
Definition notc (x : string) (c : jschar) : bool :=
  negb (existsb (N.eqb c) (js x)).

(** Where the capturing group opened and closed, as the input suffixes at
    those two points. *)
Definition capture := option (jsstring * jsstring).

(** Greedy and lazy iteration of a one-unit class, in backtracking order. *)
Fixpoint greedy {A} (p : jschar -> bool) (s : jsstring)
         (k : jsstring -> option A) : option A :=
  match s with
  | c :: s' =>
      if p c then
        match greedy p s' k with
        | Some a => Some a
        | None => k s
        end
      else k s
  | [] => k s
  end.

Fixpoint lazy {A} (p : jschar -> bool) (s : jsstring)
         (k : jsstring -> option A) : option A :=
  match k s with
  | Some a => Some a
  | None =>
      match s with
      | c :: s' => if p c then lazy p s' k else None
      | [] => None
      end
  end.

(** The backtracking matcher, in continuation-passing style: [k] is what
    has to match after [r]. *)
Fixpoint run (r : regex) {A : Type} (s : jsstring) (c : capture)
         (k : jsstring -> capture -> option A) : option A :=
  match r with
  | Lit l =>
      match strip_prefix l s with
      | Some s' => k s' c
      | None => None
      end
  | Cls p =>
      match s with
      | x :: s' => if p x then k s' c else None
      | [] => None
      end
  | Star p => greedy p s (fun s' => k s' c)
  | Plus p =>
      match s with
      | x :: s' => if p x then greedy p s' (fun s'' => k s'' c) else None
      | [] => None
      end
  | LazyStar p => lazy p s (fun s' => k s' c)
  | Seq r1 r2 => run r1 s c (fun s' c' => run r2 s' c' k)
  | Alt r1 r2 =>
      match run r1 s c k with
      | Some a => Some a
      | None => run r2 s c k
      end
  | Group r1 => run r1 s c (fun s' _ => k s' (Some (s, s')))
  | NegLook r1 =>
      match run r1 s c (fun _ _ => Some tt) with
      | Some _ => None
      | None => k s c
      end
  end.

(** The match array: [m[0]] and [m[1]] (empty when the pattern has no
    group; every pattern whose [m[1]] is read has its group on each path). *)
Record match_array := { whole : jsstring; group1 : jsstring }.

Definition between (a b : jsstring) : jsstring :=
  firstn (List.length a - List.length b) a.

Definition match_at (r : regex) (s : jsstring) : option match_array :=
  run r s None
      (fun s' c =>
         Some {| whole := between s s';
                 group1 := match c with
                           | Some (a, b) => between a b
                           | None => []
                           end |}).

(** [s.match(r)] for a pattern without the [g] flag: the leftmost match. *)
Fixpoint str_match (s : jsstring) (r : regex) : option match_array :=
  match match_at r s with
  | Some m => Some m
  | None =>
      match s with
      | [] => None
      | _ :: s' => str_match s' r
      end
  end.

(** [!!s.match(r)]. *)
Definition matches (s : jsstring) (r : regex) : bool :=
  match str_match s r with Some _ => true | None => false end.

Definition cat (rs : list regex) : regex := fold_right Seq (Lit []) rs.
Definition L (s : string) : regex := Lit (js s).

End Regex.
Import Regex.

(* ================================================================== *)
(** ** The grading function *)
(* ================================================================== *)

Module Grader.

Record TestResult := {
  name : jsstring;
  passed : bool;
  message : jsstring
}.

(** [results.push(r)]. *)
Definition push (results : list TestResult) (r : TestResult) :
  list TestResult := results ++ [r].

(** The marks that open every message: the two three-byte symbols as they
    stand in the server file, and the escapes U+2705 and U+274C of the
    calculator challenge. *)
Definition ok_mark : jsstring := [226; 339; 8230]%N.
Definition ko_mark : jsstring := [226; 338]%N.
Definition check : jsstring := [9989]%N.
Definition cross : jsstring := [10060]%N.

(** [public\s+T\s+m\([^)]*\)\s*{], the head shared by the patterns that
    look into a method [m] of return type [T]. *)
Definition sig (ty m : string) : list regex :=
  [L "public"; Plus ws; L ty; Plus ws; L m; L "("; Star (notc ")"); L ")";
   Star ws; L "{"].

(** [/public\s+T\s+m\([^)]*\)\s*{([^}]+)}/s] and [mm ? mm[1] : '']. *)
Definition method_body (code : jsstring) (ty m : string) : jsstring :=
  match str_match code (cat (sig ty m ++
    [Group (Plus (notc "}")); L "}"])) with
  | Some mm => group1 mm
  | None => []
  end.

(** [/public\s+T\s+m\([^)]*\)\s*{[^}]* tail /s]. *)
Definition in_method (ty m : string) (tail : list regex) : regex :=
  cat (sig ty m ++ [Star (notc "}")] ++ tail).

(** Selenium Senior Automation Engineer Challenge - 10 bugs. *)
Definition selenium_senior (code : jsstring) (results : list TestResult) :
  list TestResult :=
  (* BUG 1 *)
  let hasWaitInit :=
    matches code
      (cat [L "public"; Plus ws; L "SecureLoginPage"; L "("; Star (notc ")");
            L ")"; Star ws; L "{"; Star (notc "}"); L "this.wait"; Star ws;
            L "="; Star ws; L "new"; Plus ws; L "WebDriverWait"]) in
  let results := push results
    {| name := js "BUG 1";
       passed := hasWaitInit;
       message := if hasWaitInit
                  then ok_mark ++
                    js " PASS - WebDriverWait initialized in SecureLoginPage constructor"
                  else ko_mark ++ js " FAIL - Add " ++
                    q "this.wait = new WebDriverWait(driver, Duration.ofSeconds(10));" ++
                    js " in constructor" |} in
  (* BUG 2 *)
  let enterMethodCode := method_body code "void" "enterCredentials" in
  let hasWaitInEnter :=
    includes enterMethodCode (js "wait.until") &&
    (includes enterMethodCode (js "visibilityOfElementLocated") ||
     includes enterMethodCode (js "elementToBeClickable")) &&
    negb (includes enterMethodCode (js "driver.findElement(usernameField)")) &&
    negb (includes enterMethodCode (js "driver.findElement(passwordField)")) in
  let results := push results
    {| name := js "BUG 2";
       passed := hasWaitInEnter;
       message := if hasWaitInEnter
                  then ok_mark ++
                    js " PASS - Explicit waits added in enterCredentials method"
                  else ko_mark ++
                    js " FAIL - Replace driver.findElement with wait.until(ExpectedConditions.visibilityOfElementLocated(...))" |} in
  (* BUG 3 *)
  let errorMethodCode := method_body code "String" "getErrorMessage" in
  let hasWaitInError :=
    includes errorMethodCode (js "wait.until") &&
    includes errorMethodCode (js "visibilityOfElementLocated") &&
    negb (includes errorMethodCode (js "driver.findElement(errorMessage).getText()")) in
  let results := push results
    {| name := js "BUG 3";
       passed := hasWaitInError;
       message := if hasWaitInError
                  then ok_mark ++
                    js " PASS - Explicit wait added for error message visibility"
                  else ko_mark ++
                    js " FAIL - Add wait.until(ExpectedConditions.visibilityOfElementLocated(errorMessage)) before getText()" |} in
  (* BUG 4 *)
  let loadMethodCode := method_body code "void" "loadUserProfile" in
  let hasNoThreadSleep :=
    negb (includes loadMethodCode (js "Thread.sleep")) &&
    includes loadMethodCode (js "wait.until") in
  let results := push results
    {| name := js "BUG 4";
       passed := hasNoThreadSleep;
       message := if hasNoThreadSleep
                  then ok_mark ++
                    js " PASS - Thread.sleep removed and replaced with proper wait"
                  else ko_mark ++
                    js " FAIL - Remove Thread.sleep and add wait.until(ExpectedConditions.visibilityOfElementLocated(...))" |} in
  (* BUG 5 *)
  let clickMethodCode := method_body code "void" "clickEditButton" in
  let hasClickableWait :=
    includes clickMethodCode (js "wait.until") &&
    includes clickMethodCode (js "elementToBeClickable") &&
    negb (includes clickMethodCode (js "driver.findElement(By.id(" ++
      q "edit-profile-btn" ++ js ")).click()")) in
  let results := push results
    {| name := js "BUG 5";
       passed := hasClickableWait;
       message := if hasClickableWait
                  then ok_mark ++
                    js " PASS - elementToBeClickable wait added in clickEditButton"
                  else ko_mark ++
                    js " FAIL - Use wait.until(ExpectedConditions.elementToBeClickable(...)) before clicking" |} in
  (* BUG 6 *)
  let dataMethodCode := method_body code "boolean" "isDataLoaded" in
  let hasWaitInDataLoaded :=
    includes dataMethodCode (js "wait.until") &&
    includes dataMethodCode (js "visibilityOfElementLocated") &&
    negb (includes dataMethodCode (js "driver.findElement(By.id(" ++
      q "profile-data" ++ js "))")) in
  let results := push results
    {| name := js "BUG 6";
       passed := hasWaitInDataLoaded;
       message := if hasWaitInDataLoaded
                  then ok_mark ++
                    js " PASS - Explicit wait added in isDataLoaded for AJAX completion"
                  else ko_mark ++
                    js " FAIL - Add wait.until(ExpectedConditions.visibilityOfElementLocated(...)) before checking display" |} in
  (* BUG 7 *)
  let notifMethodCode := method_body code "int" "getNotificationCount" in
  let hasWaitInNotification :=
    includes notifMethodCode (js "wait.until") &&
    includes notifMethodCode (js "presenceOfElementLocated") &&
    negb (includes notifMethodCode (js "driver.findElement(By.className(" ++
      q "notification-badge" ++ js "))")) in
  let results := push results
    {| name := js "BUG 7";
       passed := hasWaitInNotification;
       message := if hasWaitInNotification
                  then ok_mark ++
                    js " PASS - Explicit wait added for notification badge presence"
                  else ko_mark ++
                    js " FAIL - Add wait.until(ExpectedConditions.presenceOfElementLocated(...)) before getText()" |} in
  (* BUG 8 *)
  let fillMethodCode := method_body code "void" "fillUserDetails" in
  let hasNoAbsoluteXPath :=
    negb (includes fillMethodCode (js "/html/body/div[1]/div[2]/form/div[1]/input")) &&
    (includes fillMethodCode (js "By.id(" ++ q "name" ++ js ")") ||
     includes fillMethodCode (js "By.name(")) in
  let results := push results
    {| name := js "BUG 8";
       passed := hasNoAbsoluteXPath;
       message := if hasNoAbsoluteXPath
                  then ok_mark ++
                    js " PASS - Absolute XPath replaced with stable locator (By.id or By.name)"
                  else ko_mark ++
                    js " FAIL - Replace absolute XPath with By.id(" ++
                    q "name" ++ js ") or By.name(" ++ q "fullName" ++
                    js ")" |} in
  (* BUG 9 *)
  let hasNoNthChild :=
    negb (includes fillMethodCode (js "nth-child(2)")) &&
    (includes fillMethodCode (js "By.id(" ++ q "email" ++ js ")") ||
     includes fillMethodCode (js "By.name(")) in
  let results := push results
    {| name := js "BUG 9";
       passed := hasNoNthChild;
       message := if hasNoNthChild
                  then ok_mark ++
                    js " PASS - Index-based CSS selector replaced with stable locator"
                  else ko_mark ++
                    js " FAIL - Replace nth-child selector with By.id(" ++
                    q "email" ++ js ") or By.name(" ++ q "emailAddress" ++
                    js ")" |} in
  (* BUG 10 *)
  let submitMethodCode := method_body code "void" "submitForm" in
  let hasNoLinkText :=
    negb (includes submitMethodCode (js "By.linkText(" ++
      q "Submit Registration" ++ js ")")) &&
    (includes submitMethodCode (js "By.id") || includes submitMethodCode (js "button[type=")
     || includes submitMethodCode (js "data-testid")) in
  let results := push results
    {| name := js "BUG 10";
       passed := hasNoLinkText;
       message := if hasNoLinkText
                  then ok_mark ++
                    js " PASS - linkText replaced with stable, locale-independent locator"
                  else ko_mark ++
                    js " FAIL - Replace By.linkText with By.id(" ++
                    q "submit-btn" ++ js ") or By.cssSelector(" ++
                    q "button[type='submit']" ++ js ")" |} in
  results.

(** Java Calculator Challenge - 8 bugs. *)
Definition java_calculator (code : jsstring) (results : list TestResult) :
  list TestResult :=
  (* BUG 1 *)
  let hasCorrectAdd :=
    includes code (js "a + b") &&
    matches code (in_method "double" "add" [L "a"; Star ws; L "+"; Star ws; L "b"]) in
  let results := push results
    {| name := js "BUG 1";
       passed := hasCorrectAdd;
       message := if hasCorrectAdd
                  then check ++
                    js " PASS - Addition uses correct + operator (a + b)"
                  else cross ++ js " FAIL - Change " ++ q "a - b" ++
                    js " to " ++ q "a + b" ++ js " in add() method" |} in
  (* BUG 2 *)
  let hasCorrectSubtract :=
    matches code (in_method "double" "subtract" [L "a"; Star ws; L "-"; Star ws; L "b"]) &&
    negb (matches code (in_method "double" "subtract" [L "b"; Star ws; L "-"; Star ws; L "a"])) in
  let results := push results
    {| name := js "BUG 2";
       passed := hasCorrectSubtract;
       message := if hasCorrectSubtract
                  then check ++
                    js " PASS - Subtraction uses correct order (a - b)"
                  else cross ++ js " FAIL - Change " ++ q "b - a" ++
                    js " to " ++ q "a - b" ++ js " in subtract() method" |} in
  (* BUG 3 *)
  let hasMultiplyReturn :=
    matches code (in_method "double" "multiply" [L "return"; Plus ws; L "result"]) in
  let results := push results
    {| name := js "BUG 3";
       passed := hasMultiplyReturn;
       message := if hasMultiplyReturn
                  then check ++ js " PASS - multiply() returns result"
                  else cross ++ js " FAIL - Add " ++ q "return result;" ++
                    js " at end of multiply() method" |} in
  (* BUG 4 *)
  let hasDivideCheck :=
    matches code
      (in_method "double" "divide"
         [Group (Alt
            (cat [L "if"; Star ws; L "("; Star ws; L "b"; Star ws; L "==";
                  Star ws; L "0"])
            (cat [L "if"; Star ws; L "("; Star ws; L "0"; Star ws; L "==";
                  Star ws; L "b"]))]) in
  let results := push results
    {| name := js "BUG 4";
       passed := hasDivideCheck;
       message := if hasDivideCheck
                  then check ++
                    js " PASS - divide() checks for division by zero"
                  else cross ++ js " FAIL - Add " ++
                    q "if (b == 0) throw new ArithmeticException()" ++
                    js " before dividing" |} in
  (* BUG 5 *)
  let hasCorrectPower :=
    matches code
      (cat [L "Math.pow("; Plus (notc ","); L ","; Star ws; L "exponent";
            Star ws; L ")"]) &&
    negb (matches code
      (cat [L "Math.pow("; Plus (notc ","); L ","; Star ws; L "exponent";
            Star ws; L "+"; Star ws; L "1"; Star ws; L ")"])) in
  let results := push results
    {| name := js "BUG 5";
       passed := hasCorrectPower;
       message := if hasCorrectPower
                  then check ++
                    js " PASS - power() uses correct exponent value"
                  else cross ++ js " FAIL - Remove " ++ q "+ 1" ++
                    js " from exponent in Math.pow()" |} in
  (* BUG 6 *)
  let hasCorrectAverage :=
    matches code
      (in_method "double" "average"
         [L "sum"; Star ws; L "/"; Star ws; L "numbers.length";
          NegLook (cat [Star ws; L "-"; Star ws; L "1"])]) in
  let results := push results
    {| name := js "BUG 6";
       passed := hasCorrectAverage;
       message := if hasCorrectAverage
                  then check ++
                    js " PASS - average() divides by correct array length"
                  else cross ++ js " FAIL - Remove " ++ q "- 1" ++
                    js " from denominator in average() method" |} in
  (* BUG 7 *)
  let hasCorrectMax :=
    matches code
      (in_method "double" "findMax"
         [L "if"; Star ws; L "("; Star ws; L "numbers[i]"; Star ws; L ">";
          Star ws; L "max"; Star ws; L ")"]) in
  let results := push results
    {| name := js "BUG 7";
       passed := hasCorrectMax;
       message := if hasCorrectMax
                  then check ++
                    js " PASS - findMax() uses correct > comparison"
                  else cross ++ js " FAIL - Change " ++
                    q "numbers[i] < max" ++ js " to " ++
                    q "numbers[i] > max" ++ js " in findMax()" |} in
  (* BUG 8 *)
  let hasCorrectHistorySize :=
    matches code
      (in_method "int" "getHistorySize"
         [L "return"; Plus ws; L "history.size()"; Star ws; L ";"]) &&
    negb (matches code
      (cat [L "return"; Plus ws; L "history.size()"; Star ws; L "+"; Star ws;
            L "1"])) in
  let results := push results
    {| name := js "BUG 8";
       passed := hasCorrectHistorySize;
       message := if hasCorrectHistorySize
                  then check ++
                    js " PASS - getHistorySize() returns correct history size"
                  else cross ++ js " FAIL - Remove " ++ q "+ 1" ++
                    js " from getHistorySize() return statement" |} in
  results.

(** The pattern made of [head], [\(], a lazy run of [.], [\{], a lazy run
    of [[\s\S]] and [\n\s*\}] (no flag); then [mm ? mm[0] : '']. *)
Definition method_text (code : jsstring) (head : string) : jsstring :=
  match str_match code
          (cat [L head; L "("; LazyStar dot; L "{"; LazyStar any; Lit nl;
                Star ws; L "}"]) with
  | Some mm => whole mm
  | None => []
  end.

(** The pattern made of [head], an argument list [\( [^)]* \)], [\s*] and a
    brace block whose content, a run of [[^}]], is group 1 (flag [s]);
    then [mm ? mm[1] : '']. *)
Definition method_block (code : jsstring) (head : string) : jsstring :=
  match str_match code
          (cat [L head; L "("; Star (notc ")"); L ")"; Star ws; L "{";
                Group (Star (notc "}")); L "}"]) with
  | Some mm => group1 mm
  | None => []
  end.

(** The pattern for [fillRegistrationForm]: the head, an argument list,
    [[^{]*], an opening brace, group 1 as a lazy run of [[\s\S]], then
    [\n\s*}\s*public]; and [mm ? mm[1] : code]. *)
Definition fillFormContent (code : jsstring) : jsstring :=
  match str_match code
          (cat [L "public void fillRegistrationForm"; L "("; Star (notc ")");
                L ")"; Star (notc "{"); L "{"; Group (LazyStar any); Lit nl;
                Star ws; L "}"; Star ws; L "public"]) with
  | Some mm => group1 mm
  | None => code
  end.

(** The combined selenium challenge with all 3 scenarios. *)
Definition selenium_combined (code : jsstring) (results : list TestResult) :
  list TestResult :=
  (* Scenario 1, test 1 *)
  let hasWaitInit := includes code (js "this.wait = new WebDriverWait") || includes code (js "wait = new WebDriverWait") in
  let results := push results
    {| name := js "Scenario 1: Page Object Pattern - BUG 1";
       passed := hasWaitInit;
       message := if hasWaitInit
                  then ok_mark ++
                    js " PASS - WebDriverWait initialized in constructor"
                  else ko_mark ++
                    js " FAIL - WebDriverWait object not initialized in constructor" |} in
  (* test 2 *)
  let loginMethodCode := method_text code "public void login" in
  let hasDirectFind := includes loginMethodCode (js "driver.findElement") in
  let hasWaitInLogin :=
    includes loginMethodCode (js "wait.until") && includes loginMethodCode (js "elementToBeClickable") in
  let results := push results
    {| name := js "Scenario 1: Page Object Pattern - BUG 2";
       passed := negb hasDirectFind && hasWaitInLogin;
       message := if negb hasDirectFind && hasWaitInLogin
                  then ok_mark ++
                    js " PASS - Explicit waits added in login() method"
                  else ko_mark ++
                    js " FAIL - login() method needs explicit waits before element interactions" |} in
  (* test 3 *)
  let errorMethodCode := method_text code "public String getErrorMessage" in
  let hasDirectFindInError := includes errorMethodCode (js "driver.findElement(errorMessage)") in
  let hasWaitInError :=
    includes errorMethodCode (js "wait.until") &&
    (includes errorMethodCode (js "visibilityOfElementLocated") ||
     includes errorMethodCode (js "presenceOfElementLocated")) in
  let results := push results
    {| name := js "Scenario 1: Page Object Pattern - BUG 3";
       passed := negb hasDirectFindInError && hasWaitInError;
       message := if negb hasDirectFindInError && hasWaitInError
                  then ok_mark ++
                    js " PASS - Error message wait condition added"
                  else ko_mark ++
                    js " FAIL - getErrorMessage() must wait for element visibility" |} in
  (* Scenario 2 *)
  let addProductContent := method_block code "public void addProductToCart" in
  (* test 4 *)
  let hasThreadSleepInAdd := includes addProductContent (js "Thread.sleep(") in
  let results := push results
    {| name := js "Scenario 2: Wait Conditions - BUG 1";
       passed := negb hasThreadSleepInAdd;
       message := if negb hasThreadSleepInAdd
                  then ok_mark ++
                    js " PASS - Thread.sleep replaced with proper waits"
                  else ko_mark ++
                    js " FAIL - Thread.sleep found - replace with explicit WebDriverWait" |} in
  (* test 5 *)
  let hasClickableInAdd := includes addProductContent (js "elementToBeClickable") in
  let results := push results
    {| name := js "Scenario 2: Wait Conditions - BUG 2";
       passed := hasClickableInAdd;
       message := if hasClickableInAdd
                  then ok_mark ++
                    js " PASS - Using elementToBeClickable() before click"
                  else ko_mark ++
                    js " FAIL - addProductToCart() needs elementToBeClickable wait" |} in
  (* test 6 *)
  let isProductContent := method_block code "public boolean isProductInCart" in
  let hasTextWaitInCart := includes isProductContent (js "textToBePresentInElement") in
  let results := push results
    {| name := js "Scenario 2: Wait Conditions - BUG 3";
       passed := hasTextWaitInCart;
       message := if hasTextWaitInCart
                  then ok_mark ++
                    js " PASS - Cart update wait condition added"
                  else ko_mark ++
                    js " FAIL - isProductInCart() needs textToBePresentInElement wait" |} in
  (* test 7 *)
  let getCountContent := method_block code "public int getCartItemCount" in
  let hasBadgeWaitInCount := includes getCountContent (js "presenceOfElementLocated") in
  let results := push results
    {| name := js "Scenario 2: Wait Conditions - BUG 4";
       passed := hasBadgeWaitInCount;
       message := if hasBadgeWaitInCount
                  then ok_mark ++ js " PASS - Badge wait condition added"
                  else ko_mark ++
                    js " FAIL - getCartItemCount() needs presenceOfElementLocated wait" |} in
  (* Scenario 3 *)
  let fillFormContent := fillFormContent code in
  (* test 8 *)
  let hasAbsXPathInForm := includes fillFormContent (js "/html/body/div[1]") in
  let results := push results
    {| name := js "Scenario 3: Locator Strategy - BUG 1";
       passed := negb hasAbsXPathInForm;
       message := if negb hasAbsXPathInForm
                  then ok_mark ++ js " PASS - Absolute XPath removed"
                  else ko_mark ++
                    js " FAIL - Replace absolute XPath with stable ID locator" |} in
  (* test 9 *)
  let hasIndexInForm := includes code (js ":nth-child") in
  let results := push results
    {| name := js "Scenario 3: Locator Strategy - BUG 2";
       passed := negb hasIndexInForm;
       message := if negb hasIndexInForm
                  then ok_mark ++ js " PASS - Index-based selector removed"
                  else ko_mark ++
                    js " FAIL - Replace :nth-child selector with ID attribute" |} in
  (* test 10 *)
  let hasTextXPathInForm := includes code (js "contains(text(),") in
  let results := push results
    {| name := js "Scenario 3: Locator Strategy - BUG 3";
       passed := negb hasTextXPathInForm;
       message := if negb hasTextXPathInForm
                  then ok_mark ++ js " PASS - Text-based XPath removed"
                  else ko_mark ++
                    js " FAIL - Replace contains(text(),) XPath with ID locator" |} in
  (* test 11 *)
  let hasLinkTextInSubmit := includes code (js "By.linkText") in
  let results := push results
    {| name := js "Scenario 3: Locator Strategy - BUG 4";
       passed := negb hasLinkTextInSubmit;
       message := if negb hasLinkTextInSubmit
                  then ok_mark ++
                    js " PASS - LinkText replaced with stable locator"
                  else ko_mark ++
                    js " FAIL - Replace By.linkText with button type selector" |} in
  results.

(** Legacy support for individual challenges: the three cases of the
    [switch] and its [default]. *)
Definition selenium_pageobject (code : jsstring) (results : list TestResult) :
  list TestResult :=
  let hasWaitInit := includes code (js "this.wait = new WebDriverWait") || includes code (js "wait = new WebDriverWait") in
  let results := push results
    {| name := js "Test 1 (BUG 1): Fix WebDriverWait Initialization";
       passed := hasWaitInit;
       message := if hasWaitInit
                  then ok_mark ++
                    js " PASS - WebDriverWait initialized in constructor"
                  else ko_mark ++
                    js " FAIL - WebDriverWait object not initialized in constructor" |} in
  let loginMethodCode := method_text code "public void login" in
  let hasDirectFind := includes loginMethodCode (js "driver.findElement") in
  let hasWaitInLogin :=
    includes loginMethodCode (js "wait.until") && includes loginMethodCode (js "elementToBeClickable") in
  let results := push results
    {| name := js "Test 2 (BUG 2): Fix Login Method Waits";
       passed := negb hasDirectFind && hasWaitInLogin;
       message := if negb hasDirectFind && hasWaitInLogin
                  then ok_mark ++
                    js " PASS - Explicit waits added in login() method"
                  else ko_mark ++
                    js " FAIL - login() method needs explicit waits before element interactions" |} in
  let errorMethodCode := method_text code "public String getErrorMessage" in
  let hasDirectFindInError := includes errorMethodCode (js "driver.findElement(errorMessage)") in
  let hasWaitInError :=
    includes errorMethodCode (js "wait.until") &&
    (includes errorMethodCode (js "visibilityOfElementLocated") ||
     includes errorMethodCode (js "presenceOfElementLocated")) in
  let results := push results
    {| name := js "Test 3 (BUG 3): Fix Error Message Wait";
       passed := negb hasDirectFindInError && hasWaitInError;
       message := if negb hasDirectFindInError && hasWaitInError
                  then ok_mark ++
                    js " PASS - Error message wait condition added"
                  else ko_mark ++
                    js " FAIL - getErrorMessage() must wait for element visibility" |} in
  results.

Definition selenium_waits (code : jsstring) (results : list TestResult) :
  list TestResult :=
  let addProductContent := method_block code "public void addProductToCart" in
  let hasThreadSleepInAdd := includes addProductContent (js "Thread.sleep(") in
  let results := push results
    {| name := js "Test 1 (BUG 1): Remove Thread.sleep";
       passed := negb hasThreadSleepInAdd;
       message := if negb hasThreadSleepInAdd
                  then ok_mark ++
                    js " PASS - Thread.sleep replaced with proper waits"
                  else ko_mark ++
                    js " FAIL - Thread.sleep found in addProductToCart() - replace with explicit WebDriverWait" |} in
  let hasClickableInAdd := includes addProductContent (js "elementToBeClickable") in
  let results := push results
    {| name := js "Test 2 (BUG 2): Add Clickable Wait";
       passed := hasClickableInAdd;
       message := if hasClickableInAdd
                  then ok_mark ++
                    js " PASS - Using elementToBeClickable() before click in addProductToCart()"
                  else ko_mark ++
                    js " FAIL - addProductToCart() needs elementToBeClickable wait before interaction" |} in
  let isProductContent := method_block code "public boolean isProductInCart" in
  let hasTextWaitInCart := includes isProductContent (js "textToBePresentInElement") in
  let results := push results
    {| name := js "Test 3 (BUG 3): Add Cart Update Wait";
       passed := hasTextWaitInCart;
       message := if hasTextWaitInCart
                  then ok_mark ++
                    js " PASS - Cart update wait condition added in isProductInCart()"
                  else ko_mark ++
                    js " FAIL - isProductInCart() needs textToBePresentInElement wait for cart update" |} in
  let getCountContent := method_block code "public int getCartItemCount" in
  let hasBadgeWaitInCount := includes getCountContent (js "presenceOfElementLocated") in
  let results := push results
    {| name := js "Test 4 (BUG 4): Add Badge Presence Wait";
       passed := hasBadgeWaitInCount;
       message := if hasBadgeWaitInCount
                  then ok_mark ++
                    js " PASS - Badge wait condition added in getCartItemCount()"
                  else ko_mark ++
                    js " FAIL - getCartItemCount() needs presenceOfElementLocated wait for badge" |} in
  results.

Definition selenium_locators (code : jsstring) (results : list TestResult) :
  list TestResult :=
  let fillFormContent := fillFormContent code in
  let hasAbsXPathInForm := includes fillFormContent (js "/html/body/div[1]") in
  let results := push results
    {| name := js "Test 1 (BUG 1): Fix Absolute XPath";
       passed := negb hasAbsXPathInForm;
       message := if negb hasAbsXPathInForm
                  then ok_mark ++
                    js " PASS - Absolute XPath removed from fillRegistrationForm()"
                  else ko_mark ++
                    js " FAIL - fillRegistrationForm() has absolute XPath /html/body/... - use stable ID locator" |} in
  let hasIndexInForm := includes code (js ":nth-child") in
  let results := push results
    {| name := js "Test 2 (BUG 2): Fix Index-Based Selector";
       passed := negb hasIndexInForm;
       message := if negb hasIndexInForm
                  then ok_mark ++
                    js " PASS - Index-based selector removed from fillRegistrationForm()"
                  else ko_mark ++
                    js " FAIL - fillRegistrationForm() has :nth-child selector - use ID attribute" |} in
  let hasTextXPathInForm := includes code (js "contains(text(),") in
  let results := push results
    {| name := js "Test 3 (BUG 3): Fix Text-Based XPath";
       passed := negb hasTextXPathInForm;
       message := if negb hasTextXPathInForm
                  then ok_mark ++
                    js " PASS - Text-based XPath removed from fillRegistrationForm()"
                  else ko_mark ++
                    js " FAIL - fillRegistrationForm() has contains(text(),) XPath - use ID locator" |} in
  let hasLinkTextInSubmit := includes code (js "By.linkText") in
  let results := push results
    {| name := js "Test 4 (BUG 4): Fix LinkText Locator";
       passed := negb hasLinkTextInSubmit;
       message := if negb hasLinkTextInSubmit
                  then ok_mark ++
                    js " PASS - LinkText replaced with stable locator in submitForm()"
                  else ko_mark ++
                    js " FAIL - submitForm() uses By.linkText - use button type selector instead" |} in
  results.

Definition unknown_test : TestResult :=
  {| name := js "Unknown Test"; passed := false; message := js "Select a debugging challenge to see test results" |}.

(** The challenge identifiers that have a branch of their own. *)
Definition configured_variants : list jsstring :=
  [js "selenium-senior"; js "java-calculator"; js "selenium-combined"; js "selenium-pageobject"; js "selenium-waits"; js "selenium-locators"].

(** Analyze code for bug fixes. *)
Definition analyzeDebugFixes (code language : jsstring) : list TestResult :=
  let results : list TestResult := [] in
  if str_eqb language (js "selenium-senior") then selenium_senior code results
  else if str_eqb language (js "java-calculator") then java_calculator code results
  else if str_eqb language (js "selenium-combined") then selenium_combined code results
  else if str_eqb language (js "selenium-pageobject") then selenium_pageobject code results
  else if str_eqb language (js "selenium-waits") then selenium_waits code results
  else if str_eqb language (js "selenium-locators") then selenium_locators code results
  else push results unknown_test.

End Grader.
Import Grader.

(* ================================================================== *)
(** ** Keyed collections *)
(* ================================================================== *)

Module Keyed.

(** A [Map] with string keys, or an object used as one: the entries in
    insertion order, each key once. *)
Definition t (V : Type) := list (jsstring * V).

Fixpoint get {V} (m : t V) (k : jsstring) : option V :=
  match m with
  | [] => None
  | (k', v) :: m' => if str_eqb k' k then Some v else get m' k
  end.

(** [m.set(k, v)], or [{...m, [k]: v}]: an existing key keeps its place. *)
Fixpoint set {V} (m : t V) (k : jsstring) (v : V) : t V :=
  match m with
  | [] => [(k, v)]
  | (k', v') :: m' =>
      if str_eqb k' k then (k', v) :: m' else (k', v') :: set m' k v
  end.

(** [m.values()], or [Object.values(m)]. *)
Definition values {V} (m : t V) : list V := map snd m.

End Keyed.

(* ================================================================== *)
(** ** The candidate page: score aggregation *)
(* ================================================================== *)

(** Numbers are rationals here.  The points the page adds up are 0 and 1,
    so every total is a whole number, on which the page's arithmetic agrees
    with the rational one after the final [Math.round]. *)
Module Candidate.

Local Open Scope Q_scope.

Record BugResult := {
  bugNumber : Z;
  passed : bool;
  points : Q
}.

(** The scoring state of the page. *)
Record scoring := {
  bugResults : Keyed.t (list BugResult);
  totalPoints : Q
}.

Definition initial : scoring := {| bugResults := []; totalPoints := 0 |}.

(** One output line that matched the bug pattern: the number after [BUG]
    and whether the word after it was [PASS]. *)
Definition bug_line := (Z * bool)%type.

Definition bugOfLine (l : bug_line) : BugResult :=
  let bugNumber := fst l in
  let passed := snd l in
  (* Each bug is worth 1 point (10 bugs = 10 points) *)
  let bugPoints : Q := if passed then 1 else 0 in
  {| bugNumber := bugNumber; passed := passed; points := bugPoints |}.

(** [Object.values(r).flat().reduce((sum, bug) => sum + bug.points, 0)]. *)
Definition sumPoints (r : Keyed.t (list BugResult)) : Q :=
  fold_left (fun sum bug => sum + points bug)
            (List.concat (Keyed.values r)) 0.

(** The [execution-result] handler, from the parsed lines on: [lines] are
    the lines of the output that matched, in order. *)
Definition on_execution_result (language : jsstring) (lines : list bug_line)
           (st : scoring) : scoring :=
  let bugTestResults := map bugOfLine lines in
  if (0 <? List.length bugTestResults)%nat then
    let updatedResults := Keyed.set (bugResults st) language bugTestResults in
    let total := sumPoints updatedResults in
    (* Cap at 10 points maximum *)
    let cappedTotal := Qmin total 10 in
    {| bugResults := updatedResults; totalPoints := cappedTotal |}
  else st.

Record Score := {
  score : Q;
  percentage : Z;
  bugsPassed : nat;
  totalBugs : nat
}.

Definition calculateScore (st : scoring) : Score :=
  let allBugs := List.concat (Keyed.values (bugResults st)) in
  let bugsPassed := List.length (filter passed allBugs) in
  let totalBugs := List.length allBugs in
  (* Round total points to 1 decimal and cap at 10 *)
  let rawScore := inject_Z (Math_round (totalPoints st * 10)) / 10 in
  let score := Qmin rawScore 10 in
  let percentage := Math_round ((score / 10) * 100) in
  {| score := score; percentage := percentage;
     bugsPassed := bugsPassed; totalBugs := totalBugs |}.

(** The payload of [test-submitted]. *)
Record Submission := {
  sessionId : jsstring;
  candidateName : option jsstring;
  sub_score : Q;
  sub_percentage : Z;
  sub_bugsPassed : nat;
  sub_totalBugs : nat;
  completedChallenges : list jsstring;
  sub_bugResults : Keyed.t (list BugResult);
  timeUsed : Z;
  submittedAt : jsstring;
  isAutoSubmit : bool
}.

(** What [handleSubmitTest] sends. *)
Definition handleSubmitTest (sid : jsstring) (name : option jsstring)
           (completed : list jsstring) (timeRemaining : Z)
           (isoNow : jsstring) (st : scoring) : Submission :=
  let sc := calculateScore st in
  {| sessionId := sid;
     candidateName := name;
     sub_score := score sc;
     sub_percentage := percentage sc;
     sub_bugsPassed := bugsPassed sc;
     sub_totalBugs := totalBugs sc;
     completedChallenges := completed;
     sub_bugResults := bugResults st;
     timeUsed := (15 * 60 - timeRemaining)%Z;
     submittedAt := isoNow;
     isAutoSubmit := Z.eqb timeRemaining 0 |}.

(** The states the page can be in. *)
Inductive reachable : scoring -> Prop :=
| page_initial : reachable initial
| page_result st language lines :
    reachable st -> reachable (on_execution_result language lines st).

End Candidate.

(* ================================================================== *)
(** ** The server *)
(* ================================================================== *)

Module Server.

Local Open Scope Z_scope.

Inductive Status := waiting | active | completed.

Definition Status_eqb (a b : Status) : bool :=
  match a, b with
  | waiting, waiting | active, active | completed, completed => true
  | _, _ => false
  end.

(** What the [output] text of a run is rendered from: the results in
    order, the line [Bugs Fixed: passedTests/totalTests] and the line
    [Score: totalPoints.toFixed(1)/10.0 points]. *)
Record Report := {
  testResults : list TestResult;
  passedTests : nat;
  totalTests : nat;
  totalPoints : Q
}.

Record InterviewSession := {
  id : jsstring;
  candidateName : jsstring;
  problem : jsstring;
  problemDescription : jsstring;
  code : jsstring;
  language : jsstring;
  status : Status;
  output : option Report;
  createdAt : Z;
  isInstructionPhase : option bool;
  instructionTimeRemaining : option Z;
  codingTimeRemaining : option Z;
  lastTimerUpdate : option Z   (* Unix timestamp in milliseconds *)
}.

(** Assignments to the fields of a session. *)
Definition set_code (s : InterviewSession) (v : jsstring) :=
  {| id := id s; candidateName := candidateName s; problem := problem s;
     problemDescription := problemDescription s; code := v;
     language := language s; status := status s; output := output s;
     createdAt := createdAt s; isInstructionPhase := isInstructionPhase s;
     instructionTimeRemaining := instructionTimeRemaining s;
     codingTimeRemaining := codingTimeRemaining s;
     lastTimerUpdate := lastTimerUpdate s |}.

Definition set_language (s : InterviewSession) (v : jsstring) :=
  {| id := id s; candidateName := candidateName s; problem := problem s;
     problemDescription := problemDescription s; code := code s;
     language := v; status := status s; output := output s;
     createdAt := createdAt s; isInstructionPhase := isInstructionPhase s;
     instructionTimeRemaining := instructionTimeRemaining s;
     codingTimeRemaining := codingTimeRemaining s;
     lastTimerUpdate := lastTimerUpdate s |}.

Definition set_status (s : InterviewSession) (v : Status) :=
  {| id := id s; candidateName := candidateName s; problem := problem s;
     problemDescription := problemDescription s; code := code s;
     language := language s; status := v; output := output s;
     createdAt := createdAt s; isInstructionPhase := isInstructionPhase s;
     instructionTimeRemaining := instructionTimeRemaining s;
     codingTimeRemaining := codingTimeRemaining s;
     lastTimerUpdate := lastTimerUpdate s |}.

Definition set_output (s : InterviewSession) (v : option Report) :=
  {| id := id s; candidateName := candidateName s; problem := problem s;
     problemDescription := problemDescription s; code := code s;
     language := language s; status := status s; output := v;
     createdAt := createdAt s; isInstructionPhase := isInstructionPhase s;
     instructionTimeRemaining := instructionTimeRemaining s;
     codingTimeRemaining := codingTimeRemaining s;
     lastTimerUpdate := lastTimerUpdate s |}.

Definition set_isInstructionPhase (s : InterviewSession) (v : option bool) :=
  {| id := id s; candidateName := candidateName s; problem := problem s;
     problemDescription := problemDescription s; code := code s;
     language := language s; status := status s; output := output s;
     createdAt := createdAt s; isInstructionPhase := v;
     instructionTimeRemaining := instructionTimeRemaining s;
     codingTimeRemaining := codingTimeRemaining s;
     lastTimerUpdate := lastTimerUpdate s |}.

Definition set_instructionTimeRemaining (s : InterviewSession) (v : option Z) :=
  {| id := id s; candidateName := candidateName s; problem := problem s;
     problemDescription := problemDescription s; code := code s;
     language := language s; status := status s; output := output s;
     createdAt := createdAt s; isInstructionPhase := isInstructionPhase s;
     instructionTimeRemaining := v;
     codingTimeRemaining := codingTimeRemaining s;
     lastTimerUpdate := lastTimerUpdate s |}.

Definition set_codingTimeRemaining (s : InterviewSession) (v : option Z) :=
  {| id := id s; candidateName := candidateName s; problem := problem s;
     problemDescription := problemDescription s; code := code s;
     language := language s; status := status s; output := output s;
     createdAt := createdAt s; isInstructionPhase := isInstructionPhase s;
     instructionTimeRemaining := instructionTimeRemaining s;
     codingTimeRemaining := v;
     lastTimerUpdate := lastTimerUpdate s |}.

Definition set_lastTimerUpdate (s : InterviewSession) (v : option Z) :=
  {| id := id s; candidateName := candidateName s; problem := problem s;
     problemDescription := problemDescription s; code := code s;
     language := language s; status := status s; output := output s;
     createdAt := createdAt s; isInstructionPhase := isInstructionPhase s;
     instructionTimeRemaining := instructionTimeRemaining s;
     codingTimeRemaining := codingTimeRemaining s;
     lastTimerUpdate := v |}.

(** [Math.floor((Date.now() - t) / 1000)]. *)
Definition elapsedSecondsSince (now t : Z) : Z := (now - t) / 1000.

(** Helper function to calculate adjusted timer values based on elapsed
    time; [now] is what [Date.now()] returns. *)
Definition getSessionWithAdjustedTimer (now : Z) (session : InterviewSession) :
  InterviewSession :=
  if negb (truthy_num (lastTimerUpdate session)) then
    (* No previous update, return as-is *)
    session
  else
    let elapsedSeconds :=
      elapsedSecondsSince now (nullish (lastTimerUpdate session) 0) in
    if elapsedSeconds <=? 0 then session
    else
      let adjustedInstructionTime :=
        nullish (instructionTimeRemaining session) 60 in
      let adjustedCodingTime := nullish (codingTimeRemaining session) 900 in
      let '(adjustedInstructionTime, adjustedCodingTime) :=
        if truthy_bool (isInstructionPhase session) then
          (Z.max 0 (nullish (instructionTimeRemaining session) 60
                    - elapsedSeconds),
           adjustedCodingTime)
        else
          (adjustedInstructionTime,
           Z.max 0 (nullish (codingTimeRemaining session) 900
                    - elapsedSeconds)) in
      set_codingTimeRemaining
        (set_instructionTimeRemaining session (Some adjustedInstructionTime))
        (Some adjustedCodingTime).

(** The table of problems: title and description. *)
Definition problems : Keyed.t jsstring :=
  [ (js "Selenium Debugging",
     (js "Debugging Challenge: Find and fix bugs in Selenium WebDriver automation code." ++
       nl ++
      js "    " ++ nl ++
      js "Common issues include:" ++ nl ++
      js "- Missing WebDriverWait initialization" ++ nl ++
      js "- Using Thread.sleep instead of explicit waits" ++ nl ++
      js "- Fragile locators (absolute XPath, index-based selectors)" ++ nl ++
      js "- No wait conditions for dynamic elements"));
    (js "SpringBoot Testing",
     (js "Debugging Challenge: Fix issues in SpringBoot unit tests and mocks." ++
       nl ++
      js "    " ++ nl ++
      js "Common issues include:" ++ nl ++
      js "- Missing MockitoAnnotations.openMocks()" ++ nl ++
      js "- Incorrect Optional handling in mocks" ++ nl ++
      js "- Wrong repository methods being mocked" ++ nl ++
      js "- Assertion mismatches")) ].

Definition bar (n : nat) : jsstring := List.concat (repeat [226; 8226]%N n).

(** The Selenium Senior Automation Engineer challenge every session
    starts with. *)
Definition defaultCode : jsstring :=
  js "// " ++ bar 63 ++ nl ++
  js "// NICE ACTIMIZE - SENIOR AUTOMATION ENGINEER TEST" ++ nl ++
  js "// Selenium WebDriver Debugging Challenge (7+ Years Experience)" ++
    nl ++
  js "// Fix all 10 bugs across 3 real-world scenarios" ++ nl ++
  js "// Each bug is worth 1 point (Total: 10 points)" ++ nl ++
  js "// " ++ bar 63 ++ nl ++
  nl ++
  nl ++
  js "import org.openqa.selenium.*;" ++ nl ++
  js "import org.openqa.selenium.support.ui.*;" ++ nl ++
  js "import java.time.Duration;" ++ nl ++
  js "import java.util.List;" ++ nl ++
  nl ++
  js "// " ++ bar 63 ++ nl ++
  js "// SCENARIO 1: Login & Authentication (3 bugs)" ++ nl ++
  js "// " ++ bar 63 ++ nl ++
  nl ++
  js "public class SecureLoginPage {" ++ nl ++
  js "    private WebDriver driver;" ++ nl ++
  js "    private WebDriverWait wait;" ++ nl ++
  js "    " ++ nl ++
  js "    // Locators" ++ nl ++
  js "    private By usernameField = By.id(" ++ q "username" ++ js ");" ++
    nl ++
  js "    private By passwordField = By.id(" ++ q "password" ++ js ");" ++
    nl ++
  js "    private By loginButton = By.xpath(" ++
    q "//button[@type='submit']" ++ js ");" ++ nl ++
  js "    private By errorMessage = By.className(" ++ q "error-msg" ++
    js ");" ++ nl ++
  js "    private By successMessage = By.id(" ++ q "welcome-msg" ++
    js ");" ++ nl ++
  js "    " ++ nl ++
  js "    public SecureLoginPage(WebDriver driver) {" ++ nl ++
  js "        this.driver = driver;" ++ nl ++
  js "        // BUG 1: WebDriverWait not initialized - causes NullPointerException" ++
    nl ++
  js "    }" ++ nl ++
  js "    " ++ nl ++
  js "    public void enterCredentials(String username, String password) {" ++ nl ++
  js "        // BUG 2: Direct findElement without wait - fails on slow networks" ++
    nl ++
  js "        driver.findElement(usernameField).sendKeys(username);" ++ nl ++
  js "        driver.findElement(passwordField).sendKeys(password);" ++ nl ++
  js "    }" ++ nl ++
  js "    " ++ nl ++
  js "    public void clickLogin() {" ++ nl ++
  js "        driver.findElement(loginButton).click();" ++ nl ++
  js "    }" ++ nl ++
  js "    " ++ nl ++
  js "    public String getErrorMessage() {" ++ nl ++
  js "        // BUG 3: No explicit wait for error message visibility" ++
    nl ++
  js "        return driver.findElement(errorMessage).getText();" ++ nl ++
  js "    }" ++ nl ++
  js "    " ++ nl ++
  js "    public boolean isLoginSuccessful() {" ++ nl ++
  js "        return wait.until(ExpectedConditions.visibilityOfElementLocated(successMessage)).isDisplayed();" ++
    nl ++
  js "    }" ++ nl ++
  js "}" ++ nl ++
  nl ++
  js "// " ++ bar 63 ++ nl ++
  js "// SCENARIO 2: Dynamic Content & Synchronization (4 bugs)" ++ nl ++
  js "// " ++ bar 63 ++ nl ++
  nl ++
  js "public class DynamicDashboard {" ++ nl ++
  js "    private WebDriver driver;" ++ nl ++
  js "    private WebDriverWait wait;" ++ nl ++
  js "    " ++ nl ++
  js "    public DynamicDashboard(WebDriver driver) {" ++ nl ++
  js "        this.driver = driver;" ++ nl ++
  js "        this.wait = new WebDriverWait(driver, Duration.ofSeconds(10));" ++ nl ++
  js "    }" ++ nl ++
  js "    " ++ nl ++
  js "    public void loadUserProfile(String userId) {" ++ nl ++
  js "        driver.get(" ++ q "https://app.example.com/profile/" ++
    js " + userId);" ++ nl ++
  js "        " ++ nl ++
  js "        // BUG 4: Using Thread.sleep instead of explicit wait" ++ nl ++
  js "        try {" ++ nl ++
  js "            Thread.sleep(3000);  // BAD PRACTICE!" ++ nl ++
  js "        } catch (InterruptedException e) {" ++ nl ++
  js "            e.printStackTrace();" ++ nl ++
  js "        }" ++ nl ++
  js "    }" ++ nl ++
  js "    " ++ nl ++
  js "    public void clickEditButton() {" ++ nl ++
  js "        // BUG 5: Not waiting for element to be clickable" ++ nl ++
  js "        WebElement editBtn = driver.findElement(By.id(" ++
    q "edit-profile-btn" ++ js "));" ++ nl ++
  js "        editBtn.click();" ++ nl ++
  js "    }" ++ nl ++
  js "    " ++ nl ++
  js "    public boolean isDataLoaded() {" ++ nl ++
  js "        // BUG 6: Missing wait for AJAX call completion" ++ nl ++
  js "        WebElement dataTable = driver.findElement(By.id(" ++
    q "profile-data" ++ js "));" ++ nl ++
  js "        return dataTable.isDisplayed();" ++ nl ++
  js "    }" ++ nl ++
  js "    " ++ nl ++
  js "    public int getNotificationCount() {" ++ nl ++
  js "        // BUG 7: Element might not be present in DOM yet" ++ nl ++
  js "        WebElement badge = driver.findElement(By.className(" ++
    q "notification-badge" ++ js "));" ++ nl ++
  js "        return Integer.parseInt(badge.getText());" ++ nl ++
  js "    }" ++ nl ++
  js "}" ++ nl ++
  nl ++
  js "// " ++ bar 63 ++ nl ++
  js "// SCENARIO 3: Complex Form Handling (3 bugs)" ++ nl ++
  js "// " ++ bar 63 ++ nl ++
  nl ++
  js "public class RegistrationForm {" ++ nl ++
  js "    private WebDriver driver;" ++ nl ++
  js "    private WebDriverWait wait;" ++ nl ++
  js "    " ++ nl ++
  js "    public RegistrationForm(WebDriver driver) {" ++ nl ++
  js "        this.driver = driver;" ++ nl ++
  js "        this.wait = new WebDriverWait(driver, Duration.ofSeconds(15));" ++ nl ++
  js "    }" ++ nl ++
  js "    " ++ nl ++
  js "    public void fillUserDetails(String name, String email, String phone) {" ++
    nl ++
  js "        // BUG 8: Fragile absolute XPath - breaks when UI structure changes" ++
    nl ++
  js "        WebElement nameField = driver.findElement(" ++ nl ++
  js "            By.xpath(" ++
    q "/html/body/div[1]/div[2]/form/div[1]/input" ++ js ")" ++ nl ++
  js "        );" ++ nl ++
  js "        nameField.sendKeys(name);" ++ nl ++
  js "        " ++ nl ++
  js "        // BUG 9: Index-based CSS selector - unreliable" ++ nl ++
  js "        WebElement emailField = driver.findElement(" ++ nl ++
  js "            By.cssSelector(" ++ q "input:nth-child(2)" ++ js ")" ++
    nl ++
  js "        );" ++ nl ++
  js "        emailField.sendKeys(email);" ++ nl ++
  js "        " ++ nl ++
  js "        // Use stable locator for phone (CORRECT)" ++ nl ++
  js "        driver.findElement(By.id(" ++ q "phone" ++
    js ")).sendKeys(phone);" ++ nl ++
  js "    }" ++ nl ++
  js "    " ++ nl ++
  js "    public void selectCountry(String country) {" ++ nl ++
  js "        Select countryDropdown = new Select(driver.findElement(By.id(" ++ q "country" ++
    js ")));" ++ nl ++
  js "        countryDropdown.selectByVisibleText(country);" ++ nl ++
  js "    }" ++ nl ++
  js "    " ++ nl ++
  js "    public void submitForm() {" ++ nl ++
  js "        // BUG 10: Using link text that's locale-dependent" ++ nl ++
  js "        WebElement submitBtn = driver.findElement(" ++ nl ++
  js "            By.linkText(" ++ q "Submit Registration" ++ js ")" ++ nl ++
  js "        );" ++ nl ++
  js "        submitBtn.click();" ++ nl ++
  js "    }" ++ nl ++
  js "    " ++ nl ++
  js "    public boolean isRegistrationSuccessful() {" ++ nl ++
  js "        return wait.until(ExpectedConditions.urlContains(" ++
    q "/success" ++ js "));" ++ nl ++
  js "    }" ++ nl ++
  js "}".

(** What is sent: the event with its payload. *)
Inductive message :=
| sessions_list (l : list InterviewSession)
| session_created (s : InterviewSession)
| session_not_found
| session_expired (text : jsstring)
| session_data (s : InterviewSession)
| code_update (sessionId code language : jsstring)
| language_update (sessionId language : jsstring)
| timer_update (sessionId : jsstring) (isInstructionPhase : bool)
               (instructionTimeRemaining codingTimeRemaining : Z)
| execution_result (sessionId : jsstring) (output : Report) (success : bool)
| execution_update (sessionId : jsstring) (output : Report) (success : bool)
| paste_detected (sessionId candidateName timestamp : jsstring)
| candidate_test_results (results : Candidate.Submission).

(** To whom: [socket.emit], [io.emit], [socket.broadcast.emit]. *)
Inductive audience := to_sender | to_all | to_others.

Definition emission := (audience * message)%type.

(** The connections an emission of [sender]'s handler reaches, among the
    connected [sockets]. *)
Definition recipients (sockets : list jsstring) (sender : jsstring)
           (a : audience) : list jsstring :=
  match a with
  | to_sender => [sender]
  | to_all => sockets
  | to_others => filter (fun c => negb (str_eqb c sender)) sockets
  end.

(** Who receives what, for the emissions of one handler run. *)
Definition deliveries (sockets : list jsstring) (sender : jsstring)
           (out : list emission) : list (jsstring * message) :=
  flat_map (fun e => map (fun c => (c, snd e))
                         (recipients sockets sender (fst e))) out.

Record server := {
  sessions : Keyed.t InterviewSession;
  sockets : list jsstring;                (* the connected socket ids *)
  rooms : list (jsstring * jsstring)      (* socket id, room *)
}.

Definition initial : server :=
  {| sessions := []; sockets := []; rooms := [] |}.

Definition with_sessions (st : server) (m : Keyed.t InterviewSession) :=
  {| sessions := m; sockets := sockets st; rooms := rooms st |}.

(** What a handler run takes from outside: the clock, the identifier
    [uuidv4()] draws and the text of [toLocaleTimeString()].  One run reads
    the clock as one instant. *)
Record env := {
  now : Z;
  uuid : jsstring;
  localeTime : jsstring
}.

(** [socket.on('get-sessions')]. *)
Definition on_get_sessions (st : server) (e : env) : server * list emission :=
  (* Calculate adjusted timer values for all sessions before sending *)
  let sessionsList :=
    map (getSessionWithAdjustedTimer (now e)) (Keyed.values (sessions st)) in
  (st, [(to_sender, sessions_list sessionsList)]).

(** [socket.on('create-session')]. *)
Definition on_create_session (st : server) (e : env)
           (candidateName problemTitle : jsstring) : server * list emission :=
  let sessionId := uuid e in
  let problem :=
    match Keyed.get problems problemTitle with
    | Some p => p
    | None => nullish (Keyed.get problems (js "Selenium Debugging")) []
    end in
  let session :=
    {| id := sessionId;
       candidateName := candidateName;
       problem := problemTitle;
       problemDescription := problem;
       code := defaultCode;
       language := js "selenium-senior";
       status := waiting;
       output := None;
       createdAt := now e;
       isInstructionPhase := None;
       instructionTimeRemaining := None;
       codingTimeRemaining := None;
       lastTimerUpdate := None |} in
  (with_sessions st (Keyed.set (sessions st) sessionId session),
   [(to_all, session_created session)]).

(** [socket.join(room)]. *)
Definition join_room (st : server) (socket room : jsstring) : server :=
  if existsb (fun r => str_eqb (fst r) socket && str_eqb (snd r) room)
             (rooms st)
  then st
  else {| sessions := sessions st; sockets := sockets st;
          rooms := rooms st ++ [(socket, room)] |}.

(** [socket.on('join-session')]. *)
Definition on_join_session (st : server) (socket : jsstring) (e : env)
           (sessionId : jsstring) : server * list emission :=
  match Keyed.get (sessions st) sessionId with
  | None => (st, [(to_sender, session_not_found)])
  | Some session =>
      (* Check if session is already completed/expired *)
      if Status_eqb (status session) completed then
        (st, [(to_sender, session_expired (js "This interview session has been completed and the link is no longer valid."))])
      else
        let st := join_room st socket sessionId in
        let session := set_status session active in
        (* Calculate elapsed time since last update to properly resume timer *)
        let adjustedInstructionTime :=
          nullish (instructionTimeRemaining session) 60 in
        let adjustedCodingTime := nullish (codingTimeRemaining session) 900 in
        let '(adjustedInstructionTime, adjustedCodingTime) :=
          if truthy_num (lastTimerUpdate session) then
            let elapsedSeconds :=
              elapsedSecondsSince (now e) (nullish (lastTimerUpdate session) 0) in
            if truthy_bool (isInstructionPhase session) then
              (Z.max 0 (nullish (instructionTimeRemaining session) 60
                        - elapsedSeconds),
               adjustedCodingTime)
            else
              (adjustedInstructionTime,
               Z.max 0 (nullish (codingTimeRemaining session) 900
                        - elapsedSeconds))
          else (adjustedInstructionTime, adjustedCodingTime) in
        (* Update session with adjusted times *)
        let session :=
          set_instructionTimeRemaining session (Some adjustedInstructionTime) in
        let session :=
          set_codingTimeRemaining session (Some adjustedCodingTime) in
        let session := set_lastTimerUpdate session (Some (now e)) in
        let st := with_sessions st (Keyed.set (sessions st) sessionId session) in
        (* Include timer state for resume after refresh *)
        let data :=
          set_codingTimeRemaining
            (set_instructionTimeRemaining
               (set_isInstructionPhase session
                  (Some (nullish (isInstructionPhase session) true)))
               (Some adjustedInstructionTime))
            (Some adjustedCodingTime) in
        (* Broadcast updated sessions list with adjusted timers to all clients *)
        let sessionsList :=
          map (getSessionWithAdjustedTimer (now e))
              (Keyed.values (sessions st)) in
        (st, [(to_sender, session_data data);
              (to_all, sessions_list sessionsList)])
  end.

(** [socket.on('code-change')]. *)
Definition on_code_change (st : server) (sessionId code : jsstring)
           (language : option jsstring) : server * list emission :=
  match Keyed.get (sessions st) sessionId with
  | Some session =>
      let session := set_code session code in
      let session :=
        if truthy_str language then set_language session (nullish language [])
        else session in
      (* Broadcast to all clients EXCEPT the sender to prevent cursor jumping *)
      (with_sessions st (Keyed.set (sessions st) sessionId session),
       [(to_others, code_update sessionId code (Server.language session))])
  | None => (st, [])
  end.

(** [socket.on('language-change')]. *)
Definition on_language_change (st : server) (sessionId language : jsstring) :
  server * list emission :=
  match Keyed.get (sessions st) sessionId with
  | Some session =>
      let session := set_language session language in
      (* Broadcast to all clients EXCEPT the sender *)
      (with_sessions st (Keyed.set (sessions st) sessionId session),
       [(to_others, language_update sessionId language)])
  | None => (st, [])
  end.

(** [socket.on('timer-update')]. *)
Definition on_timer_update (st : server) (e : env) (sessionId : jsstring)
           (isInstructionPhase : bool)
           (instructionTimeRemaining codingTimeRemaining : Z) :
  server * list emission :=
  match Keyed.get (sessions st) sessionId with
  | Some session =>
      let session := set_isInstructionPhase session (Some isInstructionPhase) in
      let session :=
        set_instructionTimeRemaining session (Some instructionTimeRemaining) in
      let session :=
        set_codingTimeRemaining session (Some codingTimeRemaining) in
      (* Save timestamp for resume calculation *)
      let session := set_lastTimerUpdate session (Some (now e)) in
      (* Broadcast timer update to all clients (especially interviewer) *)
      (with_sessions st (Keyed.set (sessions st) sessionId session),
       [(to_all, timer_update sessionId isInstructionPhase
                              instructionTimeRemaining codingTimeRemaining)])
  | None => (st, [])
  end.

(** The figures of a run of [execute-code] and its [success] flag. *)
Definition run_tests (code language : jsstring) : Report * bool :=
  (* Analyze the code and provide test results *)
  let testResults := analyzeDebugFixes code language in
  let passedTests := List.length (filter Grader.passed testResults) in
  let totalTests := List.length testResults in
  let totalPoints := (inject_Z (Z.of_nat passedTests) * 1)%Q in
  let success :=
    if (passedTests =? totalTests)%nat then true
    else if (7 <=? passedTests)%nat then false
    else false in
  ({| testResults := testResults; passedTests := passedTests;
      totalTests := totalTests; totalPoints := totalPoints |}, success).

(** [socket.on('execute-code')].  Nothing in the run throws on strings, so
    the [catch] branch is not entered. *)
Definition on_execute_code (st : server) (sessionId code language : jsstring) :
  server * list emission :=
  let '(output, success) := run_tests code language in
  let first := (to_sender, execution_result sessionId output success) in
  (* Store output in session and broadcast to all clients *)
  match Keyed.get (sessions st) sessionId with
  | Some session =>
      let session := set_output session (Some output) in
      (with_sessions st (Keyed.set (sessions st) sessionId session),
       [first; (to_all, execution_update sessionId output success)])
  | None => (st, [first])
  end.

(** [socket.on('paste-attempt')]. *)
Definition on_paste_attempt (st : server) (e : env) (sessionId : jsstring) :
  server * list emission :=
  match Keyed.get (sessions st) sessionId with
  | Some session =>
      let timestamp := localeTime e in
      (* Notify all clients (especially interviewers) about the paste attempt *)
      (st, [(to_all, paste_detected sessionId (candidateName session) timestamp)])
  | None => (st, [])
  end.

(** [socket.on('test-submitted')]. *)
Definition on_test_submitted (st : server) (results : Candidate.Submission) :
  server * list emission :=
  (* Mark session as completed *)
  let st :=
    match Keyed.get (sessions st) (Candidate.sessionId results) with
    | Some session =>
        let session := set_status session completed in
        with_sessions st
          (Keyed.set (sessions st) (Candidate.sessionId results) session)
    | None => st
    end in
  (* Broadcast results to all clients (especially interviewer) *)
  (st, [(to_all, candidate_test_results results)]).

(** [io.on('connection')] and [socket.on('disconnect')]. *)
Definition on_connection (st : server) (socket : jsstring) : server :=
  {| sessions := sessions st; sockets := sockets st ++ [socket];
     rooms := rooms st |}.

Definition on_disconnect (st : server) (socket : jsstring) : server :=
  {| sessions := sessions st;
     sockets := filter (fun c => negb (str_eqb c socket)) (sockets st);
     rooms := filter (fun r => negb (str_eqb (fst r) socket)) (rooms st) |}.

(** What a connection can send. *)
Inductive event :=
| connection
| get_sessions
| create_session (candidateName problemTitle : jsstring)
| join_session (sessionId : jsstring)
| code_change (sessionId code : jsstring) (language : option jsstring)
| language_change (sessionId language : jsstring)
| timer_update_event (sessionId : jsstring) (isInstructionPhase : bool)
                     (instructionTimeRemaining codingTimeRemaining : Z)
| execute_code (sessionId code language : jsstring)
| paste_attempt (sessionId : jsstring)
| test_submitted (results : Candidate.Submission)
| disconnect.

(** One turn of the event loop: the handler of [ev] runs to completion for
    the connection [socket]. *)
Definition handle (st : server) (socket : jsstring) (e : env) (ev : event) :
  server * list emission :=
  match ev with
  | connection => (on_connection st socket, [])
  | get_sessions => on_get_sessions st e
  | create_session n t => on_create_session st e n t
  | join_session sid => on_join_session st socket e sid
  | code_change sid c l => on_code_change st sid c l
  | language_change sid l => on_language_change st sid l
  | timer_update_event sid b i c => on_timer_update st e sid b i c
  | execute_code sid c l => on_execute_code st sid c l
  | paste_attempt sid => on_paste_attempt st e sid
  | test_submitted r => on_test_submitted st r
  | disconnect => (on_disconnect st socket, [])
  end.

(** The states the server goes through, from start-up. *)
Inductive reachable : server -> Prop :=
| reach_initial : reachable initial
| reach_handle st socket e ev :
    reachable st -> reachable (fst (handle st socket e ev)).

(** A run of events: each with its connection and what it takes from
    outside. *)
Fixpoint run_events (st : server) (l : list (jsstring * env * event)) : server :=
  match l with
  | [] => st
  | (socket, e, ev) :: l' => run_events (fst (handle st socket e ev)) l'
  end.

End Server.
Import Server.

(* ================================================================== *)
(** ** Scenarios *)
(* ================================================================== *)

Module Scenario.

Local Open Scope Z_scope.

Definition candidate : jsstring := js "socket-candidate".
Definition interviewer : jsstring := js "socket-interviewer".
Definition sid : jsstring := js "3f0c1c1e-0d8a-4c55-9a51-2f6f3b1d7e10".

(** The clock at the moment the session is created, in milliseconds. *)
Definition t0 : Z := 1700000000000.

Definition at_ (t : Z) : env :=
  {| now := t; uuid := sid; localeTime := js "10:15:00 AM" |}.

(** Two connections; the interviewer creates a session and the candidate
    joins it. *)
Definition joined : server :=
  run_events initial
    [ (interviewer, at_ t0, connection);
      (candidate, at_ t0, connection);
      (interviewer, at_ t0,
       create_session (js "Ada") (js "Selenium Debugging"));
      (candidate, at_ (t0 + 5000), join_session sid) ].

(** The candidate is in the coding phase with 120 seconds left when the
    last timer update reaches the server. *)
Definition coding_120 : server :=
  run_events joined
    [ (candidate, at_ (t0 + 70000), timer_update_event sid false 0 120) ].

(** What the page submits without a single run of the tests. *)
(** Eleven passing lines, as a run on the combined challenge would give. *)
Definition eleven_passes : list Candidate.bug_line :=
  map (fun n => (Z.of_nat n, true)) (seq 1 11).

Definition submission : Candidate.Submission :=
  Candidate.handleSubmitTest sid (Some (js "Ada")) [] 100
    (js "2023-11-14T22:14:30.000Z") Candidate.initial.

(** The candidate submits. *)
Definition submitted : server :=
  run_events coding_120
    [ (candidate, at_ (t0 + 80000), test_submitted submission) ].

(** A session object with a stamp and no remaining times: no run of the
    handlers leaves one in the store. *)
Definition stamped_only : InterviewSession :=
  {| id := sid; candidateName := js "Ada"; problem := js "Selenium Debugging";
     problemDescription := []; code := []; language := js "selenium-senior";
     status := active; output := None; createdAt := t0;
     isInstructionPhase := Some false; instructionTimeRemaining := None;
     codingTimeRemaining := Some 30; lastTimerUpdate := Some t0 |}.

(** A calculator with every one of the eight bugs fixed. *)
Definition fixed_calculator : jsstring :=
  js "public class Calculator {" ++ nl ++
  js "  public double add(double a, double b) { return a + b; }" ++ nl ++
  js "  public double subtract(double a, double b) { return a - b; }" ++ nl ++
  js "  public double multiply(double a, double b) {" ++ nl ++
  js "    double result = a * b;" ++ nl ++
  js "    return result;" ++ nl ++
  js "  }" ++ nl ++
  js "  public double divide(double a, double b) {" ++ nl ++
  js "    if (b == 0) throw new ArithmeticException();" ++ nl ++
  js "    return a / b;" ++ nl ++
  js "  }" ++ nl ++
  js "  public double power(double base, int exponent) {" ++ nl ++
  js "    return Math.pow(base, exponent);" ++ nl ++
  js "  }" ++ nl ++
  js "  public double average(double[] numbers) {" ++ nl ++
  js "    double sum = total(numbers);" ++ nl ++
  js "    return sum / numbers.length;" ++ nl ++
  js "  }" ++ nl ++
  js "  public double findMax(double[] numbers) {" ++ nl ++
  js "    double max = numbers[0];" ++ nl ++
  js "    for (int i = 1; i < numbers.length; i++)" ++ nl ++
  js "      if (numbers[i] > max) max = numbers[i];" ++ nl ++
  js "    return max;" ++ nl ++
  js "  }" ++ nl ++
  js "  public int getHistorySize() { return history.size(); }" ++ nl ++
  js "}".

(** A page object whose constructor initializes the wait and nothing else
    is repaired. *)
Definition wait_initialized : jsstring :=
  js "public LoginPage(WebDriver driver) {" ++ nl ++
  js "  this.driver = driver;" ++ nl ++
  js "  this.wait = new WebDriverWait(driver, Duration.ofSeconds(10));" ++ nl ++
  js "}" ++ nl ++
  js "public void login(String u, String p) {" ++ nl ++
  js "  driver.findElement(usernameField).sendKeys(u);" ++ nl ++
  js "}" ++ nl ++
  js "public String getErrorMessage() {" ++ nl ++
  js "  return driver.findElement(errorMessage).getText();" ++ nl ++
  js "}".

End Scenario.

(* ================================================================== *)
(** ** Invariants and tables used in the statements *)
(* ================================================================== *)

(** A session that carries a clock stamp carries both remaining times. *)
Definition stamped_with_times (s : InterviewSession) : Prop :=
  match lastTimerUpdate s with
  | None => True
  | Some _ =>
      instructionTimeRemaining s <> None /\ codingTimeRemaining s <> None
  end.

Definition store_ok (st : server) : Prop :=
  Forall stamped_with_times (Keyed.values (sessions st)).

(** The fields of a session other than the two remaining times. *)
Definition untimed (s : InterviewSession) :=
  (id s, candidateName s, problem s, problemDescription s, Server.code s,
   Server.language s, status s, output s, createdAt s, isInstructionPhase s,
   lastTimerUpdate s).

(** How many results each branch of [analyzeDebugFixes] pushes. *)
Definition rule_count (language : jsstring) : nat :=
  if str_eqb language (js "selenium-senior") then 10
  else if str_eqb language (js "java-calculator") then 8
  else if str_eqb language (js "selenium-combined") then 11
  else if str_eqb language (js "selenium-pageobject") then 3
  else if str_eqb language (js "selenium-waits") then 4
  else if str_eqb language (js "selenium-locators") then 4
  else 1.

(** [lines'] is [lines] with some outcomes flipped from fail to pass. *)
Definition flipped_to_pass (lines lines' : list Candidate.bug_line) : Prop :=
  Forall2 (fun l l' => fst l = fst l' /\ (snd l = true -> snd l' = true))
          lines lines'.

(** A bug result as the page builds it: one point when passed, none
    otherwise. *)
Definition unit_points (b : Candidate.BugResult) : Prop :=
  Candidate.points b = if Candidate.passed b then 1%Q else 0%Q.

(** The sum of the points of a list of bug results. *)
Definition points_sum (l : list Candidate.BugResult) : Q :=
  fold_right (fun b s => (Candidate.points b + s)%Q) 0%Q l.

(** What holds of every state of the page: unit points throughout, and a
    whole total between 0 and 10. *)
Definition scoring_ok (st : Candidate.scoring) : Prop :=
  Forall (Forall unit_points) (Keyed.values (Candidate.bugResults st))
  /\ exists n : nat, (n <= 10)%nat
                     /\ (Candidate.totalPoints st == inject_Z (Z.of_nat n))%Q.

(* ================================================================== *)
(** ** The candidate page: the countdown *)
(* ================================================================== *)

(** The timer state of the page and one run of the interval callback of the
    countdown effect.  The effect is set up again each time the phase or the
    submitted flag changes, so the callback reads the phase of the current
    state; the [socket] it reads is the one of the render in which the
    effect last ran.  The call of [handleSubmitTest] is recorded as a
    flag. *)
Module Countdown.

Local Open Scope Z_scope.

Record timer := {
  isInstructionPhase : bool;
  instructionTimeRemaining : Z;    (* 1 minute for instructions *)
  timeRemaining : Z;               (* 15 minutes in seconds *)
  isTestSubmitted : bool
}.

Definition initial : timer :=
  {| isInstructionPhase := true; instructionTimeRemaining := 60;
     timeRemaining := 15 * 60; isTestSubmitted := false |}.

(** What one tick does besides the new state: the [timer-update] it emits
    for the session, and whether it calls [handleSubmitTest]. *)
Record effects := {
  emitted : option Server.event;
  submits : bool
}.

(** [socket] tells whether the socket the callback closed over is set;
    [sessionId] is the parameter of the route, if any. *)
Definition tick (socket : bool) (sessionId : option jsstring) (t : timer) :
  timer * effects :=
  (* if (socket && sessionId) socket.emit('timer-update', ...) *)
  let emit (update : Server.event) :=
    if socket && truthy_str sessionId then Some update else None in
  if isTestSubmitted t then
    (t, {| emitted := None; submits := false |})
  else if isInstructionPhase t then
    (* Instruction phase: countdown from 1 minute *)
    let prev := instructionTimeRemaining t in
    let newTime := if prev <=? 1 then 0 else prev - 1 in
    let update :=
      timer_update_event (nullish sessionId []) true newTime (15 * 60) in
    if prev <=? 1 then
      (* Switch to coding phase *)
      ({| isInstructionPhase := false; instructionTimeRemaining := 0;
          timeRemaining := timeRemaining t;
          isTestSubmitted := isTestSubmitted t |},
       {| emitted := emit update; submits := false |})
    else
      ({| isInstructionPhase := true; instructionTimeRemaining := prev - 1;
          timeRemaining := timeRemaining t;
          isTestSubmitted := isTestSubmitted t |},
       {| emitted := emit update; submits := false |})
  else
    (* Coding phase: countdown from 15 minutes *)
    let prev := timeRemaining t in
    let newTime := if prev <=? 1 then 0 else prev - 1 in
    let update :=
      timer_update_event (nullish sessionId []) false 0 newTime in
    if prev <=? 1 then
      (* handleSubmitTest sets the submitted flag and clears the interval *)
      ({| isInstructionPhase := false;
          instructionTimeRemaining := instructionTimeRemaining t;
          timeRemaining := 0; isTestSubmitted := true |},
       {| emitted := emit update; submits := true |})
    else
      ({| isInstructionPhase := false;
          instructionTimeRemaining := instructionTimeRemaining t;
          timeRemaining := prev - 1;
          isTestSubmitted := isTestSubmitted t |},
       {| emitted := emit update; submits := false |}).

(** [n] runs in a row of a callback: the last state and the effects,
    oldest first. *)
Fixpoint ticks (socket : bool) (sessionId : option jsstring) (n : nat)
         (t : timer) : timer * list effects :=
  match n with
  | O => (t, [])
  | S n' =>
      let '(t1, x) := tick socket sessionId t in
      let '(t2, xs) := ticks socket sessionId n' t1 in
      (t2, x :: xs)
  end.

(** The component around the callback.  [socket] is the state the
    connection effect sets, null in the first render; [closure] is what
    [socket] was in the render whose countdown effect set up the interval
    that is running.  The connection effect is taken to run once. *)
Record page := {
  time : timer;
  socket : bool;
  closure : bool
}.

(** The dependencies of the countdown effect:
    [isTestSubmitted, isInstructionPhase]. *)
Definition deps_changed (old new : timer) : bool :=
  negb (Bool.eqb (isTestSubmitted old) (isTestSubmitted new))
  || negb (Bool.eqb (isInstructionPhase old) (isInstructionPhase new)).

(** After the first commit: the connection effect has called [setSocket]
    unless [sessionId] is missing, and the countdown effect has closed
    over the null socket of the first render. *)
Definition mounted (sessionId : option jsstring) : page :=
  {| time := initial; socket := truthy_str sessionId; closure := false |}.

(** A render with a new timer state: the countdown effect runs again,
    and closes over the current socket, when a dependency changed. *)
Definition rerender (p : page) (t : timer) : page :=
  {| time := t; socket := socket p;
     closure := if deps_changed (time p) t then socket p else closure p |}.

(** The handler of [session-data]: the timer state is restored from the
    fields of the payload that are defined. *)
Definition on_session_data (data : InterviewSession) (p : page) : page :=
  rerender p
    {| isInstructionPhase :=
         nullish (Server.isInstructionPhase data)
                 (isInstructionPhase (time p));
       instructionTimeRemaining :=
         nullish (Server.instructionTimeRemaining data)
                 (instructionTimeRemaining (time p));
       timeRemaining :=
         nullish (Server.codingTimeRemaining data) (timeRemaining (time p));
       isTestSubmitted := isTestSubmitted (time p) |}.

Definition page_tick (sessionId : option jsstring) (p : page) :
  page * effects :=
  let '(t, x) := tick (closure p) sessionId (time p) in
  (rerender p t, x).

Fixpoint page_ticks (sessionId : option jsstring) (n : nat) (p : page) :
  page * list effects :=
  match n with
  | O => (p, [])
  | S n' =>
      let '(p1, x) := page_tick sessionId p in
      let '(p2, xs) := page_ticks sessionId n' p1 in
      (p2, x :: xs)
  end.

End Countdown.

(* ================================================================== *)
(** ** The interviewer dashboard: the session replica *)
(* ================================================================== *)

(** The part of the dashboard state the session events act on.  The paste
    alerts and the refresh counter are left out: no handler below reads
    them. *)
Module Dashboard.

Local Open Scope Z_scope.

(** A session as the dashboard holds it: what the server sent, and the
    [lastUpdate] stamp the dashboard adds. *)
Record entry := {
  session : InterviewSession;
  lastUpdate : option Z
}.

Definition received (s : InterviewSession) : entry :=
  {| session := s; lastUpdate := None |}.

Record state := {
  sessions : list entry;
  selectedSession : option entry;
  candidateName : jsstring;
  problemTitle : jsstring;
  showCreateForm : bool;
  testResults : option Candidate.Submission;
  showResultsModal : bool
}.

Definition initial : state :=
  {| sessions := []; selectedSession := None; candidateName := [];
     problemTitle := js "Selenium Debugging"; showCreateForm := false;
     testResults := None; showResultsModal := false |}.

Definition with_sessions (d : state) (l : list entry)
           (sel : option entry) : state :=
  {| sessions := l; selectedSession := sel;
     candidateName := candidateName d; problemTitle := problemTitle d;
     showCreateForm := showCreateForm d; testResults := testResults d;
     showResultsModal := showResultsModal d |}.

(** [s.id === sessionId ? f(s) : s]. *)
Definition at_id (sessionId : jsstring) (f : entry -> entry) (x : entry) :
  entry :=
  if str_eqb (id (session x)) sessionId then f x else x.

(** [{ ...s, code, ...(language && { language }) }]. *)
Definition with_code (code language : jsstring) (x : entry) : entry :=
  let s := set_code (session x) code in
  {| session := if truthy_str (Some language) then set_language s language
                else s;
     lastUpdate := lastUpdate x |}.

Definition with_language (language : jsstring) (x : entry) : entry :=
  {| session := set_language (session x) language;
     lastUpdate := lastUpdate x |}.

Definition with_output (output : Report) (x : entry) : entry :=
  {| session := set_output (session x) (Some output);
     lastUpdate := lastUpdate x |}.

Definition with_timer (now : Z) (phase : bool) (instruction coding : Z)
           (x : entry) : entry :=
  {| session :=
       set_codingTimeRemaining
         (set_instructionTimeRemaining
            (set_isInstructionPhase (session x) (Some phase))
            (Some instruction))
         (Some coding);
     lastUpdate := Some now |}.

(** The handlers of the socket, by event; [now] is the clock of the
    dashboard.  An event without a handler leaves the state alone. *)
Definition on_message (now : Z) (m : message) (d : state) : state :=
  match m with
  | sessions_list l =>
      (* Sessions already have adjusted timer values from backend *)
      with_sessions d (map received l) (selectedSession d)
  | code_update sessionId code language =>
      with_sessions d
        (map (at_id sessionId (with_code code language)) (sessions d))
        (option_map (at_id sessionId (with_code code language))
                    (selectedSession d))
  | language_update sessionId language =>
      with_sessions d
        (map (at_id sessionId (with_language language)) (sessions d))
        (option_map (at_id sessionId (with_language language))
                    (selectedSession d))
  | execution_update sessionId output _ =>
      with_sessions d
        (map (at_id sessionId (with_output output)) (sessions d))
        (option_map (at_id sessionId (with_output output))
                    (selectedSession d))
  | timer_update sessionId phase instruction coding =>
      with_sessions d
        (map (at_id sessionId (with_timer now phase instruction coding))
             (sessions d))
        (selectedSession d)
  | session_created s =>
      {| sessions := sessions d ++ [received s];
         selectedSession := selectedSession d;
         candidateName := [];
         problemTitle := problemTitle d;
         showCreateForm := false;
         testResults := testResults d;
         showResultsModal := showResultsModal d |}
  | candidate_test_results results =>
      {| sessions := sessions d;
         selectedSession := selectedSession d;
         candidateName := candidateName d;
         problemTitle := problemTitle d;
         showCreateForm := showCreateForm d;
         testResults := Some results;
         showResultsModal := true |}
  | _ => d
  end.

(** [createSession]: what is emitted, if anything; [candidateName.trim()]
    is empty exactly when every unit of the name is white space. *)
Definition createSession (d : state) : option Server.event :=
  if negb (existsb (fun c => negb (ws c)) (candidateName d)) then None
  else Some (create_session (candidateName d) (problemTitle d)).

(** [handleInterviewerCodeChange]: the local update and what is emitted. *)
Definition handleInterviewerCodeChange (newCode : jsstring) (d : state) :
  state * option Server.event :=
  match selectedSession d with
  | None => (d, None)
  | Some sel =>
      let upd (x : entry) :=
        {| session := set_code (session x) newCode;
           lastUpdate := lastUpdate x |} in
      (with_sessions d
         (map (at_id (id (session sel)) upd) (sessions d))
         (Some (upd sel)),
       Some (code_change (id (session sel)) newCode
                         (Some (Server.language (session sel)))))
  end.

(** A click on a session of the list. *)
Definition select (x : entry) (d : state) : state :=
  with_sessions d (sessions d) (Some x).

(** The dashboard takes in, in order, the messages delivered to its
    connection [me]. *)
Definition receive (me : jsstring) (now : Z)
           (ds : list (jsstring * message)) (d : state) : state :=
  fold_left (fun d cm => if str_eqb (fst cm) me then on_message now (snd cm) d
                         else d)
            ds d.

End Dashboard.

(* ================================================================== *)
(** ** More notions used in the statements *)
(* ================================================================== *)

(** The place of a status in the life of a session. *)
Definition rank (s : Status) : nat :=
  match s with waiting => 0 | active => 1 | completed => 2 end.

(** What a session is created with and keeps. *)
Definition identity (s : InterviewSession) :=
  (id s, candidateName s, problem s, problemDescription s, createdAt s).

(** The session [create-session] stores. *)
Definition new_session (e : env) (candidateName problemTitle : jsstring) :
  InterviewSession :=
  {| id := uuid e;
     candidateName := candidateName;
     problem := problemTitle;
     problemDescription :=
       match Keyed.get problems problemTitle with
       | Some p => p
       | None => nullish (Keyed.get problems (js "Selenium Debugging")) []
       end;
     code := defaultCode;
     language := js "selenium-senior";
     status := waiting;
     output := None;
     createdAt := now e;
     isInstructionPhase := None;
     instructionTimeRemaining := None;
     codingTimeRemaining := None;
     lastTimerUpdate := None |}.

(** The two remaining times a join computes: the instruction time and the
    coding time. *)
Definition join_times (now : Z) (s : InterviewSession) : Z * Z :=
  let i := nullish (instructionTimeRemaining s) 60%Z in
  let c := nullish (codingTimeRemaining s) 900%Z in
  if truthy_num (lastTimerUpdate s) then
    let elapsed := elapsedSecondsSince now (nullish (lastTimerUpdate s) 0%Z) in
    if truthy_bool (isInstructionPhase s)
    then (Z.max 0 (i - elapsed), c)
    else (i, Z.max 0 (c - elapsed))
  else (i, c).

(** The session a join stores, and the one it sends to the caller. *)
Definition joined (now : Z) (s : InterviewSession) : InterviewSession :=
  set_lastTimerUpdate
    (set_codingTimeRemaining
       (set_instructionTimeRemaining (set_status s active)
          (Some (fst (join_times now s))))
       (Some (snd (join_times now s))))
    (Some now).

Definition join_data (now : Z) (s : InterviewSession) : InterviewSession :=
  set_isInstructionPhase (joined now s)
    (Some (nullish (isInstructionPhase s) true)).

(** How the handler of an event changes the session it finds. *)
Inductive touched (e : env) (s : InterviewSession) :
  event -> InterviewSession -> Prop :=
| touched_join sid :
    status s <> completed ->
    touched e s (join_session sid) (joined (now e) s)
| touched_code sid code language :
    touched e s (code_change sid code language)
      (if truthy_str language
       then set_language (set_code s code) (nullish language [])
       else set_code s code)
| touched_language sid language :
    touched e s (language_change sid language) (set_language s language)
| touched_timer sid phase instruction coding :
    touched e s (timer_update_event sid phase instruction coding)
      (set_lastTimerUpdate
         (set_codingTimeRemaining
            (set_instructionTimeRemaining
               (set_isInstructionPhase s (Some phase)) (Some instruction))
            (Some coding))
         (Some (now e)))
| touched_output sid code language :
    touched e s (execute_code sid code language)
      (set_output s (Some (fst (run_tests code language))))
| touched_submitted results :
    touched e s (test_submitted results) (set_status s completed).

(** Keys are distinct and each is the identifier of its session. *)
Definition keys_ok (st : server) : Prop :=
  NoDup (map fst (sessions st))
  /\ Forall (fun kv => id (snd kv) = fst kv) (sessions st).

(** What the environment provides: [uuidv4()] draws an identifier that is
    not in the store, and a new connection has an identifier of its own. *)
Definition fresh_uuid (st : server) (e : env) (ev : event) : Prop :=
  match ev with
  | create_session _ _ => Keyed.get (sessions st) (uuid e) = None
  | _ => True
  end.

Definition fresh_socket (st : server) (socket : jsstring) (ev : event) : Prop :=
  match ev with
  | connection => ~ In socket (sockets st)
  | _ => True
  end.

Fixpoint fresh_uuids (st : server) (l : list (jsstring * env * event)) : Prop :=
  match l with
  | [] => True
  | (socket, e, ev) :: l' =>
      fresh_uuid st e ev /\ fresh_uuids (fst (handle st socket e ev)) l'
  end.

(** Remaining times that are set are not negative. *)
Definition times_nonneg (s : InterviewSession) : Prop :=
  (0 <= nullish (instructionTimeRemaining s) 0)%Z
  /\ (0 <= nullish (codingTimeRemaining s) 0)%Z.

Definition sends_nonneg (ev : event) : Prop :=
  match ev with
  | timer_update_event _ _ instruction coding =>
      (0 <= instruction)%Z /\ (0 <= coding)%Z
  | _ => True
  end.

(** The document of a session: what the parties edit and look at. *)
Definition doc (s : InterviewSession) :=
  (id s, Server.code s, Server.language s, output s).

Definition sdoc (x : Dashboard.entry) := doc (Dashboard.session x).

(** The dashboard's list mirrors the documents of the store, in order, and
    the selected copy mirrors the document of its session. *)
Definition in_sync (st : server) (d : Dashboard.state) : Prop :=
  map doc (Keyed.values (sessions st))
  = map sdoc (Dashboard.sessions d)
  /\ match Dashboard.selectedSession d with
     | None => True
     | Some x =>
         exists s, Keyed.get (sessions st) (id (Dashboard.session x)) = Some s
                   /\ doc s = sdoc x
     end.

(** A message opens with a pass mark and PASS, or with a fail mark and
    FAIL. *)
Definition pass_text (m : jsstring) : bool :=
  match strip_prefix (ok_mark ++ js " PASS") m,
        strip_prefix (check ++ js " PASS") m with
  | None, None => false
  | _, _ => true
  end.

Definition fail_text (m : jsstring) : bool :=
  match strip_prefix (ko_mark ++ js " FAIL") m,
        strip_prefix (cross ++ js " FAIL") m with
  | None, None => false
  | _, _ => true
  end.

Definition says_pass (r : TestResult) : bool := pass_text (Grader.message r).
Definition says_fail (r : TestResult) : bool := fail_text (Grader.message r).

(** The interviewer's dashboard once the candidate has joined: the list as
    the server sent it, the session selected, a name typed into the form. *)
Definition watching : Dashboard.state :=
  let l := map Dashboard.received
               (Keyed.values (sessions Scenario.joined)) in
  {| Dashboard.sessions := l;
     Dashboard.selectedSession := hd_error l;
     Dashboard.candidateName := js "Grace";
     Dashboard.problemTitle := js "Selenium Debugging";
     Dashboard.showCreateForm := true;
     Dashboard.testResults := None;
     Dashboard.showResultsModal := false |}.

(* ================================================================== *)
(** ** Facts about strings and keyed collections *)
(* ================================================================== *)

Lemma str_eqb_eq a b : str_eqb a b = true <-> a = b.
Proof.
  revert b; induction a as [|x a IH]; intros [|y b]; simpl;
    try (split; [discriminate | congruence]); try tauto.
  rewrite andb_true_iff, N.eqb_eq, IH.
  split; [intros [-> ->]; reflexivity | intros H; inversion H; auto].
Qed.

Lemma str_eqb_refl a : str_eqb a a = true.
Proof. apply str_eqb_eq; reflexivity. Qed.

Lemma str_eqb_neq a b : str_eqb a b = false <-> a <> b.
Proof.
  destruct (str_eqb a b) eqn:E.
  - apply str_eqb_eq in E; split; [discriminate | congruence].
  - split; [intros _ H; apply str_eqb_eq in H; congruence | reflexivity].
Qed.

Lemma get_set_same {V} (m : Keyed.t V) k v :
  Keyed.get (Keyed.set m k v) k = Some v.
Proof.
  induction m as [|[k' v'] m IH]; simpl.
  - now rewrite str_eqb_refl.
  - destruct (str_eqb k' k) eqn:E; simpl; rewrite E; auto.
Qed.

Lemma get_set_other {V} (m : Keyed.t V) k k' v :
  k' <> k -> Keyed.get (Keyed.set m k v) k' = Keyed.get m k'.
Proof.
  intros Hne; induction m as [|[k0 v0] m IH]; simpl.
  - destruct (str_eqb k k') eqn:E; auto.
    apply str_eqb_eq in E; congruence.
  - destruct (str_eqb k0 k) eqn:E; simpl.
    + destruct (str_eqb k0 k') eqn:E'; auto.
      apply str_eqb_eq in E, E'; congruence.
    + now rewrite IH.
Qed.

Lemma get_In {V} (m : Keyed.t V) k v :
  Keyed.get m k = Some v -> In v (Keyed.values m).
Proof.
  induction m as [|[k' v'] m IH]; simpl; [discriminate|].
  destruct (str_eqb k' k); [intros [= ->]; auto | auto].
Qed.

Lemma Forall_values_set {V} (P : V -> Prop) (m : Keyed.t V) k v :
  Forall P (Keyed.values m) -> P v -> Forall P (Keyed.values (Keyed.set m k v)).
Proof.
  intros Hm Hv; induction m as [|[k' v'] m IH]; simpl.
  - constructor; auto.
  - inversion Hm; subst.
    destruct (str_eqb k' k); simpl; constructor; auto.
Qed.

(* ================================================================== *)
(** ** The scenarios, evaluated *)
(* ================================================================== *)

Lemma joined_session :
  exists s, Keyed.get (sessions Scenario.joined) Scenario.sid = Some s
            /\ Server.language s = js "selenium-senior"
            /\ status s = active.
Proof. eexists; split; [vm_compute; reflexivity|]; split; reflexivity. Qed.

Lemma coding_120_session :
  exists s, Keyed.get (sessions Scenario.coding_120) Scenario.sid = Some s
            /\ isInstructionPhase s = Some false
            /\ instructionTimeRemaining s = Some 0%Z
            /\ codingTimeRemaining s = Some 120%Z
            /\ lastTimerUpdate s = Some (Scenario.t0 + 70000)%Z
            /\ status s = active.
Proof.
  eexists; split; [vm_compute; reflexivity|]; repeat split; reflexivity.
Qed.

Lemma submitted_session :
  exists s, Keyed.get (sessions Scenario.submitted) Scenario.sid = Some s
            /\ status s = completed
            /\ Server.code s = defaultCode
            /\ codingTimeRemaining s = Some 120%Z.
Proof.
  eexists; split; [vm_compute; reflexivity|]; repeat split; reflexivity.
Qed.

(* ================================================================== *)
(** ** Joining, editing, submitting *)
(* ================================================================== *)

Section Handlers.

Local Open Scope Z_scope.

Variable st : server.

Lemma In_recipients_others sockets sender c :
  In c (recipients sockets sender to_others) <-> In c sockets /\ c <> sender.
Proof.
  unfold recipients; rewrite filter_In, negb_true_iff, str_eqb_neq; tauto.
Qed.

Lemma deliveries_one sockets sender a m c m' :
  In (c, m') (deliveries sockets sender [(a, m)]) <->
  In c (recipients sockets sender a) /\ m' = m.
Proof.
  unfold deliveries; simpl; rewrite app_nil_r, in_map_iff; split.
  - intros (x & [= <- <-] & Hx); auto.
  - intros [Hc ->]; exists c; auto.
Qed.

(** C5. A join request for a completed session sends the caller
    [session-expired] and nothing else: no [session-data], no change of
    the store.  A join request for an identifier that is not in the store
    sends [session-not-found].  The two events differ. *)
Theorem join_expired_distinct_from_not_found
        (socket : jsstring) (e : env) (sessionId : jsstring) :
  (forall s, Keyed.get (sessions st) sessionId = Some s ->
             status s = completed ->
             exists text,
               on_join_session st socket e sessionId
               = (st, [(to_sender, session_expired text)])
               /\ (forall c d, ~ In (c, session_data d)
                                 (deliveries (sockets st) socket
                                    (snd (on_join_session st socket e sessionId))))
               /\ session_expired text <> session_not_found)
  /\ (Keyed.get (sessions st) sessionId = None ->
      on_join_session st socket e sessionId
      = (st, [(to_sender, session_not_found)])).
Proof.
  unfold on_join_session; split.
  - intros s -> Hs; rewrite Hs; simpl.
    eexists; split; [reflexivity|]; split; [|discriminate].
    intros c d [H|[]]; discriminate.
  - intros ->; reflexivity.
Qed.

(** C10. [test-submitted] sends [candidate-test-results] with the payload
    as received to every connection, whether or not the session exists and
    whatever its status; the session is marked completed when it exists,
    and the store is left as it was when it does not. *)
Theorem test_submitted_broadcast_unconditional
        (sender : jsstring) (results : Candidate.Submission) :
  let sessionId := Candidate.sessionId results in
  let st' := fst (on_test_submitted st results) in
  let out := snd (on_test_submitted st results) in
  out = [(to_all, candidate_test_results results)]
  /\ (forall c, In c (sockets st) ->
                In (c, candidate_test_results results)
                   (deliveries (sockets st) sender out))
  /\ (Keyed.get (sessions st) sessionId = None -> st' = st)
  /\ (forall s, Keyed.get (sessions st) sessionId = Some s ->
                Keyed.get (sessions st') sessionId
                = Some (set_status s completed)
                /\ (forall k, k <> sessionId ->
                              Keyed.get (sessions st') k
                              = Keyed.get (sessions st) k)
                /\ sockets st' = sockets st).
Proof.
  cbv zeta; unfold on_test_submitted; cbn [fst snd].
  split; [reflexivity|]; split; [|split].
  - intros c Hc; apply deliveries_one; auto.
  - intros ->; reflexivity.
  - intros s ->; cbn [sessions with_sessions sockets]; split; [apply get_set_same|].
    split; [intros k Hk; now apply get_set_other | reflexivity].
Qed.

(** C9. A [code-change] for a session of the store is sent as
    [code-update] to every connection other than the one it came from, and
    not to that one. *)
Theorem code_change_sender_excluded
        (sender sessionId code : jsstring) (language : option jsstring)
        (s : InterviewSession) :
  Keyed.get (sessions st) sessionId = Some s ->
  let out := snd (on_code_change st sessionId code language) in
  let update :=
    code_update sessionId code
      (if truthy_str language then nullish language []
       else Server.language s) in
  out = [(to_others, update)]
  /\ (forall c, In c (sockets st) -> c <> sender ->
                In (c, update) (deliveries (sockets st) sender out))
  /\ (forall m, ~ In (sender, m) (deliveries (sockets st) sender out)).
Proof.
  intros Hs; cbv zeta; unfold on_code_change; rewrite Hs; cbn [fst snd].
  assert (E : Server.language
                (if truthy_str language
                 then set_language (set_code s code) (nullish language [])
                 else set_code s code)
              = if truthy_str language then nullish language []
                else Server.language s)
    by (destruct (truthy_str language); reflexivity).
  rewrite E; split; [reflexivity|]; split.
  - intros c Hc Hne; apply deliveries_one; split; auto.
    apply In_recipients_others; auto.
  - intros m H; apply deliveries_one in H as [H _].
    apply In_recipients_others in H as [_ H]; congruence.
Qed.

(** C1, as the code has it.  [code-change] and [timer-update] look a
    session up by its identifier and never at its status.  For a session
    of the store, completed or not, [code-change] stores the new code (and
    the language when one comes with it) and sends [code-update] to the
    other connections; [timer-update] stores the three timer fields, stamps
    the clock and sends [timer-update] to all; neither touches the status.
    For an identifier that is not in the store nothing is stored and
    nothing is sent. *)
Theorem code_and_timer_events_apply_whatever_the_status
        (e : env) (sessionId code : jsstring) (language : option jsstring)
        (phase : bool) (instruction coding : Z) :
  let edited := on_code_change st sessionId code language in
  let ticked := on_timer_update st e sessionId phase instruction coding in
  (forall s, Keyed.get (sessions st) sessionId = Some s ->
     (exists s', Keyed.get (sessions (fst edited)) sessionId = Some s'
        /\ Server.code s' = code
        /\ Server.language s'
           = (if truthy_str language then nullish language []
              else Server.language s)
        /\ status s' = status s
        /\ snd edited
           = [(to_others, code_update sessionId code (Server.language s'))])
     /\ (exists s', Keyed.get (sessions (fst ticked)) sessionId = Some s'
        /\ isInstructionPhase s' = Some phase
        /\ instructionTimeRemaining s' = Some instruction
        /\ codingTimeRemaining s' = Some coding
        /\ lastTimerUpdate s' = Some (now e)
        /\ status s' = status s
        /\ Server.code s' = Server.code s
        /\ snd ticked
           = [(to_all, timer_update sessionId phase instruction coding)]))
  /\ (Keyed.get (sessions st) sessionId = None ->
      edited = (st, []) /\ ticked = (st, [])).
Proof.
  cbv zeta; unfold on_code_change, on_timer_update; split.
  - intros s ->; simpl; split.
    + eexists; split; [apply get_set_same|].
      destruct (truthy_str language); simpl; auto.
    + eexists; split; [apply get_set_same|]; simpl; auto 10.
  - intros ->; auto.
Qed.

End Handlers.

(** C5 at work: after the submission, the candidate's link yields
    [session-expired]; an unknown link yields [session-not-found]. *)
Lemma join_expired_distinct_from_not_found_witness :
  (exists text,
      on_join_session Scenario.submitted Scenario.candidate
                      (Scenario.at_ (Scenario.t0 + 90000)) Scenario.sid
      = (Scenario.submitted, [(to_sender, session_expired text)]))
  /\ on_join_session Scenario.submitted Scenario.candidate
                     (Scenario.at_ (Scenario.t0 + 90000)) (js "no-such-id")
     = (Scenario.submitted, [(to_sender, session_not_found)]).
Proof.
  pose proof (join_expired_distinct_from_not_found Scenario.submitted
                Scenario.candidate (Scenario.at_ (Scenario.t0 + 90000))
                Scenario.sid) as [Hexp _].
  pose proof (join_expired_distinct_from_not_found Scenario.submitted
                Scenario.candidate (Scenario.at_ (Scenario.t0 + 90000))
                (js "no-such-id")) as [_ Hnf].
  split.
  - destruct submitted_session as (s & E & Hs & _).
    destruct (Hexp s E Hs) as (text & H & _).
    exists text; exact H.
  - apply Hnf; vm_compute; reflexivity.
Defined.

(** C10 at work: a submission for an identifier the store does not have is
    still delivered to both connections, and the store stays as it was. *)
Lemma test_submitted_broadcast_unconditional_witness :
  let results :=
    Candidate.handleSubmitTest (js "no-such-id") None [] 0 [] Candidate.initial in
  In (Scenario.interviewer, candidate_test_results results)
     (deliveries (sockets Scenario.joined) Scenario.candidate
        (snd (on_test_submitted Scenario.joined results)))
  /\ fst (on_test_submitted Scenario.joined results) = Scenario.joined.
Proof.
  intros results.
  destruct (test_submitted_broadcast_unconditional Scenario.joined
              Scenario.candidate results) as (_ & Hall & Hnone & _).
  split.
  - apply Hall; vm_compute; auto.
  - apply Hnone; vm_compute; reflexivity.
Defined.

(** C9 at work: the candidate's edit reaches the interviewer and does not
    come back to the candidate. *)
Lemma code_change_sender_excluded_witness :
  let out := snd (on_code_change Scenario.joined Scenario.sid (js "// edit") None) in
  In (Scenario.interviewer,
      code_update Scenario.sid (js "// edit") (js "selenium-senior"))
     (deliveries (sockets Scenario.joined) Scenario.candidate out)
  /\ forall m, ~ In (Scenario.candidate, m)
                    (deliveries (sockets Scenario.joined) Scenario.candidate out).
Proof.
  intros out.
  destruct joined_session as (s & E & L & _).
  destruct (code_change_sender_excluded Scenario.joined Scenario.candidate
              Scenario.sid (js "// edit") None s E) as (_ & Hothers & Hself).
  split; [|exact Hself].
  cbn [truthy_str] in Hothers; rewrite L in Hothers.
  apply Hothers; [vm_compute; auto | vm_compute; discriminate].
Defined.

(** C1 fails on the code: the session of [Scenario.submitted] is completed,
    and yet a later [code-change] replaces its code and is sent on, and a
    later [timer-update] replaces its timer and is sent on. *)
Lemma completed_session_still_edited :
  (exists s, Keyed.get (sessions Scenario.submitted) Scenario.sid = Some s
             /\ status s = completed
             /\ Server.code s = defaultCode
             /\ codingTimeRemaining s = Some 120%Z)
  /\ (exists s', Keyed.get
                   (sessions (fst (on_code_change Scenario.submitted
                                     Scenario.sid (js "// late edit") None)))
                   Scenario.sid = Some s'
                 /\ status s' = completed
                 /\ Server.code s' = js "// late edit"
                 /\ Server.code s' <> defaultCode)
  /\ snd (on_code_change Scenario.submitted Scenario.sid (js "// late edit") None)
     = [(to_others,
         code_update Scenario.sid (js "// late edit") (js "selenium-senior"))]
  /\ (exists s', Keyed.get
                   (sessions (fst (on_timer_update Scenario.submitted
                                     (Scenario.at_ (Scenario.t0 + 95000)%Z)
                                     Scenario.sid false 0 899)))
                   Scenario.sid = Some s'
                 /\ status s' = completed
                 /\ codingTimeRemaining s' = Some 899%Z)
  /\ snd (on_timer_update Scenario.submitted
            (Scenario.at_ (Scenario.t0 + 95000)%Z) Scenario.sid false 0 899)
     = [(to_all, timer_update Scenario.sid false 0 899)].
Proof.
  split; [|split; [|split; [|split]]].
  - exact submitted_session.
  - eexists; split; [vm_compute; reflexivity|].
    repeat split; try (vm_compute; reflexivity).
    vm_compute; discriminate.
  - vm_compute; reflexivity.
  - eexists; split; [vm_compute; reflexivity|].
    split; vm_compute; reflexivity.
  - vm_compute; reflexivity.
Qed.

(** The amended C1 at work, on that same completed session. *)
Lemma code_and_timer_events_apply_whatever_the_status_witness :
  exists s', Keyed.get
               (sessions (fst (on_code_change Scenario.submitted Scenario.sid
                                 (js "// late edit") None)))
               Scenario.sid = Some s'
             /\ Server.code s' = js "// late edit"
             /\ status s' = completed.
Proof.
  destruct submitted_session as (s & E & Hs & _).
  destruct (code_and_timer_events_apply_whatever_the_status Scenario.submitted
              (Scenario.at_ Scenario.t0) Scenario.sid (js "// late edit") None
              false 0 0) as [Hsome _].
  destruct (Hsome s E) as [(s' & Hget & Hcode & _ & Hstatus & _) _].
  exists s'; split; [exact Hget|]; split; [exact Hcode|].
  rewrite Hstatus; exact Hs.
Defined.

(* ================================================================== *)
(** ** Timer reconciliation *)
(* ================================================================== *)

Section Timer.

Local Open Scope Z_scope.

Lemma elapsed_nonneg now t : t <= now -> 0 <= elapsedSecondsSince now t.
Proof. intros H; unfold elapsedSecondsSince; apply Z.div_pos; lia. Qed.

Lemma truthy_num_Some t : t <> 0 -> truthy_num (Some t) = true.
Proof. intros H; simpl; apply negb_true_iff, Z.eqb_neq, H. Qed.

Lemma Status_eqb_completed s :
  Status_eqb (status s) completed = true <-> status s = completed.
Proof. destruct (status s); simpl; split; congruence. Qed.

Lemma run_events_reachable l : forall st, reachable st -> reachable (run_events st l).
Proof.
  induction l as [|[[socket e] ev] l IH]; intros st H; simpl; auto.
  apply IH; now constructor.
Qed.

(** Every handler keeps the store in order. *)
Lemma handle_store_ok st socket e ev :
  store_ok st -> store_ok (fst (handle st socket e ev)).
Proof.
  unfold store_ok; intros H.
  assert (Hget : forall k s, Keyed.get (sessions st) k = Some s ->
                             stamped_with_times s).
  { intros k s Hs; apply get_In in Hs.
    rewrite Forall_forall in H; auto. }
  destruct ev as [ | | n t | sid | sid c l | sid l | sid b i c | sid c l
                 | sid | results | ]; cbn [handle].
  - exact H.
  - exact H.
  - cbn; apply Forall_values_set; [exact H | exact I].
  - unfold on_join_session.
    destruct (Keyed.get (sessions st) sid) as [s|] eqn:E; [|exact H].
    destruct (Status_eqb (status s) completed); [exact H|].
    assert (Hs : sessions (join_room st socket sid) = sessions st)
      by (unfold join_room; destruct (existsb _ _); reflexivity).
    destruct (truthy_num _); [destruct (truthy_bool _)|];
      cbn [fst with_sessions sessions]; rewrite Hs;
      (apply Forall_values_set; [exact H | cbn; split; discriminate]).
  - unfold on_code_change.
    destruct (Keyed.get (sessions st) sid) as [s|] eqn:E; [|exact H].
    cbn [fst with_sessions sessions]; apply Forall_values_set; [exact H|].
    apply Hget in E; destruct (truthy_str l); exact E.
  - unfold on_language_change.
    destruct (Keyed.get (sessions st) sid) as [s|] eqn:E; [|exact H].
    cbn [fst with_sessions sessions]; apply Forall_values_set; [exact H|].
    apply Hget in E; exact E.
  - unfold on_timer_update.
    destruct (Keyed.get (sessions st) sid) as [s|] eqn:E; [|exact H].
    cbn [fst with_sessions sessions]; apply Forall_values_set; [exact H|].
    cbn; split; discriminate.
  - unfold on_execute_code.
    destruct (run_tests c l) as [rep ok].
    destruct (Keyed.get (sessions st) sid) as [s|] eqn:E; [|exact H].
    cbn [fst with_sessions sessions]; apply Forall_values_set; [exact H|].
    apply Hget in E; exact E.
  - unfold on_paste_attempt.
    destruct (Keyed.get (sessions st) sid); exact H.
  - unfold on_test_submitted.
    destruct (Keyed.get (sessions st) (Candidate.sessionId results))
      as [s|] eqn:E; [|exact H].
    cbn [fst with_sessions sessions]; apply Forall_values_set; [exact H|].
    apply Hget in E; exact E.
  - exact H.
Qed.

Lemma reachable_store_ok st : reachable st -> store_ok st.
Proof.
  induction 1 as [|st socket e ev _ IH].
  - constructor.
  - now apply handle_store_ok.
Qed.

End Timer.

(** C3, where the code departs from it.  A session is created and the
    candidate joins it: no phase flag is stored, and the caller is told it
    is in the instruction phase, with 60 and 900 seconds.  12.3 seconds
    later the page joins again.  The reply still says instruction phase,
    but the instruction time is the full 60 and the 12 whole seconds have
    been taken off the coding time: reconciliation reads the missing flag
    as the coding phase, where the reply reads it as the instruction
    phase. *)
Theorem rejoin_in_instruction_phase_cuts_coding_time :
  exists d0 rest0 s d rest,
    snd (on_join_session
           (run_events initial
              [ (Scenario.interviewer, Scenario.at_ Scenario.t0, connection);
                (Scenario.candidate, Scenario.at_ Scenario.t0, connection);
                (Scenario.interviewer, Scenario.at_ Scenario.t0,
                 create_session (js "Ada") (js "Selenium Debugging")) ])
           Scenario.candidate (Scenario.at_ (Scenario.t0 + 5000)%Z)
           Scenario.sid)
    = (to_sender, session_data d0) :: rest0
    /\ isInstructionPhase d0 = Some true
    /\ instructionTimeRemaining d0 = Some 60%Z
    /\ codingTimeRemaining d0 = Some 900%Z
    /\ Keyed.get (sessions Scenario.joined) Scenario.sid = Some s
    /\ isInstructionPhase s = None
    /\ lastTimerUpdate s = Some (Scenario.t0 + 5000)%Z
    /\ snd (on_join_session Scenario.joined Scenario.candidate
              (Scenario.at_ (Scenario.t0 + 5000 + 12300)%Z) Scenario.sid)
       = (to_sender, session_data d) :: rest
    /\ isInstructionPhase d = Some true
    /\ instructionTimeRemaining d = Some 60%Z
    /\ codingTimeRemaining d = Some 888%Z.
Proof.
  do 5 eexists.
  split; [vm_compute; reflexivity|].
  do 3 (split; [reflexivity|]).
  split; [vm_compute; reflexivity|].
  do 2 (split; [reflexivity|]).
  split; [vm_compute; reflexivity|].
  repeat split.
Qed.

(** C4, where the code departs from it.  The same session, still in its
    instruction phase, read by [getSessionWithAdjustedTimer] 12.3 seconds
    after the first join, as [get-sessions] does for the list it sends: the
    coding time, which is not the live one, comes back as 888 instead of
    the 900 that are stored; the instruction time comes back as stored. *)
Theorem list_in_instruction_phase_cuts_coding_time :
  exists s,
    Keyed.get (sessions Scenario.joined) Scenario.sid = Some s
    /\ isInstructionPhase s = None
    /\ instructionTimeRemaining s = Some 60%Z
    /\ codingTimeRemaining s = Some 900%Z
    /\ lastTimerUpdate s = Some (Scenario.t0 + 5000)%Z
    /\ snd (on_get_sessions Scenario.joined
              (Scenario.at_ (Scenario.t0 + 5000 + 12300)%Z))
       = [(to_sender,
           sessions_list
             [getSessionWithAdjustedTimer (Scenario.t0 + 5000 + 12300)%Z s])]
    /\ instructionTimeRemaining
         (getSessionWithAdjustedTimer (Scenario.t0 + 5000 + 12300)%Z s)
       = Some 60%Z
    /\ codingTimeRemaining
         (getSessionWithAdjustedTimer (Scenario.t0 + 5000 + 12300)%Z s)
       = Some 888%Z.
Proof.
  eexists.
  split; [vm_compute; reflexivity|].
  do 4 (split; [reflexivity|]).
  split; [vm_compute; reflexivity|].
  split; reflexivity.
Qed.

(* ================================================================== *)
(** ** Grading *)
(* ================================================================== *)

(** The starter code has every one of the ten bugs. *)
Example starter_code_fails_all_ten :
  map Grader.passed (analyzeDebugFixes defaultCode (js "selenium-senior"))
  = repeat false 10.
Proof. vm_compute; reflexivity. Qed.

(** The starter code under the rules of the combined challenge. *)
Example starter_code_combined :
  map Grader.passed (analyzeDebugFixes defaultCode (js "selenium-combined"))
  = [true; false; false; true; false; false; false; false; false; true; false].
Proof. vm_compute; reflexivity. Qed.

(** A 3-rule variant where only the first rule is met. *)
Example wait_initialized_pass_fail_fail :
  map Grader.passed
      (analyzeDebugFixes Scenario.wait_initialized (js "selenium-pageobject"))
  = [true; false; false].
Proof. vm_compute; reflexivity. Qed.

(** The repaired calculator passes the eight rules. *)
Example fixed_calculator_passes_all_eight :
  map Grader.passed
      (analyzeDebugFixes Scenario.fixed_calculator (js "java-calculator"))
  = repeat true 8.
Proof. vm_compute; reflexivity. Qed.

(** The pattern of the login method takes the shortest text up to a closing
    brace at the start of a line. *)
Example login_method_text :
  method_text Scenario.wait_initialized "public void login"
  = js "public void login(String u, String p) {" ++ nl ++
    js "  driver.findElement(usernameField).sendKeys(u);" ++ nl ++
    js "}".
Proof. vm_compute; reflexivity. Qed.

Section Grading.

Variables code language : jsstring.

Lemma all_passed_filter (l : list TestResult) :
  forallb Grader.passed l = true -> filter Grader.passed l = l.
Proof.
  induction l as [|x l IH]; simpl; auto.
  rewrite andb_true_iff; intros [-> H]; now rewrite IH.
Qed.

Lemma filter_length_le (l : list TestResult) :
  (List.length (filter Grader.passed l) <= List.length l)%nat.
Proof.
  induction l as [|x l IH]; simpl; auto.
  destruct (Grader.passed x); simpl; lia.
Qed.

(** The branch taken, by case on the identifier. *)
Ltac by_variant :=
  unfold analyzeDebugFixes, rule_count;
  repeat match goal with
         | |- context [str_eqb language ?l] => destruct (str_eqb language l)
         end.

Lemma analyzeDebugFixes_length :
  List.length (analyzeDebugFixes code language) = rule_count language.
Proof. by_variant; reflexivity. Qed.

(** C7. For any source text, a challenge identifier without a branch of
    its own is graded with exactly one outcome, [Unknown Test], whose
    [passed] flag is false. *)
Theorem unconfigured_variant_one_failing_outcome :
  ~ In language configured_variants ->
  analyzeDebugFixes code language = [unknown_test]
  /\ Grader.passed unknown_test = false
  /\ List.length (analyzeDebugFixes code language) = 1%nat.
Proof.
  intros Hn.
  assert (E : analyzeDebugFixes code language = [unknown_test]).
  { unfold analyzeDebugFixes.
    repeat match goal with
           | |- context [str_eqb language ?l] =>
               let E := fresh "E" in
               destruct (str_eqb language l) eqn:E;
               [ apply str_eqb_eq in E; exfalso; apply Hn; rewrite E;
                 unfold configured_variants; simpl; tauto | ]
           end.
    reflexivity. }
  rewrite E; auto.
Qed.

(** C2, as the code has it.  Every rule is worth one point, for every
    challenge: the server's total is the number of rules passed, and the
    page gives a parsed line 1 point when it passed and 0 otherwise.  A
    clean sweep therefore scores the number of rules of the challenge (10,
    8, 11, 3, 4 and 4 for the six configured ones), which is 10 exactly
    when the challenge has ten rules. *)
Theorem one_point_per_rule :
  let r := fst (run_tests code language) in
  totalTests r = rule_count language
  /\ (passedTests r <= rule_count language)%nat
  /\ (totalPoints r == inject_Z (Z.of_nat (passedTests r)))%Q
  /\ (forall l : Candidate.bug_line,
         Candidate.points (Candidate.bugOfLine l)
         = if snd l then 1%Q else 0%Q)
  /\ (forallb Grader.passed (testResults r) = true ->
      (totalPoints r == inject_Z (Z.of_nat (rule_count language)))%Q
      /\ ((totalPoints r == 10)%Q <-> rule_count language = 10%nat)
      /\ (language = js "selenium-senior" -> (totalPoints r == 10)%Q)).
Proof.
  cbv zeta; unfold run_tests; cbn [fst testResults totalTests passedTests
                                   totalPoints].
  pose proof analyzeDebugFixes_length as L.
  pose proof (filter_length_le (analyzeDebugFixes code language)) as F.
  rewrite L in F.
  split; [exact L|]; split; [exact F|]; split; [apply Qmult_1_r|].
  split; [intros [n []]; reflexivity|].
  intros Hall; rewrite (all_passed_filter _ Hall), L, Qmult_1_r.
  split; [reflexivity|].
  change 10%Q with (inject_Z 10); rewrite inject_Z_injective.
  split; [split; intros H; lia|].
  intros ->; reflexivity.
Qed.

End Grading.

(** C7 at work: [springboot-test] has no branch. *)
Lemma unconfigured_variant_one_failing_outcome_witness :
  analyzeDebugFixes defaultCode (js "springboot-test") = [unknown_test].
Proof.
  apply (unconfigured_variant_one_failing_outcome
           defaultCode (js "springboot-test")).
  unfold configured_variants; simpl.
  intros H; repeat destruct H as [H|H]; try discriminate H; exact H.
Defined.

(** C2 fails on the code: the four rules of [selenium-locators] all pass on
    the empty source, and the sweep scores 4, not 10; the point a rule is
    worth is 1, not 10/4. *)
Lemma clean_sweep_of_four_scores_four :
  let r := fst (run_tests [] (js "selenium-locators")) in
  forallb Grader.passed (testResults r) = true
  /\ totalTests r = 4%nat
  /\ (totalPoints r == 4)%Q
  /\ ~ (totalPoints r == 10)%Q
  /\ ~ (totalPoints r / inject_Z (Z.of_nat (totalTests r)) == 10 / 4)%Q.
Proof.
  cbv zeta; repeat split; try (vm_compute; reflexivity);
    vm_compute; discriminate.
Qed.

(** The same on the calculator: eight rules, eight points. *)
Lemma clean_sweep_of_calculator_scores_eight :
  let r := fst (run_tests Scenario.fixed_calculator (js "java-calculator")) in
  passedTests r = 8%nat /\ totalTests r = 8%nat /\ (totalPoints r == 8)%Q.
Proof. cbv zeta; repeat split; vm_compute; reflexivity. Qed.

(** The amended C2 at work on the clean sweep of four. *)
Lemma one_point_per_rule_witness :
  (totalPoints (fst (run_tests [] (js "selenium-locators"))) == 4)%Q.
Proof.
  destruct (one_point_per_rule [] (js "selenium-locators"))
    as (_ & _ & _ & _ & H).
  destruct H as (H & _ & _); [vm_compute; reflexivity|].
  rewrite H; vm_compute; reflexivity.
Defined.

(* ================================================================== *)
(** ** Score aggregation *)
(* ================================================================== *)

#[global] Instance Math_round_comp : Proper (Qeq ==> eq) Math_round.
Proof. intros x y H; unfold Math_round; now rewrite H. Qed.

Lemma Math_round_inject (z : Z) : Math_round (inject_Z z) = z.
Proof.
  unfold Math_round, Qfloor, Qplus, inject_Z; simpl.
  symmetry; apply Z.div_unique with (r := 1%Z); lia.
Qed.

Section Score.

Local Open Scope Q_scope.

Lemma fold_points (l : list Candidate.BugResult) (acc : Q) :
  fold_left (fun sum bug => sum + Candidate.points bug) l acc
  == acc + points_sum l.
Proof.
  revert acc; induction l as [|b l IH]; intros acc; simpl.
  - ring.
  - rewrite IH; ring.
Qed.

Lemma points_sum_app (l1 l2 : list Candidate.BugResult) :
  points_sum (l1 ++ l2) == points_sum l1 + points_sum l2.
Proof.
  induction l1 as [|b l1 IH]; simpl; [ring | rewrite IH; ring].
Qed.

Lemma sumPoints_cons k v (m : Keyed.t (list Candidate.BugResult)) :
  Candidate.sumPoints ((k, v) :: m) == points_sum v + Candidate.sumPoints m.
Proof.
  unfold Candidate.sumPoints; simpl.
  rewrite !fold_points, points_sum_app; ring.
Qed.

Lemma sumPoints_nil : Candidate.sumPoints [] == 0.
Proof. reflexivity. Qed.

(** Replacing one entry by a list worth no less gives a sum no less. *)
Lemma sumPoints_set_mono (m : Keyed.t (list Candidate.BugResult)) k v v' :
  points_sum v <= points_sum v' ->
  Candidate.sumPoints (Keyed.set m k v)
  <= Candidate.sumPoints (Keyed.set m k v').
Proof.
  intros H; induction m as [|[k0 v0] m IH]; simpl.
  - rewrite !sumPoints_cons, sumPoints_nil; lra.
  - destruct (str_eqb k0 k); rewrite !sumPoints_cons; lra.
Qed.

Lemma points_sum_flipped (lines lines' : list Candidate.bug_line) :
  flipped_to_pass lines lines' ->
  points_sum (map Candidate.bugOfLine lines)
  <= points_sum (map Candidate.bugOfLine lines').
Proof.
  induction 1 as [|[n p] [n' p'] l l' [_ Hp] _ IH]; simpl in *; [lra|].
  destruct p, p'; first [lra | specialize (Hp eq_refl); discriminate].
Qed.

(** With unit points, a sum is the number of passed results. *)
Lemma points_sum_count (l : list Candidate.BugResult) :
  Forall unit_points l ->
  points_sum l
  == inject_Z (Z.of_nat (List.length (filter Candidate.passed l))).
Proof.
  induction 1 as [|b l Hb _ IH]; simpl; [reflexivity|].
  rewrite Hb, IH; destruct (Candidate.passed b); simpl List.length.
  - rewrite Nat2Z.inj_succ, <- Z.add_1_l, inject_Z_plus; reflexivity.
  - ring.
Qed.

Lemma sumPoints_whole (m : Keyed.t (list Candidate.BugResult)) :
  Forall (Forall unit_points) (Keyed.values m) ->
  exists n : nat, Candidate.sumPoints m == inject_Z (Z.of_nat n).
Proof.
  induction m as [|[k v] m IH]; simpl; intros H.
  - exists 0%nat; reflexivity.
  - inversion H as [|? ? Hv Hm]; subst.
    destruct (IH Hm) as [n Hn].
    exists (List.length (filter Candidate.passed v) + n)%nat.
    rewrite sumPoints_cons, Hn, (points_sum_count v Hv).
    rewrite Nat2Z.inj_add, inject_Z_plus; reflexivity.
Qed.

Lemma bugOfLine_unit (lines : list Candidate.bug_line) :
  Forall unit_points (map Candidate.bugOfLine lines).
Proof.
  induction lines as [|[n p] l IH]; simpl; constructor; auto.
  unfold unit_points; simpl; reflexivity.
Qed.

(** The cap of a whole number of points is a whole number up to 10. *)
Lemma capped_whole (n : nat) :
  exists k : nat, (k <= 10)%nat
                  /\ Qmin (inject_Z (Z.of_nat n)) 10 == inject_Z (Z.of_nat k).
Proof.
  destruct (Q.min_spec (inject_Z (Z.of_nat n)) 10) as [[Hlt E]|[Hle E]].
  - exists n; split; [|exact E].
    change 10 with (inject_Z 10) in Hlt; rewrite <- Zlt_Qlt in Hlt; lia.
  - exists 10%nat; split; [lia | exact E].
Qed.

Lemma on_execution_result_ok language lines st :
  scoring_ok st -> scoring_ok (Candidate.on_execution_result language lines st).
Proof.
  intros [Hu Hn]; unfold Candidate.on_execution_result.
  destruct (0 <? _)%nat; [|split; assumption].
  assert (Hu' : Forall (Forall unit_points)
                  (Keyed.values
                     (Keyed.set (Candidate.bugResults st) language
                        (map Candidate.bugOfLine lines))))
    by (apply Forall_values_set; [exact Hu | apply bugOfLine_unit]).
  split; [exact Hu'|]; cbn [Candidate.totalPoints].
  destruct (sumPoints_whole _ Hu') as [n E].
  destruct (capped_whole n) as (k & Hk & Ek).
  exists k; split; [exact Hk|].
  rewrite E; exact Ek.
Qed.

Lemma reachable_scoring_ok st : Candidate.reachable st -> scoring_ok st.
Proof.
  induction 1 as [|st language lines _ IH].
  - split; [constructor|]; exists 0%nat; split; [lia | reflexivity].
  - now apply on_execution_result_ok.
Qed.

(** On a whole total up to 10, the score is the total and the percentage
    is ten times it. *)
Lemma calculateScore_whole st (n : nat) :
  (n <= 10)%nat ->
  Candidate.totalPoints st == inject_Z (Z.of_nat n) ->
  Candidate.score (Candidate.calculateScore st) == Candidate.totalPoints st
  /\ Candidate.percentage (Candidate.calculateScore st)
     = Math_round (Candidate.totalPoints st / 10 * 100)
  /\ Candidate.percentage (Candidate.calculateScore st) = (10 * Z.of_nat n)%Z.
Proof.
  intros Hn Ht.
  assert (Hs : Candidate.score (Candidate.calculateScore st)
               == inject_Z (Z.of_nat n)).
  { unfold Candidate.calculateScore; cbn [Candidate.score].
    assert (E : Candidate.totalPoints st * 10 == inject_Z (Z.of_nat n * 10))
      by (rewrite Ht, inject_Z_mult; reflexivity).
    rewrite E, Math_round_inject, inject_Z_mult.
    assert (R : inject_Z (Z.of_nat n) * inject_Z 10 / 10
                == inject_Z (Z.of_nat n)) by (field).
    rewrite R; apply Q.min_l.
    change 10 with (inject_Z 10); rewrite <- Zle_Qle; lia. }
  split; [rewrite Hs, Ht; reflexivity|].
  assert (Hp : forall x, x == inject_Z (Z.of_nat n) ->
                         Math_round (x / 10 * 100) = (10 * Z.of_nat n)%Z).
  { intros x Hx.
    assert (E : x / 10 * 100 == inject_Z (10 * Z.of_nat n))
      by (rewrite Hx, inject_Z_mult; field).
    rewrite E; apply Math_round_inject. }
  unfold Candidate.calculateScore in *; cbn [Candidate.percentage Candidate.score] in *.
  rewrite (Hp _ Hs), (Hp _ Ht); auto.
Qed.

(** C6. Flipping outcomes of a run from fail to pass never lowers the
    total nor the score; both stay at or below 10 however many outcomes
    pass; the score is the capped total, and the percentage reported is
    [Math.round] of the capped total over 10, times 100. *)
Theorem score_monotone_and_capped
        (st : Candidate.scoring) (language : jsstring)
        (lines lines' : list Candidate.bug_line) :
  Candidate.reachable st ->
  flipped_to_pass lines lines' ->
  let a := Candidate.on_execution_result language lines st in
  let b := Candidate.on_execution_result language lines' st in
  Candidate.totalPoints a <= Candidate.totalPoints b
  /\ Candidate.score (Candidate.calculateScore a)
     <= Candidate.score (Candidate.calculateScore b)
  /\ Candidate.totalPoints b <= 10
  /\ Candidate.score (Candidate.calculateScore b) <= 10
  /\ Candidate.score (Candidate.calculateScore b) == Candidate.totalPoints b
  /\ Candidate.percentage (Candidate.calculateScore b)
     = Math_round (Candidate.totalPoints b / 10 * 100).
Proof.
  intros Hreach Hflip a b.
  assert (Hab : Candidate.totalPoints a <= Candidate.totalPoints b).
  { subst a b; unfold Candidate.on_execution_result.
    assert (EL : List.length lines' = List.length lines)
      by (symmetry; apply (Forall2_length Hflip)).
    rewrite !length_map, EL.
    destruct (0 <? List.length lines)%nat; [|lra].
    cbn [Candidate.totalPoints].
    apply Q.min_le_compat_r, sumPoints_set_mono, points_sum_flipped, Hflip. }
  assert (Ha : scoring_ok a)
    by (apply on_execution_result_ok, reachable_scoring_ok, Hreach).
  assert (Hb : scoring_ok b)
    by (apply on_execution_result_ok, reachable_scoring_ok, Hreach).
  destruct Ha as [_ (na & Hna & Ea)], Hb as [_ (nb & Hnb & Eb)].
  destruct (calculateScore_whole a na Hna Ea) as (Sa & _).
  destruct (calculateScore_whole b nb Hnb Eb) as (Sb & Pb & _).
  assert (Hb10 : Candidate.totalPoints b <= 10).
  { rewrite Eb; change 10 with (inject_Z 10); rewrite <- Zle_Qle; lia. }
  split; [exact Hab|]; split; [rewrite Sa, Sb; exact Hab|].
  split; [exact Hb10|]; split; [rewrite Sb; exact Hb10|].
  split; [exact Sb | exact Pb].
Qed.

End Score.

(** Eleven passes are capped at 10 points and reported as 100 percent. *)
Example eleven_passes_capped :
  let st := Candidate.on_execution_result (js "selenium-combined")
              Scenario.eleven_passes Candidate.initial in
  (Candidate.totalPoints st == 10)%Q
  /\ (Candidate.score (Candidate.calculateScore st) == 10)%Q
  /\ Candidate.percentage (Candidate.calculateScore st) = 100%Z
  /\ Candidate.bugsPassed (Candidate.calculateScore st) = 11%nat.
Proof. cbv zeta; repeat split; vm_compute; reflexivity. Qed.

(** One pass out of ten: 1 point, 10 percent. *)
Example one_pass_of_ten :
  let st := Candidate.on_execution_result (js "selenium-senior")
              ((1%Z, true) :: map (fun n => (Z.of_nat n, false)) (seq 2 9))
              Candidate.initial in
  (Candidate.score (Candidate.calculateScore st) == 1)%Q
  /\ Candidate.percentage (Candidate.calculateScore st) = 10%Z.
Proof. cbv zeta; split; vm_compute; reflexivity. Qed.

(** C6 at work: from ten failures to eleven passes, the total goes from 0
    to the cap. *)
Lemma score_monotone_and_capped_witness :
  let fails := map (fun l : Candidate.bug_line => (fst l, false))
                   Scenario.eleven_passes in
  (Candidate.totalPoints
     (Candidate.on_execution_result (js "selenium-combined") fails
        Candidate.initial)
   <= Candidate.totalPoints
        (Candidate.on_execution_result (js "selenium-combined")
           Scenario.eleven_passes Candidate.initial))%Q
  /\ (Candidate.totalPoints
        (Candidate.on_execution_result (js "selenium-combined")
           Scenario.eleven_passes Candidate.initial) <= 10)%Q.
Proof.
  intros fails.
  destruct (@score_monotone_and_capped Candidate.initial
              (js "selenium-combined") fails Scenario.eleven_passes)
    as (H1 & _ & H3 & _).
  - constructor.
  - unfold fails, Scenario.eleven_passes; simpl.
    repeat (constructor; [split; [reflexivity | discriminate]|]).
    constructor.
  - split; [exact H1 | exact H3].
Defined.

(* ================================================================== *)
(** ** The handlers, case by case *)
(* ================================================================== *)

Lemma get_Some_In {V} (m : Keyed.t V) k v :
  Keyed.get m k = Some v -> In (k, v) m.
Proof.
  induction m as [|[k' v'] m IH]; simpl; [discriminate|].
  destruct (str_eqb k' k) eqn:E; auto.
  apply str_eqb_eq in E; intros [= ->]; subst; auto.
Qed.

Lemma get_None_iff {V} (m : Keyed.t V) k :
  Keyed.get m k = None <-> ~ In k (map fst m).
Proof.
  induction m as [|[k' v'] m IH]; simpl; [tauto|].
  destruct (str_eqb k' k) eqn:E.
  - apply str_eqb_eq in E; split; [discriminate | tauto].
  - apply str_eqb_neq in E; rewrite IH; tauto.
Qed.

Lemma set_absent {V} (m : Keyed.t V) k v :
  Keyed.get m k = None -> Keyed.set m k v = m ++ [(k, v)].
Proof.
  induction m as [|[k' v'] m IH]; simpl; auto.
  destruct (str_eqb k' k); [discriminate|].
  intros H; now rewrite IH.
Qed.

Lemma set_present_keys {V} (m : Keyed.t V) k v v0 :
  Keyed.get m k = Some v0 -> map fst (Keyed.set m k v) = map fst m.
Proof.
  induction m as [|[k' v'] m IH]; simpl; [discriminate|].
  destruct (str_eqb k' k); simpl; auto.
  intros H; now rewrite IH.
Qed.

Lemma In_set {V} (m : Keyed.t V) k v k' v' :
  In (k', v') (Keyed.set m k v) -> (k' = k /\ v' = v) \/ In (k', v') m.
Proof.
  induction m as [|[k0 v0] m IH]; simpl.
  - intros [[= <- <-]|[]]; auto.
  - destruct (str_eqb k0 k) eqn:E; simpl.
    + apply str_eqb_eq in E; intros [[= <- <-]|H]; auto.
    + intros [H|H]; auto. destruct (IH H); auto.
  Qed.

Lemma NoDup_set_keys {V} (m : Keyed.t V) k v :
  NoDup (map fst m) -> NoDup (map fst (Keyed.set m k v)).
Proof.
  intros H; destruct (Keyed.get m k) as [v0|] eqn:E.
  - now rewrite (set_present_keys m k v v0 E).
  - rewrite (set_absent m k v E), map_app; simpl.
    apply NoDup_app; [exact H | repeat constructor; simpl; tauto |].
    intros x Hx [<-|[]]; apply get_None_iff in E; contradiction.
Qed.

Lemma sessions_join_room st socket room :
  sessions (join_room st socket room) = sessions st.
Proof. unfold join_room; destruct (existsb _ _); reflexivity. Qed.

Lemma sockets_join_room st socket room :
  sockets (join_room st socket room) = sockets st.
Proof. unfold join_room; destruct (existsb _ _); reflexivity. Qed.

Lemma Status_eqb_not_completed s :
  status s <> completed -> Status_eqb (status s) completed = false.
Proof. destruct (status s); simpl; congruence. Qed.

(** A join of a session that is not completed, spelled out. *)
Lemma on_join_session_eq st socket e sessionId s :
  Keyed.get (sessions st) sessionId = Some s ->
  status s <> completed ->
  on_join_session st socket e sessionId
  = (with_sessions (join_room st socket sessionId)
       (Keyed.set (sessions st) sessionId (joined (now e) s)),
     [(to_sender, session_data (join_data (now e) s));
      (to_all,
       sessions_list
         (map (getSessionWithAdjustedTimer (now e))
              (Keyed.values
                 (Keyed.set (sessions st) sessionId (joined (now e) s)))))]).
Proof.
  intros Hget Hs; unfold on_join_session.
  rewrite Hget, (Status_eqb_not_completed s Hs).
  unfold join_data; unfold joined; unfold join_times.
  cbn [set_status lastTimerUpdate isInstructionPhase
       instructionTimeRemaining codingTimeRemaining].
  destruct (truthy_num (lastTimerUpdate s));
    [destruct (truthy_bool (isInstructionPhase s))|];
    cbn [fst snd with_sessions sessions]; rewrite sessions_join_room;
    reflexivity.
Qed.

Lemma on_create_session_eq st e n t :
  on_create_session st e n t
  = (with_sessions st (Keyed.set (sessions st) (uuid e) (new_session e n t)),
     [(to_all, session_created (new_session e n t))]).
Proof. reflexivity. Qed.

(** What one handler run does to the store: nothing, one new session, or
    one stored session touched. *)
Lemma handle_cases st socket e ev :
  let st' := fst (handle st socket e ev) in
  sessions st' = sessions st
  \/ (exists n t, ev = create_session n t
                  /\ sessions st'
                     = Keyed.set (sessions st) (uuid e) (new_session e n t))
  \/ (exists k s0 s1, Keyed.get (sessions st) k = Some s0
                      /\ touched e s0 ev s1
                      /\ sessions st' = Keyed.set (sessions st) k s1).
Proof.
  destruct ev as [ | | n t | sid | sid c l | sid l | sid b i c | sid c l
                 | sid | results | ]; cbn [handle]; cbv zeta.
  - left; reflexivity.
  - left; reflexivity.
  - right; left; exists n, t; split; reflexivity.
  - destruct (Keyed.get (sessions st) sid) as [s|] eqn:E.
    + destruct (Status_eqb (status s) completed) eqn:C.
      * left; unfold on_join_session; rewrite E, C; reflexivity.
      * right; right; exists sid, s, (joined (now e) s).
        assert (Hs : status s <> completed)
          by (intros H; rewrite H in C; discriminate).
        split; [exact E|]; split; [now constructor|].
        rewrite (on_join_session_eq st socket e sid s E Hs); reflexivity.
    + left; unfold on_join_session; rewrite E; reflexivity.
  - unfold on_code_change.
    destruct (Keyed.get (sessions st) sid) as [s|] eqn:E; [|left; reflexivity].
    right; right; do 3 eexists; split; [exact E|]; split;
      [apply (touched_code e s sid c l) | reflexivity].
  - unfold on_language_change.
    destruct (Keyed.get (sessions st) sid) as [s|] eqn:E; [|left; reflexivity].
    right; right; do 3 eexists; split; [exact E|]; split;
      [apply (touched_language e s sid l) | reflexivity].
  - unfold on_timer_update.
    destruct (Keyed.get (sessions st) sid) as [s|] eqn:E; [|left; reflexivity].
    right; right; do 3 eexists; split; [exact E|]; split;
      [apply (touched_timer e s sid b i c) | reflexivity].
  - unfold on_execute_code.
    destruct (run_tests c l) as [rep ok] eqn:R.
    destruct (Keyed.get (sessions st) sid) as [s|] eqn:E; [|left; reflexivity].
    right; right; do 3 eexists; split; [exact E|]; split;
      [apply (touched_output e s sid c l) | rewrite R; reflexivity].
  - left; unfold on_paste_attempt.
    destruct (Keyed.get (sessions st) sid); reflexivity.
  - unfold on_test_submitted.
    destruct (Keyed.get (sessions st) (Candidate.sessionId results))
      as [s|] eqn:E; [|left; reflexivity].
    right; right; do 3 eexists; split; [exact E|]; split;
      [apply (touched_submitted e s results) | reflexivity].
  - left; reflexivity.
Qed.

(** A touched session keeps what it was created with, and its status does
    not go back. *)
Lemma touched_identity e s ev s' :
  touched e s ev s' -> identity s' = identity s.
Proof.
  destruct 1 as [ | ? c l | | | | ]; try reflexivity.
  destruct (truthy_str l); reflexivity.
Qed.

Lemma touched_rank e s ev s' :
  touched e s ev s' -> (rank (status s) <= rank (status s'))%nat.
Proof.
  destruct 1 as [ ? Hs | ? c l | | | | ]; cbn.
  - destruct (status s); simpl; try lia; congruence.
  - destruct (truthy_str l); cbn; lia.
  - lia.
  - lia.
  - lia.
  - destruct (status s); simpl; lia.
Qed.

Lemma touched_completed e s ev s' :
  touched e s ev s' -> status s = completed -> status s' = completed.
Proof.
  intros H Hc; apply touched_rank in H; rewrite Hc in H.
  destruct (status s'); simpl in H; try lia; reflexivity.
Qed.

Lemma In_get {V} (m : Keyed.t V) k v :
  NoDup (map fst m) -> In (k, v) m -> Keyed.get m k = Some v.
Proof.
  induction m as [|[k' v'] m IH]; simpl; [tauto|].
  intros Hnd [H|H].
  - injection H as -> ->; now rewrite str_eqb_refl.
  - apply NoDup_cons_iff in Hnd as [Hk Hnd].
    destruct (str_eqb k' k) eqn:E; [|auto].
    apply str_eqb_eq in E; subst k'.
    exfalso; apply Hk, in_map_iff; exists (k, v); auto.
Qed.

(* ================================================================== *)
(** ** The store over time *)
(* ================================================================== *)

Section Store.

Local Open Scope Z_scope.

Lemma handle_keys_ok st socket e ev :
  keys_ok st -> keys_ok (fst (handle st socket e ev)).
Proof.
  intros [Hnd Hid].
  assert (Hset : forall k v, id v = k ->
                   NoDup (map fst (Keyed.set (sessions st) k v))
                   /\ Forall (fun kv => id (snd kv) = fst kv)
                             (Keyed.set (sessions st) k v)).
  { intros k v Hv; split; [now apply NoDup_set_keys|].
    apply Forall_forall; intros [k' v'] Hin.
    apply In_set in Hin as [[-> ->]|Hin]; [exact Hv|].
    rewrite Forall_forall in Hid; apply (Hid _ Hin). }
  unfold keys_ok.
  destruct (handle_cases st socket e ev)
    as [E|[(n & t & _ & E)|(k & s0 & s1 & Hget & Ht & E)]];
    cbv zeta in E; rewrite E.
  - split; assumption.
  - apply Hset; reflexivity.
  - apply Hset.
    apply touched_identity in Ht; injection Ht as -> _ _ _ _.
    apply get_Some_In in Hget; rewrite Forall_forall in Hid.
    apply (Hid _ Hget).
Qed.

Lemma reachable_keys_ok st : reachable st -> keys_ok st.
Proof.
  induction 1 as [|st socket e ev _ IH].
  - split; constructor.
  - now apply handle_keys_ok.
Qed.

(** In every state of the server the keys of the store are distinct, and
    the session under a key has that key as its [id]. *)
Theorem store_keys_are_session_ids st :
  reachable st ->
  NoDup (map fst (sessions st))
  /\ (forall k s, Keyed.get (sessions st) k = Some s -> id s = k).
Proof.
  intros H; destruct (reachable_keys_ok st H) as [Hnd Hid].
  split; [exact Hnd|]; intros k s Hget.
  apply get_Some_In in Hget; rewrite Forall_forall in Hid.
  apply (Hid _ Hget).
Qed.

(** One step keeps every session, what it was created with, and the
    direction of its status. *)
Lemma handle_persists st socket e ev k s :
  fresh_uuid st e ev ->
  Keyed.get (sessions st) k = Some s ->
  exists s', Keyed.get (sessions (fst (handle st socket e ev))) k = Some s'
             /\ identity s' = identity s
             /\ (rank (status s) <= rank (status s'))%nat.
Proof.
  intros Hfresh Hget.
  destruct (handle_cases st socket e ev)
    as [E|[(n & t & -> & E)|(k0 & s0 & s1 & Hget0 & Ht & E)]];
    cbv zeta in E; rewrite E.
  - exists s; auto.
  - exists s; split; [|auto].
    rewrite get_set_other; [exact Hget|].
    intros ->; simpl in Hfresh; congruence.
  - destruct (str_eqb k k0) eqn:K.
    + apply str_eqb_eq in K; subst k0.
      assert (s0 = s) by congruence; subst s0.
      exists s1; split; [apply get_set_same|].
      split; [eapply touched_identity | eapply touched_rank]; eassumption.
    + apply str_eqb_neq in K; exists s; split; [|auto].
      rewrite get_set_other; assumption.
Qed.

Lemma run_persists l : forall st k s,
  fresh_uuids st l ->
  Keyed.get (sessions st) k = Some s ->
  exists s', Keyed.get (sessions (run_events st l)) k = Some s'
             /\ identity s' = identity s
             /\ (rank (status s) <= rank (status s'))%nat.
Proof.
  induction l as [|[[socket e] ev] l IH]; intros st k s Hf Hget; simpl.
  - exists s; auto.
  - destruct Hf as [Hf Hfs].
    destruct (handle_persists st socket e ev k s Hf Hget)
      as (s1 & H1 & I1 & R1).
    destruct (IH _ k s1 Hfs H1) as (s2 & H2 & I2 & R2).
    exists s2; split; [exact H2|]; split; [congruence | lia].
Qed.

(** No run of events drops a session or changes what it was created
    with: its id, candidate name, problem, description and creation time
    (given that [uuidv4()] never draws an identifier already in use). *)
Theorem sessions_are_never_dropped st l k s :
  fresh_uuids st l ->
  Keyed.get (sessions st) k = Some s ->
  exists s', Keyed.get (sessions (run_events st l)) k = Some s'
             /\ identity s' = identity s.
Proof.
  intros Hf Hget.
  destruct (run_persists l st k s Hf Hget) as (s' & H & I & _).
  exists s'; auto.
Qed.

(** Over any run of events the status of a session only moves forward,
    waiting, active, completed; a completed session stays completed. *)
Theorem status_only_moves_forward st l k s :
  fresh_uuids st l ->
  Keyed.get (sessions st) k = Some s ->
  exists s', Keyed.get (sessions (run_events st l)) k = Some s'
             /\ (rank (status s) <= rank (status s'))%nat
             /\ (status s = completed -> status s' = completed).
Proof.
  intros Hf Hget.
  destruct (run_persists l st k s Hf Hget) as (s' & H & _ & R).
  exists s'; split; [exact H|]; split; [exact R|].
  intros Hc; rewrite Hc in R.
  destruct (status s'); simpl in R; try lia; reflexivity.
Qed.

(** Of two [code-change] events for a session, the later one decides the
    stored code; the stored language is the latest one that came with an
    edit, if any did; every other field is as it was before the two. *)
Theorem code_change_last_writer_wins st sessionId s c1 l1 c2 l2 :
  Keyed.get (sessions st) sessionId = Some s ->
  let st1 := fst (on_code_change st sessionId c1 l1) in
  let st2 := fst (on_code_change st1 sessionId c2 l2) in
  exists s2, Keyed.get (sessions st2) sessionId = Some s2
             /\ Server.code s2 = c2
             /\ Server.language s2
                = (if truthy_str l2 then nullish l2 []
                   else if truthy_str l1 then nullish l1 []
                        else Server.language s)
             /\ s2 = set_language (set_code s c2) (Server.language s2).
Proof.
  intros Hget; cbv zeta.
  assert (H1 : Keyed.get (sessions (fst (on_code_change st sessionId c1 l1)))
                         sessionId
               = Some (if truthy_str l1
                       then set_language (set_code s c1) (nullish l1 [])
                       else set_code s c1)).
  { unfold on_code_change; rewrite Hget; cbn [fst with_sessions sessions].
    apply get_set_same. }
  unfold on_code_change at 1; rewrite H1; cbn [fst with_sessions sessions].
  eexists; split; [apply get_set_same|].
  destruct (truthy_str l2), (truthy_str l1); repeat split.
Qed.

(** A [language-change] for a session of the store stores the language
    and is sent as [language-update] to every connection but the sender's;
    for an unknown identifier nothing is stored or sent. *)
Theorem language_change_sender_excluded st sender sessionId language :
  let st' := fst (on_language_change st sessionId language) in
  let out := snd (on_language_change st sessionId language) in
  (forall s, Keyed.get (sessions st) sessionId = Some s ->
     Keyed.get (sessions st') sessionId = Some (set_language s language)
     /\ (forall c, In c (sockets st) -> c <> sender ->
                   In (c, language_update sessionId language)
                      (deliveries (sockets st) sender out))
     /\ (forall m, ~ In (sender, m) (deliveries (sockets st) sender out)))
  /\ (Keyed.get (sessions st) sessionId = None -> st' = st /\ out = []).
Proof.
  cbv zeta; unfold on_language_change; split.
  - intros s ->; cbn [fst snd with_sessions sessions].
    split; [apply get_set_same|]; split.
    + intros c Hc Hne; apply deliveries_one; split; auto.
      apply In_recipients_others; auto.
    + intros m H; apply deliveries_one in H as [H _].
      apply In_recipients_others in H as [_ H]; congruence.
  - intros ->; auto.
Qed.

Lemma all_passed_iff (l : list TestResult) :
  List.length (filter Grader.passed l) = List.length l
  <-> forallb Grader.passed l = true.
Proof.
  induction l as [|x l IH]; simpl; [tauto|].
  pose proof (filter_length_le l) as F.
  destruct (Grader.passed x); simpl.
  - rewrite <- IH; split; intros H; lia.
  - split; [intros H; lia | discriminate].
Qed.

(** A run of [execute-code] succeeds exactly when every outcome passed;
    the caller is always answered; the report is stored and sent on to
    all as [execution-update] exactly when the session exists, and then it
    is the same report and flag. *)
Theorem execute_code_reports st sessionId code language :
  let rep := fst (run_tests code language) in
  let ok := snd (run_tests code language) in
  let st' := fst (on_execute_code st sessionId code language) in
  let out := snd (on_execute_code st sessionId code language) in
  (ok = true <-> forallb Grader.passed (analyzeDebugFixes code language) = true)
  /\ (passedTests rep <= totalTests rep)%nat
  /\ hd_error out = Some (to_sender, execution_result sessionId rep ok)
  /\ (Keyed.get (sessions st) sessionId = None ->
      st' = st /\ List.length out = 1%nat)
  /\ (forall s, Keyed.get (sessions st) sessionId = Some s ->
        Keyed.get (sessions st') sessionId = Some (set_output s (Some rep))
        /\ out = [(to_sender, execution_result sessionId rep ok);
                  (to_all, execution_update sessionId rep ok)]).
Proof.
  cbv zeta; unfold on_execute_code, run_tests.
  cbn [fst snd passedTests totalTests].
  split; [|split; [apply filter_length_le|]].
  - rewrite <- all_passed_iff.
    destruct (Nat.eqb_spec
                (List.length (filter Grader.passed
                                     (analyzeDebugFixes code language)))
                (List.length (analyzeDebugFixes code language)))
      as [E|E]; [tauto|].
    destruct (7 <=? _)%nat; split; intros H; congruence.
  - destruct (Keyed.get (sessions st) sessionId) as [s|];
      (split; [reflexivity|]); split;
      try (intros [=]); try (intros s' [= <-]); auto.
    cbn [fst snd with_sessions sessions]; split;
      [apply get_set_same | reflexivity].
Qed.

End Store.

(** On the submitted scenario: the key of the session is its id. *)
Lemma store_keys_are_session_ids_witness :
  exists s, Keyed.get (sessions Scenario.submitted) Scenario.sid = Some s
            /\ id s = Scenario.sid.
Proof.
  destruct submitted_session as (s & E & _).
  exists s; split; [exact E|].
  destruct (store_keys_are_session_ids Scenario.submitted) as [_ H].
  - unfold Scenario.submitted, Scenario.coding_120, Scenario.joined.
    repeat apply run_events_reachable; constructor.
  - apply (H _ _ E).
Defined.

(** On the joined scenario, run through the update and the submission: the
    session is still there, with the name it was created with. *)
Lemma sessions_are_never_dropped_witness :
  exists s s', Keyed.get (sessions Scenario.joined) Scenario.sid = Some s
               /\ Keyed.get (sessions Scenario.submitted) Scenario.sid = Some s'
               /\ identity s' = identity s.
Proof.
  destruct joined_session as (s & E & _).
  destruct (sessions_are_never_dropped Scenario.joined
              [ (Scenario.candidate, Scenario.at_ (Scenario.t0 + 70000)%Z,
                 timer_update_event Scenario.sid false 0 120);
                (Scenario.candidate, Scenario.at_ (Scenario.t0 + 80000)%Z,
                 test_submitted Scenario.submission) ]
              Scenario.sid s) as (s' & E' & I).
  - simpl; tauto.
  - exact E.
  - exists s, s'; split; [exact E|]; split; [exact E' | exact I].
Defined.

(** On the submitted scenario: a later join and a later edit leave the
    session completed. *)
Lemma status_only_moves_forward_witness :
  exists s', Keyed.get
               (sessions
                  (run_events Scenario.submitted
                     [ (Scenario.candidate, Scenario.at_ (Scenario.t0 + 90000)%Z,
                        join_session Scenario.sid);
                       (Scenario.interviewer, Scenario.at_ (Scenario.t0 + 91000)%Z,
                        code_change Scenario.sid (js "// late edit") None) ]))
               Scenario.sid = Some s'
             /\ status s' = completed.
Proof.
  destruct submitted_session as (s & E & Hs & _).
  destruct (status_only_moves_forward Scenario.submitted
              [ (Scenario.candidate, Scenario.at_ (Scenario.t0 + 90000)%Z,
                 join_session Scenario.sid);
                (Scenario.interviewer, Scenario.at_ (Scenario.t0 + 91000)%Z,
                 code_change Scenario.sid (js "// late edit") None) ]
              Scenario.sid s) as (s' & E' & _ & Hc).
  - simpl; tauto.
  - exact E.
  - exists s'; split; [exact E' | exact (Hc Hs)].
Defined.

(** Two edits of the joined session, by the candidate and then by the
    interviewer: the interviewer's text is what is stored. *)
Lemma code_change_last_writer_wins_witness :
  exists s2,
    Keyed.get
      (sessions
         (fst (on_code_change
                 (fst (on_code_change Scenario.joined Scenario.sid
                         (js "// candidate") (Some (js "selenium-senior"))))
                 Scenario.sid (js "// interviewer") None)))
      Scenario.sid = Some s2
    /\ Server.code s2 = js "// interviewer".
Proof.
  destruct joined_session as (s & E & _).
  destruct (code_change_last_writer_wins Scenario.joined Scenario.sid s
              (js "// candidate") (Some (js "selenium-senior"))
              (js "// interviewer") None E) as (s2 & H & Hc & _).
  exists s2; split; [exact H | exact Hc].
Defined.

(** A change of language by the interviewer reaches the candidate only. *)
Lemma language_change_sender_excluded_witness :
  In (Scenario.candidate,
      language_update Scenario.sid (js "selenium-waits"))
     (deliveries (sockets Scenario.joined) Scenario.interviewer
        (snd (on_language_change Scenario.joined Scenario.sid
                (js "selenium-waits")))).
Proof.
  destruct joined_session as (s & E & _).
  destruct (language_change_sender_excluded Scenario.joined
              Scenario.interviewer Scenario.sid (js "selenium-waits"))
    as [H _].
  destruct (H s E) as (_ & Hothers & _).
  apply Hothers; [vm_compute; auto | vm_compute; discriminate].
Defined.

(** A run on the repaired calculator succeeds and reaches the interviewer. *)
Lemma execute_code_reports_witness :
  snd (run_tests Scenario.fixed_calculator (js "java-calculator")) = true
  /\ List.length
       (snd (on_execute_code Scenario.joined Scenario.sid
               Scenario.fixed_calculator (js "java-calculator"))) = 2%nat.
Proof.
  destruct joined_session as (s & E & _).
  destruct (execute_code_reports Scenario.joined Scenario.sid
              Scenario.fixed_calculator (js "java-calculator"))
    as (Hok & _ & _ & _ & Hsome).
  split.
  - apply Hok; vm_compute; reflexivity.
  - destruct (Hsome s E) as [_ ->]; reflexivity.
Defined.

(* ================================================================== *)
(** ** Joining again *)
(* ================================================================== *)

Section Rejoin.

Local Open Scope Z_scope.

Lemma reconcile_at_stamp now s :
  lastTimerUpdate s = Some now -> getSessionWithAdjustedTimer now s = s.
Proof.
  intros H; unfold getSessionWithAdjustedTimer; rewrite H; cbn [nullish].
  destruct (negb (truthy_num (Some now))); [reflexivity|].
  unfold elapsedSecondsSince; rewrite Z.sub_diag; reflexivity.
Qed.

Lemma values_set_length {V} (m : Keyed.t V) k v v0 :
  Keyed.get m k = Some v0 ->
  List.length (Keyed.values (Keyed.set m k v)) = List.length m.
Proof.
  intros H; unfold Keyed.values; rewrite length_map.
  rewrite <- (length_map fst), (set_present_keys m k v v0 H), length_map.
  reflexivity.
Qed.

(** On a join, the list broadcast to all shows the joined session with
    the remaining times the caller is sent, as active; the list has one
    entry per stored session. *)
Theorem join_list_agrees_with_payload st socket e sessionId s :
  Keyed.get (sessions st) sessionId = Some s ->
  status s <> completed ->
  exists d l x,
    snd (on_join_session st socket e sessionId)
    = [(to_sender, session_data d); (to_all, sessions_list l)]
    /\ In x l
    /\ id x = id s
    /\ status x = active /\ status d = active
    /\ instructionTimeRemaining x = instructionTimeRemaining d
    /\ codingTimeRemaining x = codingTimeRemaining d
    /\ lastTimerUpdate x = Some (now e)
    /\ List.length l = List.length (sessions st).
Proof.
  intros Hget Hs.
  rewrite (on_join_session_eq st socket e sessionId s Hget Hs); cbn [snd].
  do 2 eexists; exists (joined (now e) s).
  split; [reflexivity|]; split.
  - apply in_map_iff; exists (joined (now e) s); split.
    + apply reconcile_at_stamp; reflexivity.
    + eapply get_In, get_set_same.
  - repeat split.
    rewrite length_map; apply (values_set_length _ _ _ s Hget).
Qed.

(** A join re-stamps the session and forgets the fraction of a second
    that had elapsed.  For a session whose phase flag is set, joining at
    [now e1] and again at [now e2] leaves the time of the phase the flag
    names at least what a single join at [now e2] leaves, and at most one
    second more; the time of the other phase is the same either way, and
    both replies name the phase of the flag. *)
Theorem rejoin_drift_under_one_second
        st socket1 socket2 e1 e2 sessionId s t b :
  Keyed.get (sessions st) sessionId = Some s ->
  status s <> completed ->
  isInstructionPhase s = Some b ->
  lastTimerUpdate s = Some t -> t <> 0 -> now e1 <> 0 ->
  t <= now e1 -> now e1 <= now e2 ->
  let st1 := fst (on_join_session st socket1 e1 sessionId) in
  let live d := if b then instructionTimeRemaining d
                else codingTimeRemaining d in
  let rest d := if b then codingTimeRemaining d
                else instructionTimeRemaining d in
  exists d once twice,
    hd_error (snd (on_join_session st socket2 e2 sessionId))
    = Some (to_sender, session_data d)
    /\ isInstructionPhase d = Some b
    /\ live d = Some once
    /\ exists d', hd_error (snd (on_join_session st1 socket2 e2 sessionId))
                  = Some (to_sender, session_data d')
                  /\ isInstructionPhase d' = Some b
                  /\ live d' = Some twice
                  /\ once <= twice <= once + 1
                  /\ rest d' = rest d.
Proof.
  intros Hget Hs Hflag Hstamp Ht H1 Ht1 H12 st1 live rest.
  assert (Hget1 : Keyed.get (sessions st1) sessionId
                  = Some (joined (now e1) s)).
  { subst st1; rewrite (on_join_session_eq st socket1 e1 sessionId s Hget Hs).
    cbn [fst with_sessions sessions]; apply get_set_same. }
  assert (Hs1 : status (joined (now e1) s) <> completed) by discriminate.
  rewrite (on_join_session_eq st socket2 e2 sessionId s Hget Hs).
  rewrite (on_join_session_eq st1 socket2 e2 sessionId _ Hget1 Hs1).
  cbn [snd hd_error]; subst live rest; cbv beta.
  unfold join_data, joined, join_times.
  cbn [set_status set_isInstructionPhase set_lastTimerUpdate
       set_codingTimeRemaining set_instructionTimeRemaining
       lastTimerUpdate isInstructionPhase instructionTimeRemaining
       codingTimeRemaining].
  rewrite Hflag, Hstamp, (truthy_num_Some t Ht),
    (truthy_num_Some (now e1) H1).
  cbn [nullish truthy_bool]; unfold elapsedSecondsSince.
  assert (D : (now e1 - t) / 1000 + (now e2 - now e1) / 1000
              <= (now e2 - t) / 1000
              <= (now e1 - t) / 1000 + (now e2 - now e1) / 1000 + 1).
  { clear - Ht1 H12. Z.div_mod_to_equations; lia. }
  assert (P1 : 0 <= (now e1 - t) / 1000) by (apply Z.div_pos; lia).
  assert (P2 : 0 <= (now e2 - now e1) / 1000) by (apply Z.div_pos; lia).
  destruct b; cbn [fst snd];
    do 3 eexists; (split; [reflexivity|]); (split; [reflexivity|]);
    (split; [reflexivity|]);
    eexists; (split; [reflexivity|]); (split; [reflexivity|]);
    (split; [reflexivity|]); (split; [lia | reflexivity]).
Qed.

(** A session is created and joined; before any [timer-update] reaches
    the server the page joins again.  The caller is told it is in the
    instruction phase with the full 60 seconds, and the seconds elapsed
    since the first join have been taken off the coding time. *)
Theorem reload_before_first_timer_update
        st interviewer candidate e0 e1 e2 name title :
  Keyed.get (sessions st) (uuid e0) = None ->
  now e1 <> 0 -> now e1 <= now e2 ->
  let st2 := run_events st
               [ (interviewer, e0, create_session name title);
                 (candidate, e1, join_session (uuid e0)) ] in
  exists d,
    hd_error (snd (on_join_session st2 candidate e2 (uuid e0)))
    = Some (to_sender, session_data d)
    /\ isInstructionPhase d = Some true
    /\ instructionTimeRemaining d = Some 60
    /\ codingTimeRemaining d
       = Some (Z.max 0 (900 - (now e2 - now e1) / 1000))
    /\ 0 <= (now e2 - now e1) / 1000.
Proof.
  intros Hfresh H1 H12 st2.
  assert (Hc : Keyed.get (sessions (fst (on_create_session st e0 name title)))
                         (uuid e0)
               = Some (new_session e0 name title)).
  { rewrite on_create_session_eq; cbn [fst with_sessions sessions].
    apply get_set_same. }
  assert (Hj : Keyed.get (sessions st2) (uuid e0)
               = Some (joined (now e1) (new_session e0 name title))).
  { subst st2; cbn [run_events handle].
    rewrite (on_join_session_eq _ candidate e1 (uuid e0) _ Hc);
      [|discriminate].
    cbn [fst with_sessions sessions]; apply get_set_same. }
  rewrite (on_join_session_eq st2 candidate e2 (uuid e0) _ Hj);
    [|discriminate].
  cbn [snd hd_error]; eexists; split; [reflexivity|].
  unfold join_data, joined, join_times, new_session.
  cbn [set_status set_isInstructionPhase set_lastTimerUpdate
       set_codingTimeRemaining set_instructionTimeRemaining
       lastTimerUpdate isInstructionPhase instructionTimeRemaining
       codingTimeRemaining truthy_num nullish truthy_bool fst snd].
  rewrite (proj2 (Z.eqb_neq (now e1) 0) H1); cbn [negb fst snd].
  repeat split.
  unfold elapsedSecondsSince; apply Z.div_pos; lia.
Qed.

Lemma touched_times_nonneg e s ev s' :
  touched e s ev s' -> sends_nonneg ev -> times_nonneg s -> times_nonneg s'.
Proof.
  unfold times_nonneg.
  destruct 1 as [ ? Hs | ? c l | | ? p i c | | ]; cbn; intros Hev Hn; auto.
  - unfold join_times.
    destruct (instructionTimeRemaining s), (codingTimeRemaining s);
      cbn [nullish] in *;
      destruct (truthy_num _); [destruct (truthy_bool _)| | destruct (truthy_bool _)| | destruct (truthy_bool _)| | destruct (truthy_bool _)| ];
      cbn [fst snd]; lia.
  - destruct (truthy_str l); exact Hn.
Qed.

Lemma handle_times_nonneg st socket e ev :
  sends_nonneg ev ->
  Forall times_nonneg (Keyed.values (sessions st)) ->
  Forall times_nonneg (Keyed.values (sessions (fst (handle st socket e ev)))).
Proof.
  intros Hev H.
  destruct (handle_cases st socket e ev)
    as [E|[(n & t & _ & E)|(k & s0 & s1 & Hget & Ht & E)]];
    cbv zeta in E; rewrite E.
  - exact H.
  - apply Forall_values_set; [exact H|]; split; cbn; lia.
  - apply Forall_values_set; [exact H|].
    apply (touched_times_nonneg e s0 ev s1 Ht Hev).
    rewrite Forall_forall in H; eapply H, get_In, Hget.
Qed.

(** As long as every [timer-update] received carries times that are not
    negative, no stored remaining time is ever negative: the joins floor
    at zero and nothing else writes the times. *)
Theorem remaining_times_stay_nonnegative l : forall st,
  Forall times_nonneg (Keyed.values (sessions st)) ->
  Forall (fun x => sends_nonneg (snd x)) l ->
  Forall times_nonneg (Keyed.values (sessions (run_events st l))).
Proof.
  induction l as [|[[socket e] ev] l IH]; intros st H Hl; simpl; auto.
  inversion Hl; subst.
  apply IH; [|assumption].
  apply handle_times_nonneg; assumption.
Qed.

(** Once a [timer-update] has set the phase flag: with a stamp behind
    it, reconciliation takes the whole seconds elapsed since the stamp off
    the remaining time of the phase the flag names and stops at zero, so
    the result is not negative and is 0 as soon as no less time has
    elapsed than was left; the flag stays, and a join answers with that
    phase and that value.  The clock and the time are whole numbers below
    2^53, the range in which the numbers of the code are exact. *)
Theorem reconcile_subtracts_from_flagged_phase
        (now t : Z) (s : InterviewSession) (b : bool) :
  isInstructionPhase s = Some b ->
  lastTimerUpdate s = Some t -> 0 < t -> t <= now -> now < 2 ^ 53 ->
  let live x := if b then nullish (instructionTimeRemaining x) 60
                else nullish (codingTimeRemaining x) 900 in
  0 <= live s < 2 ^ 53 ->
  let elapsed := elapsedSecondsSince now t in
  let r := getSessionWithAdjustedTimer now s in
  isInstructionPhase r = Some b
  /\ live r = Z.max 0 (live s - elapsed)
  /\ 0 <= live r
  /\ (live s <= elapsed -> live r = 0)
  /\ (forall st socket e sessionId,
         Server.now e = now ->
         Keyed.get (sessions st) sessionId = Some s ->
         status s <> completed ->
         exists d rest,
           snd (on_join_session st socket e sessionId)
           = (to_sender, session_data d) :: rest
           /\ isInstructionPhase d = Some b
           /\ (if b then instructionTimeRemaining d
               else codingTimeRemaining d)
              = Some (Z.max 0 (live s - elapsed))).
Proof.
  intros Hflag Hstamp Ht Hnow _ live Hlive elapsed r.
  assert (Ht0 : t <> 0) by lia.
  pose proof (elapsed_nonneg now t Hnow) as Hel; fold elapsed in Hel.
  assert (Hr : isInstructionPhase r = Some b
               /\ live r = Z.max 0 (live s - elapsed)).
  { subst r live; unfold getSessionWithAdjustedTimer.
    rewrite Hstamp, (truthy_num_Some t Ht0); cbn [negb nullish].
    fold elapsed.
    destruct (elapsed <=? 0) eqn:E.
    - apply Z.leb_le in E; split; [exact Hflag|]; cbv beta in *; lia.
    - rewrite Hflag; destruct b; cbn; rewrite ?Hflag; split; reflexivity. }
  destruct Hr as [Hf Hr].
  split; [exact Hf|]; split; [exact Hr|]; split; [lia|]; split; [lia|].
  intros st socket e sessionId He Hget Hstatus.
  rewrite (on_join_session_eq st socket e sessionId s Hget Hstatus).
  cbn [snd]; do 2 eexists; split; [reflexivity|].
  unfold join_data, joined, join_times.
  cbn [set_status set_isInstructionPhase set_lastTimerUpdate
       set_codingTimeRemaining set_instructionTimeRemaining
       lastTimerUpdate isInstructionPhase instructionTimeRemaining
       codingTimeRemaining].
  rewrite Hflag, Hstamp, (truthy_num_Some t Ht0), He.
  cbn [nullish truthy_bool]; fold elapsed; subst live.
  destruct b; cbn [fst snd]; split; reflexivity.
Qed.

(** Reconciling a session of the store gives the stored session back
    when it carries no stamp and when no whole second has elapsed since
    the stamp; in every case it leaves the phase flag and every field
    other than the two remaining times as they were; and when the flag is
    set, it leaves the remaining time of the other phase as it was. *)
Theorem reconcile_leaves_the_other_phase
        (st : server) (sessionId : jsstring) (s : InterviewSession)
        (now : Z) :
  reachable st ->
  Keyed.get (sessions st) sessionId = Some s ->
  let r := getSessionWithAdjustedTimer now s in
  (lastTimerUpdate s = None -> r = s)
  /\ (forall t, lastTimerUpdate s = Some t ->
                elapsedSecondsSince now t <= 0 -> r = s)
  /\ isInstructionPhase r = isInstructionPhase s
  /\ (forall b, isInstructionPhase s = Some b ->
                if b then codingTimeRemaining r = codingTimeRemaining s
                else instructionTimeRemaining r
                     = instructionTimeRemaining s)
  /\ untimed r = untimed s.
Proof.
  intros Hreach Hget r.
  assert (Hok : stamped_with_times s).
  { apply reachable_store_ok in Hreach.
    unfold store_ok in Hreach; rewrite Forall_forall in Hreach.
    eapply Hreach, get_In, Hget. }
  subst r; unfold getSessionWithAdjustedTimer, stamped_with_times in *.
  split; [intros ->; reflexivity|].
  split.
  { intros t Ht Hel; rewrite Ht; cbn [nullish].
    apply Z.leb_le in Hel; rewrite Hel.
    destruct (truthy_num (Some t)); reflexivity. }
  destruct (lastTimerUpdate s) as [t|]; cbn [truthy_num negb nullish].
  2: { repeat split; intros b _; destruct b; reflexivity. }
  destruct Hok as [Hi Hc].
  destruct (negb (negb (t =? 0))); cbn [negb];
    [repeat split; intros b _; destruct b; reflexivity|].
  destruct (elapsedSecondsSince now t <=? 0);
    [repeat split; intros b _; destruct b; reflexivity|].
  destruct (instructionTimeRemaining s) as [i|] eqn:Ei; [|congruence].
  destruct (codingTimeRemaining s) as [c|] eqn:Ec; [|congruence].
  split; [destruct (truthy_bool (isInstructionPhase s)); reflexivity|].
  split; [|destruct (truthy_bool (isInstructionPhase s)); reflexivity].
  intros b Hb; rewrite Hb; destruct b; cbn; rewrite ?Ei, ?Ec; reflexivity.
Qed.

End Rejoin.

(** On the candidate's join of the scenario: the list shows 60 and 900. *)
Lemma join_list_agrees_with_payload_witness :
  exists d l x,
    snd (on_join_session Scenario.coding_120 Scenario.candidate
           (Scenario.at_ (Scenario.t0 + 117500)%Z) Scenario.sid)
    = [(to_sender, session_data d); (to_all, sessions_list l)]
    /\ In x l
    /\ codingTimeRemaining x = codingTimeRemaining d.
Proof.
  destruct coding_120_session as (s & E & _ & _ & _ & _ & Hs).
  destruct (join_list_agrees_with_payload Scenario.coding_120
              Scenario.candidate (Scenario.at_ (Scenario.t0 + 117500)%Z)
              Scenario.sid s E)
    as (d & l & x & Hout & Hin & _ & _ & _ & _ & Hc & _).
  - rewrite Hs; discriminate.
  - exists d, l, x; auto.
Defined.

(** The page of the scenario reloads after 20.6 seconds and again 26.9
    seconds later: 120 becomes 74, where one join at the end gives 73. *)
Lemma rejoin_drift_under_one_second_witness :
  exists d d',
    hd_error (snd (on_join_session Scenario.coding_120 Scenario.candidate
                     (Scenario.at_ (Scenario.t0 + 117500)%Z) Scenario.sid))
    = Some (to_sender, session_data d)
    /\ hd_error
         (snd (on_join_session
                 (fst (on_join_session Scenario.coding_120 Scenario.candidate
                         (Scenario.at_ (Scenario.t0 + 90600)%Z) Scenario.sid))
                 Scenario.candidate
                 (Scenario.at_ (Scenario.t0 + 117500)%Z) Scenario.sid))
       = Some (to_sender, session_data d')
    /\ codingTimeRemaining d = Some 73%Z
    /\ codingTimeRemaining d' = Some 74%Z.
Proof.
  destruct coding_120_session as (s & E & Hp & _ & _ & Hl & Hs).
  destruct (rejoin_drift_under_one_second Scenario.coding_120
              Scenario.candidate Scenario.candidate
              (Scenario.at_ (Scenario.t0 + 90600)%Z)
              (Scenario.at_ (Scenario.t0 + 117500)%Z)
              Scenario.sid s (Scenario.t0 + 70000)%Z false E)
    as (d & once & twice & Hd & _ & _ & d' & Hd' & _).
  - rewrite Hs; discriminate.
  - exact Hp.
  - exact Hl.
  - vm_compute; discriminate.
  - vm_compute; discriminate.
  - vm_compute; discriminate.
  - vm_compute; discriminate.
  - exists d, d'; split; [exact Hd|]; split; [exact Hd'|].
    vm_compute in Hd, Hd'.
    injection Hd as <-; injection Hd' as <-; split; reflexivity.
Defined.

(** From start-up: created, joined, and joined again 12.3 seconds later. *)
Lemma reload_before_first_timer_update_witness :
  exists d,
    hd_error
      (snd (on_join_session Scenario.joined Scenario.candidate
              (Scenario.at_ (Scenario.t0 + 17300)%Z) Scenario.sid))
    = Some (to_sender, session_data d)
    /\ isInstructionPhase d = Some true
    /\ instructionTimeRemaining d = Some 60%Z
    /\ codingTimeRemaining d = Some 888%Z.
Proof.
  destruct (reload_before_first_timer_update
              (run_events initial
                 [ (Scenario.interviewer, Scenario.at_ Scenario.t0, connection);
                   (Scenario.candidate, Scenario.at_ Scenario.t0, connection) ])
              Scenario.interviewer Scenario.candidate
              (Scenario.at_ Scenario.t0) (Scenario.at_ (Scenario.t0 + 5000)%Z)
              (Scenario.at_ (Scenario.t0 + 17300)%Z)
              (js "Ada") (js "Selenium Debugging"))
    as (d & Hd & Hp & Hi & Hc & _).
  - vm_compute; reflexivity.
  - vm_compute; discriminate.
  - vm_compute; discriminate.
  - exists d; split; [exact Hd|]; split; [exact Hp|]; split; [exact Hi|].
    rewrite Hc; vm_compute; reflexivity.
Defined.

(** The scenario's events carry no negative time, and none is stored. *)
Lemma remaining_times_stay_nonnegative_witness :
  Forall times_nonneg (Keyed.values (sessions Scenario.submitted)).
Proof.
  apply (remaining_times_stay_nonnegative
           [ (Scenario.interviewer, Scenario.at_ Scenario.t0, connection);
             (Scenario.candidate, Scenario.at_ Scenario.t0, connection);
             (Scenario.interviewer, Scenario.at_ Scenario.t0,
              create_session (js "Ada") (js "Selenium Debugging"));
             (Scenario.candidate, Scenario.at_ (Scenario.t0 + 5000)%Z,
              join_session Scenario.sid);
             (Scenario.candidate, Scenario.at_ (Scenario.t0 + 70000)%Z,
              timer_update_event Scenario.sid false 0 120);
             (Scenario.candidate, Scenario.at_ (Scenario.t0 + 80000)%Z,
              test_submitted Scenario.submission) ]
           initial).
  - constructor.
  - repeat constructor; simpl; lia.
Defined.

(** The candidate's last update said 120 seconds of coding time; the page
    reconnects 47 seconds (and a half) later and the join sends back 73. *)
Lemma reconcile_subtracts_from_flagged_phase_witness :
  exists d rest,
    snd (on_join_session Scenario.coding_120 Scenario.candidate
           (Scenario.at_ (Scenario.t0 + 70000 + 47500)%Z) Scenario.sid)
    = (to_sender, session_data d) :: rest
    /\ isInstructionPhase d = Some false
    /\ codingTimeRemaining d = Some 73%Z.
Proof.
  destruct coding_120_session as (s & E & Hp & _ & Hc & Hl & Hs).
  destruct (reconcile_subtracts_from_flagged_phase
              (Scenario.t0 + 70000 + 47500)%Z (Scenario.t0 + 70000)%Z s
              false Hp Hl)
    as (_ & _ & _ & _ & Hjoin).
  - vm_compute; reflexivity.
  - vm_compute; discriminate.
  - vm_compute; reflexivity.
  - rewrite Hc; vm_compute; split; [discriminate | reflexivity].
  - destruct (Hjoin Scenario.coding_120 Scenario.candidate
                (Scenario.at_ (Scenario.t0 + 70000 + 47500)%Z) Scenario.sid
                eq_refl E) as (d & rest & Hout & Hf & Hd).
    + rewrite Hs; discriminate.
    + exists d, rest; split; [exact Hout|]; split; [exact Hf|].
      rewrite Hc in Hd; cbn [nullish] in Hd.
      rewrite Hd; vm_compute; reflexivity.
Defined.

(** The same session read 47 seconds after its stamp: the instruction time
    and the flag stay. *)
Lemma reconcile_leaves_the_other_phase_witness :
  exists s,
    Keyed.get (sessions Scenario.coding_120) Scenario.sid = Some s
    /\ let r := getSessionWithAdjustedTimer
                  (Scenario.t0 + 70000 + 47500)%Z s in
       instructionTimeRemaining r = instructionTimeRemaining s
       /\ isInstructionPhase r = isInstructionPhase s.
Proof.
  destruct coding_120_session as (s & E & Hp & _).
  exists s; split; [exact E|].
  destruct (reconcile_leaves_the_other_phase Scenario.coding_120
              Scenario.sid s (Scenario.t0 + 70000 + 47500)%Z)
    as (_ & _ & Hflag & Hother & _).
  - apply run_events_reachable, run_events_reachable; constructor.
  - exact E.
  - split; [exact (Hother false Hp) | exact Hflag].
Defined.

(* ================================================================== *)
(** ** The rules, looked at closer *)
(* ================================================================== *)

Lemma outcome_message n (b : bool) A B :
  pass_text A = true -> fail_text A = false ->
  pass_text B = false -> fail_text B = true ->
  says_pass {| Grader.name := n; Grader.passed := b;
               Grader.message := if b then A else B |} = b
  /\ says_fail {| Grader.name := n; Grader.passed := b;
                  Grader.message := if b then A else B |} = negb b.
Proof.
  unfold says_pass, says_fail; cbn [Grader.message].
  intros H1 H2 H3 H4; destruct b; rewrite ?H1, ?H2, ?H3, ?H4; auto.
Qed.

Lemma strip_prefix_Some p : forall s s',
  strip_prefix p s = Some s' -> s = p ++ s'.
Proof.
  induction p as [|x p IH]; intros s s'; simpl.
  - intros [= ->]; reflexivity.
  - destruct s as [|y s]; [discriminate|].
    destruct (N.eqb_spec x y); [|discriminate].
    intros H; apply IH in H; subst; reflexivity.
Qed.

Lemma greedy_inv {A} p (k : jsstring -> option A) a : forall s,
  greedy p s k = Some a ->
  exists pre s', s = pre ++ s' /\ forallb p pre = true /\ k s' = Some a.
Proof.
  induction s as [|c s IH]; simpl; intros H.
  - exists [], []; auto.
  - destruct (p c) eqn:P.
    + destruct (greedy p s k) eqn:G.
      * injection H as ->.
        destruct (IH eq_refl) as (pre & s' & -> & Hp & Hk).
        exists (c :: pre), s'; simpl; rewrite P; auto.
      * exists [], (c :: s); auto.
    + exists [], (c :: s); auto.
Qed.

Lemma str_match_inv r mm : forall s,
  str_match s r = Some mm ->
  exists pre s', s = pre ++ s' /\ match_at r s' = Some mm.
Proof.
  induction s as [|c s IH]; simpl; intros H.
  - destruct (match_at r []) eqn:M; [|discriminate].
    exists [], []; split; [reflexivity | congruence].
  - destruct (match_at r (c :: s)) eqn:M.
    + exists [], (c :: s); split; [reflexivity | congruence].
    + destruct (IH H) as (pre & s' & -> & Hm).
      exists (c :: pre), s'; auto.
Qed.

Lemma between_app (g b : jsstring) : between (g ++ b) b = g.
Proof.
  unfold between; rewrite length_app, Nat.add_sub.
  rewrite firstn_app, Nat.sub_diag, firstn_all; simpl.
  apply app_nil_r.
Qed.

Ltac open_match H :=
  repeat
    match type of H with
    | match strip_prefix ?p ?s with _ => _ end = Some _ =>
        let E := fresh "E" in
        destruct (strip_prefix p s) eqn:E; [apply strip_prefix_Some in E|discriminate H]
    | match ?s with [] => None | _ :: _ => _ end = Some _ =>
        destruct s; [discriminate H|]
    | (if ?b then _ else None) = Some _ =>
        let E := fresh "P" in destruct b eqn:E; [|discriminate H]
    | greedy _ _ _ = Some _ =>
        let pre := fresh "pre" in let s' := fresh "s" in
        let E := fresh "E" in let F := fresh "F" in
        apply greedy_inv in H as (pre & s' & E & F & H)
    end.

Lemma no_brace_inside (g : jsstring) :
  forallb (notc "}") g = true -> includes g (js "}") = false.
Proof.
  change (js "}") with [125%N]; unfold notc; change (js "}") with [125%N].
  induction g as [|c g IH]; [reflexivity|].
  cbn [forallb existsb includes strip_prefix].
  rewrite andb_true_iff, orb_false_r, negb_true_iff; intros [Hc Hg].
  rewrite N.eqb_sym, Hc; apply IH, Hg.
Qed.

(** When the pattern of a senior rule finds its method, the source reads:
    [public], white space, the type, white space, the name, an argument
    list without a closing parenthesis inside, white space if any, and the
    region in braces; the region is not empty and has no closing brace in
    it. *)
Theorem method_body_is_a_block code ty m :
  method_body code ty m <> [] ->
  exists before w1 w2 args w3 after,
    code = before ++ js "public" ++ w1 ++ js ty ++ w2 ++ js m ++ js "("
           ++ args ++ js ")" ++ w3 ++ js "{"
           ++ method_body code ty m ++ js "}" ++ after
    /\ w1 <> [] /\ forallb ws w1 = true
    /\ w2 <> [] /\ forallb ws w2 = true
    /\ forallb (notc ")") args = true
    /\ forallb ws w3 = true
    /\ includes (method_body code ty m) (js "}") = false.
Proof.
  unfold method_body.
  destruct (str_match code _) as [mm|] eqn:M; [|congruence].
  intros _.
  apply str_match_inv in M as (pre & s & -> & M).
  unfold match_at, sig, L in M; cbn [app cat fold_right run] in M.
  open_match M.
  injection M as <-; cbn [group1]; subst.
  match goal with
  | |- context [between (?c :: ?g ++ ?b) ?b] =>
      change (c :: g ++ b) with ((c :: g) ++ b); rewrite between_app
  end.
  match goal with
  | P : ws ?a = true, F : forallb ws ?w1 = true,
    P' : ws ?b = true, F' : forallb ws ?w2 = true,
    Fa : forallb (notc ")") ?args = true, Fw : forallb ws ?w3 = true
    |- context [?a :: ?w1 ++ js ty ++ ?b :: ?w2 ++ js m ++ js "(" ++ ?args ++ js ")" ++ ?w3 ++ _] =>
      exists pre, (a :: w1), (b :: w2), args, w3
  end.
  eexists; split; [cbn [app]; rewrite <- ?app_assoc; cbn [app]; reflexivity|].
  split; [discriminate|].
  split; [cbn [forallb]; rewrite P, F; reflexivity|].
  split; [discriminate|].
  split; [cbn [forallb]; rewrite P0, F0; reflexivity|].
  split; [exact F1|]; split; [exact F2|].
  apply no_brace_inside; cbn [forallb]; rewrite P1, F3; reflexivity.
Qed.

Section Rules.

Variable code : jsstring.

(** Each branch, outcome by outcome. *)
Ltac each_outcome :=
  cbv zeta; cbn [push app];
  repeat (apply Forall_cons; [|]); try apply Forall_nil;
  cbn [Grader.passed];
  apply outcome_message; vm_compute; reflexivity.

Lemma senior_messages :
  Forall (fun r => says_pass r = Grader.passed r
                   /\ says_fail r = negb (Grader.passed r))
         (selenium_senior code []).
Proof. unfold selenium_senior; each_outcome. Qed.

Lemma calculator_messages :
  Forall (fun r => says_pass r = Grader.passed r
                   /\ says_fail r = negb (Grader.passed r))
         (java_calculator code []).
Proof. unfold java_calculator; each_outcome. Qed.

Lemma combined_messages :
  Forall (fun r => says_pass r = Grader.passed r
                   /\ says_fail r = negb (Grader.passed r))
         (selenium_combined code []).
Proof. unfold selenium_combined; each_outcome. Qed.

Lemma pageobject_messages :
  Forall (fun r => says_pass r = Grader.passed r
                   /\ says_fail r = negb (Grader.passed r))
         (selenium_pageobject code []).
Proof. unfold selenium_pageobject; each_outcome. Qed.

Lemma waits_messages :
  Forall (fun r => says_pass r = Grader.passed r
                   /\ says_fail r = negb (Grader.passed r))
         (selenium_waits code []).
Proof. unfold selenium_waits; each_outcome. Qed.

Lemma locators_messages :
  Forall (fun r => says_pass r = Grader.passed r
                   /\ says_fail r = negb (Grader.passed r))
         (selenium_locators code []).
Proof. unfold selenium_locators; each_outcome. Qed.

(** For every source and every configured challenge, the message of an
    outcome opens with the pass mark and PASS exactly when the outcome
    passed, and with the fail mark and FAIL exactly when it did not. *)
Theorem message_agrees_with_flag language :
  In language configured_variants ->
  Forall (fun r => says_pass r = Grader.passed r
                   /\ says_fail r = negb (Grader.passed r))
         (analyzeDebugFixes code language).
Proof.
  unfold configured_variants; simpl.
  intros [<-|[<-|[<-|[<-|[<-|[<-|[]]]]]]].
  - exact senior_messages.
  - exact calculator_messages.
  - exact combined_messages.
  - exact pageobject_messages.
  - exact waits_messages.
  - exact locators_messages.
Qed.

(** The combined challenge grades as the three single challenges do, one
    after the other: the same eleven flags in the same order. *)
Theorem combined_is_the_three_challenges :
  map Grader.passed (analyzeDebugFixes code (js "selenium-combined"))
  = map Grader.passed (analyzeDebugFixes code (js "selenium-pageobject"))
    ++ map Grader.passed (analyzeDebugFixes code (js "selenium-waits"))
    ++ map Grader.passed (analyzeDebugFixes code (js "selenium-locators")).
Proof.
  change (analyzeDebugFixes code (js "selenium-combined"))
    with (selenium_combined code []).
  change (analyzeDebugFixes code (js "selenium-pageobject"))
    with (selenium_pageobject code []).
  change (analyzeDebugFixes code (js "selenium-waits"))
    with (selenium_waits code []).
  change (analyzeDebugFixes code (js "selenium-locators"))
    with (selenium_locators code []).
  unfold selenium_combined, selenium_pageobject, selenium_waits,
    selenium_locators.
  cbv zeta; cbn [push app map Grader.passed]; reflexivity.
Qed.

Lemma strip_prefix_app p q s :
  strip_prefix (p ++ q) s
  = match strip_prefix p s with
    | Some s' => strip_prefix q s'
    | None => None
    end.
Proof.
  revert s; induction p as [|x p IH]; intros s; simpl; [reflexivity|].
  destruct s as [|y s]; [reflexivity|].
  destruct (N.eqb x y); [apply IH | reflexivity].
Qed.

Lemma includes_longer s p q :
  includes s p = false -> includes s (p ++ q) = false.
Proof.
  induction s as [|y s IH]; cbn [includes]; rewrite strip_prefix_app;
    destruct (strip_prefix p _); try discriminate; auto.
Qed.

Lemma str_match_without_head s (p : jsstring) r :
  includes s p = false -> str_match s (Seq (Lit p) r) = None.
Proof.
  induction s as [|y s IH]; cbn [includes str_match]; unfold match_at;
    cbn [run]; destruct (strip_prefix p _); try discriminate; auto.
Qed.

Hypothesis no_public : includes code (js "public") = false.

Lemma method_body_without_public ty m : method_body code ty m = [].
Proof.
  unfold method_body, sig, L; cbn [app cat fold_right].
  now rewrite str_match_without_head.
Qed.

Lemma method_block_without_public rest :
  method_block code (String.append "public" rest) = [].
Proof.
  unfold method_block, L; cbn [cat fold_right].
  replace (js (String.append "public" rest)) with (js "public" ++ js rest)
    by reflexivity.
  rewrite str_match_without_head; [reflexivity|].
  now apply includes_longer.
Qed.

(** A source in which the word [public] does not occur fails all ten
    rules of the senior challenge: no pattern finds its method, the region
    of each rule is empty, and every rule asks for something in it. *)
Theorem senior_without_public_fails_all :
  map Grader.passed (analyzeDebugFixes code (js "selenium-senior"))
  = repeat false 10.
Proof.
  change (analyzeDebugFixes code (js "selenium-senior"))
    with (selenium_senior code []).
  unfold selenium_senior; cbv zeta.
  rewrite !method_body_without_public.
  unfold matches, L; cbn [cat fold_right].
  rewrite str_match_without_head by exact no_public.
  reflexivity.
Qed.

(** On such a source the waits challenge gives pass, fail, fail, fail:
    the rule that asks for the absence of [Thread.sleep] in a method
    passes when the method itself is absent. *)
Theorem waits_without_public_passes_first :
  map Grader.passed (analyzeDebugFixes code (js "selenium-waits"))
  = [true; false; false; false].
Proof.
  change (analyzeDebugFixes code (js "selenium-waits"))
    with (selenium_waits code []).
  unfold selenium_waits; cbv zeta.
  change "public void addProductToCart"%string
    with (String.append "public" " void addProductToCart").
  change "public boolean isProductInCart"%string
    with (String.append "public" " boolean isProductInCart").
  change "public int getCartItemCount"%string
    with (String.append "public" " int getCartItemCount").
  rewrite !method_block_without_public. reflexivity.
Qed.
End Rules.

(** On the repaired calculator, every message says PASS. *)
Lemma message_agrees_with_flag_witness :
  Forall (fun r => says_pass r = true)
         (analyzeDebugFixes Scenario.fixed_calculator (js "java-calculator")).
Proof.
  assert (Hin : In (js "java-calculator") configured_variants)
    by (unfold configured_variants; simpl; auto).
  pose proof (message_agrees_with_flag Scenario.fixed_calculator
                (js "java-calculator") Hin) as H.
  assert (Hp : Forall (fun r => Grader.passed r = true)
                 (analyzeDebugFixes Scenario.fixed_calculator
                    (js "java-calculator")))
    by (vm_compute; repeat constructor).
  rewrite Forall_forall in *; intros r Hr.
  destruct (H r Hr) as [-> _]; exact (Hp r Hr).
Defined.

(** A source without the word: a plain comment. *)
Lemma senior_without_public_fails_all_witness :
  map Grader.passed
      (analyzeDebugFixes (js "// nothing here") (js "selenium-senior"))
  = repeat false 10.
Proof.
  apply senior_without_public_fails_all; vm_compute; reflexivity.
Defined.

Lemma waits_without_public_passes_first_witness :
  map Grader.passed
      (analyzeDebugFixes (js "// nothing here") (js "selenium-waits"))
  = [true; false; false; false].
Proof.
  apply waits_without_public_passes_first; vm_compute; reflexivity.
Defined.

(** The region of [enterCredentials] in the starter code has no closing
    brace in it. *)
Lemma method_body_is_a_block_witness :
  includes (method_body defaultCode "void" "enterCredentials") (js "}")
  = false.
Proof.
  destruct (method_body_is_a_block defaultCode "void" "enterCredentials")
    as (? & ? & ? & ? & ? & ? & _ & _ & _ & _ & _ & _ & _ & H).
  - vm_compute; discriminate.
  - exact H.
Defined.

(* ================================================================== *)
(** ** The countdown of the candidate page *)
(* ================================================================== *)

Section Ticks.

Local Open Scope Z_scope.

Variable socket : bool.
Variable sessionId : option jsstring.

Lemma ticks_add a : forall b t,
  Countdown.ticks socket sessionId (a + b) t
  = (fst (Countdown.ticks socket sessionId b
            (fst (Countdown.ticks socket sessionId a t))),
     snd (Countdown.ticks socket sessionId a t)
     ++ snd (Countdown.ticks socket sessionId b
               (fst (Countdown.ticks socket sessionId a t)))).
Proof.
  induction a as [|a IH]; intros b t; cbn [Nat.add Countdown.ticks].
  - cbn [fst snd app]; destruct (Countdown.ticks socket sessionId b t); reflexivity.
  - destruct (Countdown.tick socket sessionId t) as [t1 x].
    rewrite IH.
    destruct (Countdown.ticks socket sessionId a t1) as [t2 xs]; cbn [fst snd].
    destruct (Countdown.ticks socket sessionId b t2); reflexivity.
Qed.

(** While more than one second of instruction time is left, a tick takes
    one second off and nothing else happens. *)
Lemma ticks_instruction n : forall i c,
  Z.of_nat n < i ->
  fst (Countdown.ticks socket sessionId n
         {| Countdown.isInstructionPhase := true;
            Countdown.instructionTimeRemaining := i;
            Countdown.timeRemaining := c;
            Countdown.isTestSubmitted := false |})
  = {| Countdown.isInstructionPhase := true;
       Countdown.instructionTimeRemaining := i - Z.of_nat n;
       Countdown.timeRemaining := c;
       Countdown.isTestSubmitted := false |}
  /\ map Countdown.submits
         (snd (Countdown.ticks socket sessionId n
                 {| Countdown.isInstructionPhase := true;
                    Countdown.instructionTimeRemaining := i;
                    Countdown.timeRemaining := c;
                    Countdown.isTestSubmitted := false |}))
     = repeat false n.
Proof.
  induction n as [|n IH]; intros i c Hn.
  - cbn; rewrite Z.sub_0_r; auto.
  - cbn [Countdown.ticks]; unfold Countdown.tick.
    cbn [Countdown.isTestSubmitted Countdown.isInstructionPhase
         Countdown.instructionTimeRemaining Countdown.timeRemaining].
    destruct (Z.leb_spec i 1) as [H|H]; [lia|].
    destruct (IH (i - 1) c ltac:(lia)) as [E1 E2].
    destruct (Countdown.ticks socket sessionId n _) as [t2 xs]; cbn [fst snd] in *.
    split; [rewrite E1; f_equal; lia | cbn; now rewrite E2].
Qed.

Lemma ticks_coding n : forall i c,
  Z.of_nat n < c ->
  fst (Countdown.ticks socket sessionId n
         {| Countdown.isInstructionPhase := false;
            Countdown.instructionTimeRemaining := i;
            Countdown.timeRemaining := c;
            Countdown.isTestSubmitted := false |})
  = {| Countdown.isInstructionPhase := false;
       Countdown.instructionTimeRemaining := i;
       Countdown.timeRemaining := c - Z.of_nat n;
       Countdown.isTestSubmitted := false |}
  /\ map Countdown.submits
         (snd (Countdown.ticks socket sessionId n
                 {| Countdown.isInstructionPhase := false;
                    Countdown.instructionTimeRemaining := i;
                    Countdown.timeRemaining := c;
                    Countdown.isTestSubmitted := false |}))
     = repeat false n.
Proof.
  induction n as [|n IH]; intros i c Hn.
  - cbn; rewrite Z.sub_0_r; auto.
  - cbn [Countdown.ticks]; unfold Countdown.tick.
    cbn [Countdown.isTestSubmitted Countdown.isInstructionPhase
         Countdown.instructionTimeRemaining Countdown.timeRemaining].
    destruct (Z.leb_spec c 1) as [H|H]; [lia|].
    destruct (IH i (c - 1) ltac:(lia)) as [E1 E2].
    destruct (Countdown.ticks socket sessionId n _) as [t2 xs]; cbn [fst snd] in *.
    split; [rewrite E1; f_equal; lia | cbn; now rewrite E2].
Qed.

(** From [i] seconds of instruction time and [c] seconds of coding time,
    the phase changes on tick [i] and [handleSubmitTest] is called on tick
    [i + c], once, and on no other; the times are then both 0. *)
Theorem countdown_submits_once_at_the_end (i c : nat) :
  (1 <= i)%nat -> (1 <= c)%nat ->
  let start :=
    {| Countdown.isInstructionPhase := true;
       Countdown.instructionTimeRemaining := Z.of_nat i;
       Countdown.timeRemaining := Z.of_nat c;
       Countdown.isTestSubmitted := false |} in
  fst (Countdown.ticks socket sessionId i start)
  = {| Countdown.isInstructionPhase := false;
       Countdown.instructionTimeRemaining := 0;
       Countdown.timeRemaining := Z.of_nat c;
       Countdown.isTestSubmitted := false |}
  /\ fst (Countdown.ticks socket sessionId (i + c) start)
     = {| Countdown.isInstructionPhase := false;
          Countdown.instructionTimeRemaining := 0;
          Countdown.timeRemaining := 0;
          Countdown.isTestSubmitted := true |}
  /\ map Countdown.submits (snd (Countdown.ticks socket sessionId (i + c) start))
     = repeat false (i + c - 1) ++ [true].
Proof.
  intros Hi Hc.
  assert (exists n, i = (n + 1)%nat) as [n ->]
    by (exists (i - 1)%nat; lia).
  assert (exists m, c = (m + 1)%nat) as [m ->]
    by (exists (c - 1)%nat; lia).
  clear Hi Hc; intros start.
  assert (A : fst (Countdown.ticks socket sessionId (n + 1) start)
              = {| Countdown.isInstructionPhase := false;
                   Countdown.instructionTimeRemaining := 0;
                   Countdown.timeRemaining := Z.of_nat (m + 1);
                   Countdown.isTestSubmitted := false |}
              /\ map Countdown.submits
                     (snd (Countdown.ticks socket sessionId (n + 1) start))
                 = repeat false (n + 1)).
  { rewrite ticks_add; cbn [fst snd].
    destruct (ticks_instruction n (Z.of_nat (n + 1)) (Z.of_nat (m + 1))
                ltac:(lia)) as [E1 E2].
    fold start in E1, E2; rewrite E1, map_app, E2.
    cbn [Countdown.ticks]; unfold Countdown.tick.
    cbn [Countdown.isTestSubmitted Countdown.isInstructionPhase
         Countdown.instructionTimeRemaining Countdown.timeRemaining].
    destruct (Z.leb_spec (Z.of_nat (n + 1) - Z.of_nat n) 1) as [H|H];
      [|lia].
    cbn [fst snd map Countdown.submits]; split; [reflexivity|].
    rewrite repeat_app; reflexivity. }
  destruct A as [A1 A2]; split; [exact A1|].
  rewrite (ticks_add (n + 1) (m + 1)); cbn [fst snd].
  rewrite A1, map_app, A2.
  rewrite (ticks_add m 1); cbn [fst snd].
  destruct (ticks_coding m 0 (Z.of_nat (m + 1)) ltac:(lia)) as [E1 E2].
  rewrite E1, map_app, E2.
  cbn [Countdown.ticks]; unfold Countdown.tick.
  cbn [Countdown.isTestSubmitted Countdown.isInstructionPhase
       Countdown.instructionTimeRemaining Countdown.timeRemaining].
  destruct (Z.leb_spec (Z.of_nat (m + 1) - Z.of_nat m) 1) as [H|H]; [|lia].
  cbn [fst snd map Countdown.submits]; split; [reflexivity|].
  rewrite app_assoc, <- repeat_app.
  replace (n + 1 + (m + 1) - 1)%nat with (n + 1 + m)%nat by lia.
  reflexivity.
Qed.

End Ticks.

Section Page.

Local Open Scope Z_scope.

Variable sid : jsstring.
Hypothesis sid_set : sid <> [].

Let quiet := {| Countdown.emitted := None; Countdown.submits := false |}.

Lemma page_ticks_add a : forall b p,
  Countdown.page_ticks (Some sid) (a + b) p
  = (fst (Countdown.page_ticks (Some sid) b
            (fst (Countdown.page_ticks (Some sid) a p))),
     snd (Countdown.page_ticks (Some sid) a p)
     ++ snd (Countdown.page_ticks (Some sid) b
               (fst (Countdown.page_ticks (Some sid) a p)))).
Proof.
  induction a as [|a IH]; intros b p; cbn [Nat.add Countdown.page_ticks].
  - cbn [fst snd app]; destruct (Countdown.page_ticks (Some sid) b p);
      reflexivity.
  - destruct (Countdown.page_tick (Some sid) p) as [p1 x].
    rewrite IH.
    destruct (Countdown.page_ticks (Some sid) a p1) as [p2 xs];
      cbn [fst snd].
    destruct (Countdown.page_ticks (Some sid) b p2); reflexivity.
Qed.

Lemma page_ticks_S n p :
  Countdown.page_ticks (Some sid) (S n) p
  = (fst (Countdown.page_ticks (Some sid) n
            (fst (Countdown.page_tick (Some sid) p))),
     snd (Countdown.page_tick (Some sid) p)
     :: snd (Countdown.page_ticks (Some sid) n
               (fst (Countdown.page_tick (Some sid) p)))).
Proof.
  cbn [Countdown.page_ticks].
  destruct (Countdown.page_tick (Some sid) p) as [p1 x]; cbn [fst snd].
  destruct (Countdown.page_ticks (Some sid) n p1); reflexivity.
Qed.

(** With the null socket in its closure, the callback of the instruction
    phase counts down and sends nothing; the tick that ends the phase
    sends nothing either, and the effect that then runs again closes over
    the socket of the page. *)
Lemma page_instruction n : forall c s,
  Countdown.page_ticks (Some sid) (S n)
    {| Countdown.time :=
         {| Countdown.isInstructionPhase := true;
            Countdown.instructionTimeRemaining := Z.of_nat (S n);
            Countdown.timeRemaining := c;
            Countdown.isTestSubmitted := false |};
       Countdown.socket := s; Countdown.closure := false |}
  = ({| Countdown.time :=
          {| Countdown.isInstructionPhase := false;
             Countdown.instructionTimeRemaining := 0;
             Countdown.timeRemaining := c;
             Countdown.isTestSubmitted := false |};
        Countdown.socket := s; Countdown.closure := s |},
     repeat quiet (S n)).
Proof.
  induction n as [|n IH]; intros c s.
  - reflexivity.
  - rewrite page_ticks_S; unfold Countdown.page_tick, Countdown.tick.
    cbn [Countdown.isTestSubmitted Countdown.isInstructionPhase
         Countdown.instructionTimeRemaining Countdown.timeRemaining
         Countdown.time Countdown.closure andb].
    destruct (Z.leb_spec (Z.of_nat (S (S n))) 1) as [H|H]; [lia|].
    unfold Countdown.rerender, Countdown.deps_changed.
    cbn [Countdown.isTestSubmitted Countdown.isInstructionPhase
         Countdown.time Countdown.closure Countdown.socket
         Bool.eqb negb orb fst snd].
    replace (Z.of_nat (S (S n)) - 1) with (Z.of_nat (S n)) by lia.
    rewrite IH; reflexivity.
Qed.

(** With the socket in its closure, the callback of the coding phase
    sends the new time on every tick, down to 0. *)
Lemma page_coding n : forall i s,
  map Countdown.emitted
    (snd (Countdown.page_ticks (Some sid) n
            {| Countdown.time :=
                 {| Countdown.isInstructionPhase := false;
                    Countdown.instructionTimeRemaining := i;
                    Countdown.timeRemaining := Z.of_nat n;
                    Countdown.isTestSubmitted := false |};
               Countdown.socket := s; Countdown.closure := true |}))
  = map (fun k => Some (timer_update_event sid false 0 (Z.of_nat k)))
        (rev (seq 0 n)).
Proof.
  assert (T : truthy_str (Some sid) = true)
    by (destruct sid; [contradiction|reflexivity]).
  induction n as [|n IH]; intros i s; [reflexivity|].
  rewrite seq_S, rev_app_distr; cbn [Nat.add rev app map].
  rewrite page_ticks_S; unfold Countdown.page_tick, Countdown.tick.
  rewrite T.
  cbn [Countdown.isTestSubmitted Countdown.isInstructionPhase
       Countdown.instructionTimeRemaining Countdown.timeRemaining
       Countdown.time Countdown.closure andb nullish].
  destruct n as [|n].
  - reflexivity.
  - destruct (Z.leb_spec (Z.of_nat (S (S n))) 1) as [H|H]; [lia|].
    unfold Countdown.rerender, Countdown.deps_changed.
    cbn [Countdown.isTestSubmitted Countdown.isInstructionPhase
         Countdown.time Countdown.closure Countdown.socket
         Bool.eqb negb orb fst snd map Countdown.emitted].
    replace (Z.of_nat (S (S n)) - 1) with (Z.of_nat (S n)) by lia.
    rewrite IH; reflexivity.
Qed.

(** A page whose countdown effect has run with the socket still null, as
    it does on mount, and which has [i] seconds of instruction time and
    [c] seconds of coding time: the [i] ticks of the instruction phase
    send nothing, and the [c] ticks of the coding phase each send a
    [timer-update] for the session, phase flag false, instruction time 0,
    with the coding times [c - 1], ..., 1, 0. *)
Theorem instruction_phase_ticks_send_nothing (i c : nat) p :
  (1 <= i)%nat ->
  Countdown.closure p = false -> Countdown.socket p = true ->
  Countdown.time p
  = {| Countdown.isInstructionPhase := true;
       Countdown.instructionTimeRemaining := Z.of_nat i;
       Countdown.timeRemaining := Z.of_nat c;
       Countdown.isTestSubmitted := false |} ->
  map Countdown.emitted (snd (Countdown.page_ticks (Some sid) (i + c) p))
  = repeat None i
    ++ map (fun k => Some (timer_update_event sid false 0 (Z.of_nat k)))
           (rev (seq 0 c)).
Proof.
  intros Hi Hc Hs Ht.
  destruct p as [t s cl]; cbn in Hc, Hs, Ht; subst t s cl.
  destruct i as [|n]; [lia|].
  rewrite page_ticks_add, page_instruction; cbn [fst snd].
  rewrite map_app, page_coding.
  f_equal; clear; induction (S n) as [|k IH]; [reflexivity|].
  cbn [repeat map]; rewrite IH; reflexivity.
Qed.

End Page.

(** The page as it starts: 60 ticks of instructions, 900 of coding, and the
    submission on tick 960. *)
Lemma countdown_submits_once_at_the_end_witness :
  Countdown.isTestSubmitted
    (fst (Countdown.ticks true (Some Scenario.sid) 960
            Countdown.initial)) = true
  /\ Countdown.isInstructionPhase
       (fst (Countdown.ticks true (Some Scenario.sid) 60
              Countdown.initial)) = false.
Proof.
  destruct (countdown_submits_once_at_the_end true (Some Scenario.sid) 60 900)
    as (H1 & H2 & _); [lia | lia |].
  change (60 + 900)%nat with 960%nat in H2.
  change {| Countdown.isInstructionPhase := true;
            Countdown.instructionTimeRemaining := Z.of_nat 60;
            Countdown.timeRemaining := Z.of_nat 900;
            Countdown.isTestSubmitted := false |}
    with Countdown.initial in H1, H2.
  rewrite H1, H2; split; reflexivity.
Defined.

(** The page of the scenario, mounted and told by the first join that 60
    seconds of instructions and 900 of coding are left: sixty silent ticks,
    then 899 down to 0. *)
Lemma instruction_phase_ticks_send_nothing_witness :
  map Countdown.emitted
      (snd (Countdown.page_ticks (Some Scenario.sid) (60 + 900)
              (Countdown.on_session_data
                 (join_data (Scenario.t0 + 5000)%Z
                    (new_session (Scenario.at_ Scenario.t0) (js "Ada")
                       (js "Selenium Debugging")))
                 (Countdown.mounted (Some Scenario.sid)))))
  = repeat None 60
    ++ map (fun k => Some (timer_update_event Scenario.sid false 0
                             (Z.of_nat k)))
           (rev (seq 0 900)).
Proof.
  apply (instruction_phase_ticks_send_nothing Scenario.sid
           ltac:(vm_compute; discriminate) 60 900
           (Countdown.on_session_data
              (join_data (Scenario.t0 + 5000)%Z
                 (new_session (Scenario.at_ Scenario.t0) (js "Ada")
                    (js "Selenium Debugging")))
              (Countdown.mounted (Some Scenario.sid))));
    [lia | reflexivity | reflexivity | reflexivity].
Defined.

(* ================================================================== *)
(** ** The dashboard replica *)
(* ================================================================== *)

Section Replica.

Variable me : jsstring.
Variable clock : Z.

Lemma receive_app ds1 ds2 d :
  Dashboard.receive me clock (ds1 ++ ds2) d
  = Dashboard.receive me clock ds2 (Dashboard.receive me clock ds1 d).
Proof. unfold Dashboard.receive; apply fold_left_app. Qed.

Lemma deliveries_cons l sender em out :
  deliveries l sender (em :: out)
  = deliveries l sender [em] ++ deliveries l sender out.
Proof. unfold deliveries; simpl; now rewrite app_nil_r. Qed.

Lemma receive_absent R m d :
  ~ In me R ->
  Dashboard.receive me clock (map (fun c => (c, m)) R) d = d.
Proof.
  induction R as [|c R IH]; simpl; intros H; [reflexivity|].
  destruct (str_eqb c me) eqn:E.
  - apply str_eqb_eq in E; tauto.
  - apply IH; tauto.
Qed.

Lemma receive_present R m d :
  NoDup R -> In me R ->
  Dashboard.receive me clock (map (fun c => (c, m)) R) d
  = Dashboard.on_message clock m d.
Proof.
  induction 1 as [|c R Hc Hnd IH]; simpl; [intros []|intros [->|H]].
  - rewrite str_eqb_refl.
    apply (receive_absent R m); exact Hc.
  - destruct (str_eqb c me) eqn:E.
    + apply str_eqb_eq in E; subst; contradiction.
    + apply IH, H.
Qed.

Lemma receive_one l sender a m d :
  NoDup l ->
  Dashboard.receive me clock (deliveries l sender [(a, m)]) d
  = if existsb (str_eqb me) (recipients l sender a)
    then Dashboard.on_message clock m d else d.
Proof.
  intros Hnd; unfold deliveries; cbn [flat_map fst snd]; rewrite app_nil_r.
  destruct (existsb (str_eqb me) (recipients l sender a)) eqn:E.
  - apply receive_present.
    + destruct a; simpl; [repeat constructor; simpl; tauto | exact Hnd |].
      now apply NoDup_filter.
    + apply existsb_exists in E as (x & Hx & Ex).
      apply str_eqb_eq in Ex; now subst.
  - apply receive_absent; intros H.
    assert (existsb (str_eqb me) (recipients l sender a) = true)
      by (apply existsb_exists; exists me; split;
          [exact H | apply str_eqb_refl]).
    congruence.
Qed.

Lemma reaches_all l sender :
  In me l -> existsb (str_eqb me) (recipients l sender to_all) = true.
Proof.
  intros H; apply existsb_exists; exists me; split;
    [exact H | apply str_eqb_refl].
Qed.

Lemma reaches_others l sender :
  In me l -> sender <> me ->
  existsb (str_eqb me) (recipients l sender to_others) = true.
Proof.
  intros H Hne; apply existsb_exists; exists me; split;
    [|apply str_eqb_refl].
  apply In_recipients_others; auto.
Qed.

Lemma reaches_not_others l :
  existsb (str_eqb me) (recipients l me to_others) = false.
Proof.
  destruct (existsb _ _) eqn:E; [|reflexivity].
  apply existsb_exists in E as (x & Hx & Ex).
  apply str_eqb_eq in Ex; subst x.
  apply In_recipients_others in Hx as [_ Hx]; congruence.
Qed.

Lemma reaches_sender l sender :
  existsb (str_eqb me) (recipients l sender to_sender)
  = str_eqb me sender.
Proof. simpl; apply orb_false_r. Qed.


Lemma cons_inv {A} (a b : A) l l' : a :: l = b :: l' -> a = b /\ l = l'.
Proof. intros H; injection H; auto. Qed.

Lemma doc_id a b : doc a = doc b -> id a = id b.
Proof. unfold doc; congruence. Qed.

Lemma at_id_same k x : Dashboard.at_id k (fun y => y) x = x.
Proof. unfold Dashboard.at_id; destruct (str_eqb _ _); reflexivity. Qed.

Lemma map_at_id_same k xs : map (Dashboard.at_id k (fun y => y)) xs = xs.
Proof.
  induction xs as [|x xs IH]; simpl; [reflexivity|].
  now rewrite at_id_same, IH.
Qed.

Lemma option_map_at_id_same k (o : option Dashboard.entry) :
  option_map (Dashboard.at_id k (fun y => y)) o = o.
Proof. destruct o; simpl; [now rewrite at_id_same | reflexivity]. Qed.

(** Entries that mirror a store without the key [k] are not touched by an
    update at [k]. *)
Lemma map_at_id_absent (m : Keyed.t InterviewSession) k f : forall xs,
  Forall (fun kv => id (snd kv) = fst kv) m ->
  ~ In k (map fst m) ->
  map doc (Keyed.values m) = map sdoc xs ->
  map (Dashboard.at_id k f) xs = xs.
Proof.
  induction m as [|[k0 v0] m IH]; intros [|x xs] Hid Hk E;
    try discriminate E; [reflexivity|].
  simpl in *; apply cons_inv in E as [Ex Exs].
  apply Forall_cons_iff in Hid as [Hv0 Hm]; simpl in Hv0.
  rewrite (IH xs Hm) by tauto; f_equal.
  unfold Dashboard.at_id.
  destruct (str_eqb (id (Dashboard.session x)) k) eqn:K; [|reflexivity].
  apply str_eqb_eq in K.
  apply doc_id in Ex; unfold sdoc in *; exfalso; apply Hk; left; congruence.
Qed.

(** An update of the store at [k] and the same update of the entries with
    that id keep the list a mirror. *)
Lemma list_sync_update (m : Keyed.t InterviewSession) k s0 s1 f :
  forall xs,
    NoDup (map fst m) ->
    Forall (fun kv => id (snd kv) = fst kv) m ->
    Keyed.get m k = Some s0 ->
    map doc (Keyed.values m) = map sdoc xs ->
    (forall y, sdoc y = doc s0 -> sdoc (f y) = doc s1) ->
    map doc (Keyed.values (Keyed.set m k s1))
    = map sdoc (map (Dashboard.at_id k f) xs).
Proof.
  induction m as [|[k0 v0] m IH]; intros [|x xs] Hnd Hid Hget E Hf;
    try discriminate.
  simpl in *; apply cons_inv in E as [Ex Exs].
  apply Forall_cons_iff in Hid as [Hv0 Hm]; simpl in Hv0.
  apply NoDup_cons_iff in Hnd as [Hk0 Hnd'].
  assert (Hx : id (Dashboard.session x) = k0)
    by (apply doc_id in Ex; unfold sdoc in *; congruence).
  unfold Dashboard.at_id at 1; rewrite Hx.
  destruct (str_eqb k0 k) eqn:K.
  - apply str_eqb_eq in K; injection Hget as <-.
    assert (Hk : ~ In k (map fst m)) by congruence.
    simpl; rewrite (map_at_id_absent m k f xs Hm Hk Exs).
    f_equal; [symmetry; apply Hf; now symmetry | exact Exs].
  - simpl; f_equal; [exact Ex|].
    apply IH; assumption.
Qed.

Lemma selected_sync_update (m : Keyed.t InterviewSession) k s0 s1 f x :
  Forall (fun kv => id (snd kv) = fst kv) m ->
  Keyed.get m k = Some s0 ->
  id s1 = id s0 ->
  (exists s, Keyed.get m (id (Dashboard.session x)) = Some s
             /\ doc s = sdoc x) ->
  (forall y, sdoc y = doc s0 -> sdoc (f y) = doc s1) ->
  exists s', Keyed.get (Keyed.set m k s1)
                       (id (Dashboard.session (Dashboard.at_id k f x)))
             = Some s'
             /\ doc s' = sdoc (Dashboard.at_id k f x).
Proof.
  intros Hid Hget H1 (s & Hs & Ds) Hf.
  assert (Hk : id s0 = k).
  { apply get_Some_In in Hget; rewrite Forall_forall in Hid.
    apply (Hid _ Hget). }
  unfold Dashboard.at_id.
  destruct (str_eqb (id (Dashboard.session x)) k) eqn:K.
  - apply str_eqb_eq in K; rewrite K in Hs.
    assert (s = s0) by congruence; subst s.
    specialize (Hf x (eq_sym Ds)).
    exists s1; split; [|now symmetry].
    apply doc_id in Hf; unfold sdoc in Hf.
    replace (id (Dashboard.session (f x))) with k by congruence.
    apply get_set_same.
  - apply str_eqb_neq in K; exists s; split; [|exact Ds].
    rewrite get_set_other; assumption.
Qed.

(** The store is touched at [k]; the dashboard applies [f] to the entries
    with that id and [g] to the selected copy. *)
Lemma sync_touch st d st' d' k s0 s1 f g :
  keys_ok st -> in_sync st d ->
  Keyed.get (sessions st) k = Some s0 ->
  id s1 = id s0 ->
  (forall y, sdoc y = doc s0 -> sdoc (f y) = doc s1) ->
  (forall y, sdoc y = doc s0 -> sdoc (g y) = doc s1) ->
  sessions st' = Keyed.set (sessions st) k s1 ->
  Dashboard.sessions d' = map (Dashboard.at_id k f) (Dashboard.sessions d) ->
  Dashboard.selectedSession d'
  = option_map (Dashboard.at_id k g) (Dashboard.selectedSession d) ->
  in_sync st' d'.
Proof.
  intros [Hnd Hid] [Hl Hsel] Hget H1 Hf Hg E El Es.
  unfold in_sync; rewrite E, El, Es; split.
  - apply (list_sync_update _ k s0 s1 f); assumption.
  - destruct (Dashboard.selectedSession d) as [x|]; simpl; [|exact I].
    apply (selected_sync_update _ k s0 s1 g); assumption.
Qed.


Lemma reconcile_doc now s : doc (getSessionWithAdjustedTimer now s) = doc s.
Proof.
  unfold getSessionWithAdjustedTimer.
  destruct (negb _); [reflexivity|].
  destruct (_ <=? _)%Z; [reflexivity|].
  destruct (truthy_bool _); reflexivity.
Qed.

Lemma received_list_doc now l :
  map sdoc (map Dashboard.received (map (getSessionWithAdjustedTimer now) l))
  = map doc l.
Proof.
  rewrite !map_map; apply map_ext; intros s; apply reconcile_doc.
Qed.

Lemma with_code_doc c l s0 y :
  sdoc y = doc s0 ->
  sdoc (Dashboard.with_code c
          (Server.language
             (if truthy_str l then set_language (set_code s0 c) (nullish l [])
              else set_code s0 c)) y)
  = doc (if truthy_str l then set_language (set_code s0 c) (nullish l [])
         else set_code s0 c).
Proof.
  unfold sdoc, doc, Dashboard.with_code; intros [= Hi _ Hl Ho].
  destruct l as [[|u l]|]; cbn; try rewrite Hi, Ho; try reflexivity;
    destruct (Server.language s0) eqn:L; cbn; rewrite ?Hi, ?Ho, ?Hl;
    reflexivity.
Qed.

Lemma values_set_fresh (m : Keyed.t InterviewSession) k v :
  Keyed.get m k = None ->
  Keyed.values (Keyed.set m k v) = Keyed.values m ++ [v].
Proof.
  intros H; rewrite (set_absent m k v H).
  unfold Keyed.values; now rewrite map_app.
Qed.

Lemma handle_sockets st socket e ev :
  sockets (fst (handle st socket e ev))
  = match ev with
    | connection => sockets st ++ [socket]
    | disconnect =>
        filter (fun c => negb (str_eqb c socket)) (sockets st)
    | _ => sockets st
    end.
Proof.
  destruct ev as [ | | n t | sid | sid c l | sid l | sid b i c | sid c l
                 | sid | results | ]; cbn [handle]; try reflexivity.
  - unfold on_join_session.
    destruct (Keyed.get _ _) as [s|]; [|reflexivity].
    destruct (Status_eqb _ _); [reflexivity|].
    destruct (truthy_num _); [destruct (truthy_bool _)|];
      cbn [fst with_sessions sockets]; apply sockets_join_room.
  - unfold on_code_change; destruct (Keyed.get _ _); reflexivity.
  - unfold on_language_change; destruct (Keyed.get _ _); reflexivity.
  - unfold on_timer_update; destruct (Keyed.get _ _); reflexivity.
  - unfold on_execute_code; destruct (run_tests _ _).
    destruct (Keyed.get _ _); reflexivity.
  - unfold on_paste_attempt; destruct (Keyed.get _ _); reflexivity.
  - unfold on_test_submitted; destruct (Keyed.get _ _); reflexivity.
Qed.

Lemma sync_same st st' d d' :
  in_sync st d ->
  sessions st' = sessions st ->
  Dashboard.sessions d' = Dashboard.sessions d ->
  Dashboard.selectedSession d' = Dashboard.selectedSession d ->
  in_sync st' d'.
Proof. unfold in_sync; intros H -> -> ->; exact H. Qed.

Section Step.

Variables (st : server) (d : Dashboard.state).
Hypothesis Hkeys : keys_ok st.
Hypothesis Hnd : NoDup (sockets st).
Hypothesis Hme : In me (sockets st).
Hypothesis Hsync : in_sync st d.

(** What reaches the dashboard of a to-all emission, of a to-others
    emission of somebody else, and of a reply to somebody else. *)
Lemma receive_all sender m d0 :
  Dashboard.receive me clock (deliveries (sockets st) sender [(to_all, m)]) d0
  = Dashboard.on_message clock m d0.
Proof. rewrite receive_one, reaches_all by assumption; reflexivity. Qed.

Lemma receive_others sender m d0 :
  sender <> me ->
  Dashboard.receive me clock
    (deliveries (sockets st) sender [(to_others, m)]) d0
  = Dashboard.on_message clock m d0.
Proof.
  intros H; rewrite receive_one, reaches_others by assumption; reflexivity.
Qed.

Lemma receive_reply sender m d0 :
  sender <> me ->
  Dashboard.receive me clock
    (deliveries (sockets st) sender [(to_sender, m)]) d0 = d0.
Proof.
  intros H; rewrite receive_one, reaches_sender by assumption.
  destruct (str_eqb me sender) eqn:E; [|reflexivity].
  apply str_eqb_eq in E; congruence.
Qed.

Lemma sync_after_list now st' k s0 s1 :
  Keyed.get (sessions st) k = Some s0 ->
  id s1 = id s0 -> doc s1 = doc s0 ->
  sessions st' = Keyed.set (sessions st) k s1 ->
  in_sync st'
    (Dashboard.on_message clock
       (sessions_list
          (map (getSessionWithAdjustedTimer now)
               (Keyed.values (sessions st')))) d).
Proof.
  intros Hget Hid Hdoc E.
  destruct Hkeys as [_ Hk]; destruct Hsync as [_ Hsel].
  unfold in_sync; cbn [Dashboard.on_message Dashboard.with_sessions
                       Dashboard.sessions Dashboard.selectedSession].
  split; [symmetry; apply received_list_doc|].
  destruct (Dashboard.selectedSession d) as [x|]; [|exact I].
  rewrite E, <- (at_id_same k x).
  apply (selected_sync_update _ k s0 s1 (fun y => y)); try assumption.
  intros y Hy; congruence.
Qed.

(** An event of another connection, handled by the server and taken in
    by the dashboard, leaves the dashboard's list a mirror of the
    documents of the store (identifier, code, language, output, in
    order) and the selected copy a mirror of its session. *)
Theorem remote_event_keeps_dashboard_in_sync socket e ev :
  socket <> me ->
  fresh_uuid st e ev -> fresh_socket st socket ev ->
  let st' := fst (handle st socket e ev) in
  let d' := Dashboard.receive me clock
              (deliveries (sockets st) socket
                 (snd (handle st socket e ev))) d in
  in_sync st' d'
  /\ keys_ok st' /\ NoDup (sockets st') /\ In me (sockets st').
Proof.
  intros Hne Hfu Hfs st' d'.
  assert (Hrest : keys_ok st' /\ NoDup (sockets st') /\ In me (sockets st')).
  { split; [now apply handle_keys_ok|].
    subst st'; rewrite handle_sockets.
    destruct ev; auto.
    - split; [|apply in_or_app; auto].
      apply NoDup_app; [exact Hnd | repeat constructor; simpl; tauto|].
      intros x Hx [<-|[]]; exact (Hfs Hx).
    - split; [now apply NoDup_filter|].
      apply filter_In; split; [exact Hme|].
      apply negb_true_iff, str_eqb_neq; congruence. }
  split; [|exact Hrest]; clear Hrest.
  pose proof Hkeys as [_ Hk].
  subst st' d'.
  destruct ev as [ | | n t | sid | sid c l | sid l | sid b i c | sid c l
                 | sid | results | ]; cbn [handle].
  - (* connection *)
    apply (sync_same st _ d); auto.
  - (* get-sessions *)
    unfold on_get_sessions; cbn [fst snd].
    rewrite receive_reply by assumption; exact Hsync.
  - (* create-session *)
    rewrite on_create_session_eq; cbn [fst snd]; rewrite receive_all.
    simpl in Hfu; destruct Hsync as [Hl Hsel].
    unfold in_sync; cbn [Dashboard.on_message Dashboard.sessions
                         Dashboard.selectedSession with_sessions sessions].
    split.
    + rewrite (values_set_fresh _ _ _ Hfu), !map_app, Hl; reflexivity.
    + destruct (Dashboard.selectedSession d) as [x|]; [|exact I].
      destruct Hsel as (s & Hs & Ds); exists s; split; [|exact Ds].
      rewrite get_set_other; [exact Hs|].
      intros E; rewrite E in Hs; congruence.
  - (* join-session *)
    destruct (Keyed.get (sessions st) sid) as [s|] eqn:E.
    + destruct (Status_eqb (status s) completed) eqn:C.
      * unfold on_join_session; rewrite E, C; cbn [fst snd].
        rewrite receive_reply by assumption; exact Hsync.
      * assert (Hs : status s <> completed)
          by (intros H; rewrite H in C; discriminate).
        rewrite (on_join_session_eq st socket e sid s E Hs); cbn [fst snd].
        rewrite deliveries_cons, receive_app, receive_reply by assumption.
        rewrite receive_all.
        apply (sync_after_list (now e)
                 (with_sessions (join_room st socket sid)
                    (Keyed.set (sessions st) sid (joined (now e) s)))
                 sid s (joined (now e) s) E); reflexivity.
    + unfold on_join_session; rewrite E; cbn [fst snd].
      rewrite receive_reply by assumption; exact Hsync.
  - (* code-change *)
    unfold on_code_change.
    destruct (Keyed.get (sessions st) sid) as [s|] eqn:E;
      cbn [fst snd]; [|exact Hsync].
    rewrite receive_others by assumption.
    apply (sync_touch st d _ _ sid s
             (if truthy_str l
              then set_language (set_code s c) (nullish l [])
              else set_code s c)
             (Dashboard.with_code c
                (language (if truthy_str l
                           then set_language (set_code s c) (nullish l [])
                           else set_code s c)))
             (Dashboard.with_code c
                (language (if truthy_str l
                           then set_language (set_code s c) (nullish l [])
                           else set_code s c)))
             Hkeys Hsync E);
      [ destruct (truthy_str l); reflexivity
      | intros y Hy; apply (with_code_doc c l s y Hy)
      | intros y Hy; apply (with_code_doc c l s y Hy)
      | reflexivity | reflexivity | reflexivity ].
  - (* language-change *)
    unfold on_language_change.
    destruct (Keyed.get (sessions st) sid) as [s|] eqn:E;
      cbn [fst snd]; [|exact Hsync].
    rewrite receive_others by assumption.
    apply (sync_touch st d _ _ sid s (set_language s l)
             (Dashboard.with_language l) (Dashboard.with_language l)
             Hkeys Hsync E);
      [ reflexivity
      | intros y; unfold sdoc, doc; intros [= Hi Hc _ Ho]; cbn; congruence
      | intros y; unfold sdoc, doc; intros [= Hi Hc _ Ho]; cbn; congruence
      | reflexivity | reflexivity | reflexivity ].
  - (* timer-update *)
    unfold on_timer_update.
    destruct (Keyed.get (sessions st) sid) as [s|] eqn:E;
      cbn [fst snd]; [|exact Hsync].
    rewrite receive_all.
    apply (sync_touch st d _ _ sid s
             (set_lastTimerUpdate
                (set_codingTimeRemaining
                   (set_instructionTimeRemaining
                      (set_isInstructionPhase s (Some b)) (Some i))
                   (Some c)) (Some (now e)))
             (Dashboard.with_timer clock b i c) (fun y => y)
             Hkeys Hsync E);
      [ reflexivity
      | intros y Hy; exact Hy
      | intros y Hy; exact Hy
      | reflexivity | reflexivity
      | symmetry; apply option_map_at_id_same ].
  - (* execute-code *)
    unfold on_execute_code.
    destruct (run_tests c l) as [rep ok].
    destruct (Keyed.get (sessions st) sid) as [s|] eqn:E; cbn [fst snd].
    + rewrite deliveries_cons, receive_app, receive_reply by assumption.
      rewrite receive_all.
      apply (sync_touch st d _ _ sid s (set_output s (Some rep))
               (Dashboard.with_output rep) (Dashboard.with_output rep)
               Hkeys Hsync E);
        [ reflexivity
        | intros y; unfold sdoc, doc; intros [= Hi Hc Hl _]; cbn; congruence
        | intros y; unfold sdoc, doc; intros [= Hi Hc Hl _]; cbn; congruence
        | reflexivity | reflexivity | reflexivity ].
    + rewrite receive_reply by assumption; exact Hsync.
  - (* paste-attempt *)
    unfold on_paste_attempt.
    destruct (Keyed.get (sessions st) sid) as [s|] eqn:E;
      cbn [fst snd]; [|exact Hsync].
    rewrite receive_all; exact Hsync.
  - (* test-submitted *)
    unfold on_test_submitted; cbn [fst snd]; rewrite receive_all.
    destruct (Keyed.get (sessions st) (Candidate.sessionId results))
      as [s|] eqn:E.
    + apply (sync_touch st d _ _ (Candidate.sessionId results) s
               (set_status s completed) (fun y => y) (fun y => y)
               Hkeys Hsync E);
        [ reflexivity
        | intros y Hy; exact Hy
        | intros y Hy; exact Hy
        | reflexivity
        | symmetry; apply map_at_id_same
        | symmetry; apply option_map_at_id_same ].
    + apply (sync_same st _ d); auto.
  - (* disconnect *)
    apply (sync_same st _ d); auto.
Qed.

(** An edit the interviewer types into the selected session: the server
    does not echo it, and the dashboard's own update of the list and of
    the selected copy is the one the server stored. *)
Theorem own_edit_needs_no_echo newCode e d1 ev :
  Dashboard.handleInterviewerCodeChange newCode d = (d1, Some ev) ->
  let r := handle st me e ev in
  Dashboard.receive me clock (deliveries (sockets st) me (snd r)) d1 = d1
  /\ in_sync (fst r) d1.
Proof.
  unfold Dashboard.handleInterviewerCodeChange.
  destruct (Dashboard.selectedSession d) as [sel|] eqn:S; [|discriminate].
  intros [= <- <-]; cbn zeta.
  pose proof Hsync as [_ Hsel]; rewrite S in Hsel.
  destruct Hsel as (s & E & Ds).
  cbn [handle]; unfold on_code_change; rewrite E; cbn [fst snd].
  split.
  - rewrite receive_one, reaches_not_others by assumption; reflexivity.
  - assert (Hup : forall y, sdoc y = doc s ->
              sdoc {| Dashboard.session :=
                        set_code (Dashboard.session y) newCode;
                      Dashboard.lastUpdate := Dashboard.lastUpdate y |}
              = doc (if truthy_str
                          (Some (language (Dashboard.session sel)))
                     then set_language (set_code s newCode)
                            (nullish
                               (Some (language (Dashboard.session sel)))
                               [])
                     else set_code s newCode)).
    { intros y; revert Ds; unfold sdoc, doc.
      intros [= _ _ Hl _] [= Hi _ Hly Ho]; rewrite <- Hl.
      destruct (language s) eqn:L; cbn; rewrite ?L; congruence. }
    apply (sync_touch st d _ _ (id (Dashboard.session sel)) s
             (if truthy_str (Some (language (Dashboard.session sel)))
              then set_language (set_code s newCode)
                     (nullish (Some (language (Dashboard.session sel)))
                        [])
              else set_code s newCode)
             (fun y => {| Dashboard.session :=
                            set_code (Dashboard.session y) newCode;
                          Dashboard.lastUpdate := Dashboard.lastUpdate y |})
             (fun y => {| Dashboard.session :=
                            set_code (Dashboard.session y) newCode;
                          Dashboard.lastUpdate := Dashboard.lastUpdate y |})
             Hkeys Hsync E);
      [ destruct (truthy_str _); reflexivity
      | exact Hup | exact Hup | reflexivity | reflexivity | ].
    rewrite S; cbn [option_map Dashboard.with_sessions
                    Dashboard.selectedSession].
    unfold Dashboard.at_id; rewrite str_eqb_refl; reflexivity.
Qed.

(** A session the interviewer creates comes back in [session-created]:
    the dashboard appends it, clears the form, and is in sync. *)
Theorem own_create_comes_back e ev :
  Dashboard.createSession d = Some ev ->
  fresh_uuid st e ev ->
  let r := handle st me e ev in
  let d' := Dashboard.receive me clock
              (deliveries (sockets st) me (snd r)) d in
  in_sync (fst r) d'
  /\ Dashboard.sessions d'
     = Dashboard.sessions d
       ++ [Dashboard.received
             (new_session e (Dashboard.candidateName d)
                (Dashboard.problemTitle d))]
  /\ Dashboard.candidateName d' = []
  /\ Dashboard.showCreateForm d' = false.
Proof.
  unfold Dashboard.createSession.
  destruct (negb _); [discriminate|].
  intros [= <-] Hfu; cbn zeta; cbn [handle].
  rewrite on_create_session_eq; cbn [fst snd]; rewrite receive_all.
  cbn [Dashboard.on_message Dashboard.sessions Dashboard.candidateName
       Dashboard.showCreateForm].
  split; [|repeat split].
  simpl in Hfu; destruct Hsync as [Hl Hsel].
  unfold in_sync; cbn [Dashboard.sessions Dashboard.selectedSession
                       with_sessions sessions].
  split.
  - rewrite (values_set_fresh _ _ _ Hfu), !map_app, Hl; reflexivity.
  - destruct (Dashboard.selectedSession d) as [x|]; [|exact I].
    destruct Hsel as (s & Hs & Ds); exists s; split; [|exact Ds].
    rewrite get_set_other; [exact Hs|].
    intros E; rewrite E in Hs; congruence.
Qed.

(** A click on a session of the list selects a copy that mirrors the
    stored session. *)
Theorem selecting_a_listed_session_keeps_sync x :
  In x (Dashboard.sessions d) -> in_sync st (Dashboard.select x d).
Proof.
  intros Hx; destruct Hsync as [Hl _]; destruct Hkeys as [Hk Hid].
  split; [exact Hl|].
  cbn [Dashboard.select Dashboard.with_sessions Dashboard.selectedSession].
  assert (H : In (sdoc x) (map doc (Keyed.values (sessions st))))
    by (rewrite Hl; apply in_map, Hx).
  apply in_map_iff in H as (s & Ds & H).
  apply in_map_iff in H as ([k s'] & <- & H); cbn [snd] in Ds.
  exists s'; split; [|exact Ds].
  rewrite Forall_forall in Hid; pose proof (Hid _ H) as Hi.
  cbn [fst snd] in Hi.
  replace (id (Dashboard.session x)) with k; [now apply In_get|].
  rewrite <- Hi; revert Ds; unfold sdoc, doc; congruence.
Qed.

End Step.

(** A dashboard with nothing selected that connects and asks for the
    sessions holds, after the reply, a mirror of the store. *)
Theorem first_reply_syncs st d e :
  NoDup (sockets st) -> ~ In me (sockets st) ->
  Dashboard.selectedSession d = None ->
  let st1 := fst (handle st me e connection) in
  let r := handle st1 me e get_sessions in
  in_sync (fst r)
    (Dashboard.receive me clock (deliveries (sockets st1) me (snd r)) d)
  /\ sessions (fst r) = sessions st.
Proof.
  intros Hnd Hme Hsel; cbn zeta; cbn [handle].
  unfold on_get_sessions; cbn [fst snd].
  split; [|reflexivity].
  rewrite receive_one, reaches_sender, str_eqb_refl.
  - unfold in_sync; cbn [Dashboard.on_message Dashboard.with_sessions
                         Dashboard.sessions Dashboard.selectedSession].
    rewrite Hsel; split; [|exact I].
    symmetry; apply received_list_doc.
  - unfold on_connection; cbn [sockets].
    apply NoDup_app; [exact Hnd | repeat constructor; simpl; tauto|].
    intros x Hx [<-|[]]; exact (Hme Hx).
Qed.

End Replica.

Lemma joined_keys_ok : keys_ok Scenario.joined.
Proof.
  apply reachable_keys_ok; unfold Scenario.joined.
  apply run_events_reachable; constructor.
Qed.

Lemma joined_sockets : NoDup (sockets Scenario.joined)
                       /\ In Scenario.interviewer (sockets Scenario.joined).
Proof.
  vm_compute; split; [|auto].
  constructor; [intros [H|[]]; discriminate H|].
  constructor; [intros []|constructor].
Qed.

Lemma watching_in_sync : in_sync Scenario.joined watching.
Proof.
  split; vm_compute; [reflexivity|].
  eexists; split; reflexivity.
Qed.

(** The candidate types; the interviewer's dashboard follows. *)
Lemma remote_event_keeps_dashboard_in_sync_witness :
  in_sync
    (fst (handle Scenario.joined Scenario.candidate
            (Scenario.at_ (Scenario.t0 + 9000)%Z)
            (code_change Scenario.sid (js "// edit") None)))
    (Dashboard.receive Scenario.interviewer 0
       (deliveries (sockets Scenario.joined) Scenario.candidate
          (snd (handle Scenario.joined Scenario.candidate
                  (Scenario.at_ (Scenario.t0 + 9000)%Z)
                  (code_change Scenario.sid (js "// edit") None))))
       watching).
Proof.
  destruct joined_sockets as [Hnd Hme].
  destruct (remote_event_keeps_dashboard_in_sync Scenario.interviewer 0
              Scenario.joined watching joined_keys_ok Hnd Hme watching_in_sync
              Scenario.candidate (Scenario.at_ (Scenario.t0 + 9000)%Z)
              (code_change Scenario.sid (js "// edit") None)) as [H _].
  - vm_compute; discriminate.
  - exact I.
  - exact I.
  - exact H.
Defined.

(** The interviewer types into the selected session. *)
Lemma own_edit_needs_no_echo_witness :
  in_sync
    (fst (handle Scenario.joined Scenario.interviewer
            (Scenario.at_ (Scenario.t0 + 9000)%Z)
            (code_change Scenario.sid (js "// hint")
               (Some (js "selenium-senior")))))
    (fst (Dashboard.handleInterviewerCodeChange (js "// hint") watching)).
Proof.
  destruct joined_sockets as [Hnd Hme].
  destruct (own_edit_needs_no_echo Scenario.interviewer 0
              Scenario.joined watching joined_keys_ok Hnd watching_in_sync
              (js "// hint") (Scenario.at_ (Scenario.t0 + 9000)%Z)
              (fst (Dashboard.handleInterviewerCodeChange (js "// hint")
                      watching))
              (code_change Scenario.sid (js "// hint")
                 (Some (js "selenium-senior")))) as [_ H].
  - vm_compute; reflexivity.
  - exact H.
Defined.

(** The interviewer creates a second session. *)
Lemma own_create_comes_back_witness :
  List.length
    (Dashboard.sessions
       (Dashboard.receive Scenario.interviewer 0
          (deliveries (sockets Scenario.joined) Scenario.interviewer
             (snd (handle Scenario.joined Scenario.interviewer
                     {| now := (Scenario.t0 + 9000)%Z;
                        uuid := js "7b1d";
                        localeTime := js "10:15:09 AM" |}
                     (create_session (js "Grace")
                        (js "Selenium Debugging")))))
          watching)) = 2%nat.
Proof.
  destruct joined_sockets as [Hnd Hme].
  destruct (own_create_comes_back Scenario.interviewer 0
              Scenario.joined watching Hnd Hme watching_in_sync
              {| now := (Scenario.t0 + 9000)%Z; uuid := js "7b1d";
                 localeTime := js "10:15:09 AM" |}
              (create_session (js "Grace") (js "Selenium Debugging")))
    as (_ & H & _).
  - vm_compute; reflexivity.
  - vm_compute; reflexivity.
  - rewrite H, length_app; reflexivity.
Defined.

(** A second dashboard opens while the interview runs. *)
Lemma first_reply_syncs_witness :
  in_sync
    (fst (handle (fst (handle Scenario.joined (js "socket-observer")
                         (Scenario.at_ (Scenario.t0 + 9000)%Z) connection))
            (js "socket-observer") (Scenario.at_ (Scenario.t0 + 9000)%Z)
            get_sessions))
    (Dashboard.receive (js "socket-observer") 0
       (deliveries
          (sockets (fst (handle Scenario.joined (js "socket-observer")
                           (Scenario.at_ (Scenario.t0 + 9000)%Z) connection)))
          (js "socket-observer")
          (snd (handle (fst (handle Scenario.joined (js "socket-observer")
                               (Scenario.at_ (Scenario.t0 + 9000)%Z)
                               connection))
                  (js "socket-observer") (Scenario.at_ (Scenario.t0 + 9000)%Z)
                  get_sessions)))
       Dashboard.initial).
Proof.
  destruct joined_sockets as [Hnd _].
  destruct (first_reply_syncs (js "socket-observer") 0 Scenario.joined
              Dashboard.initial (Scenario.at_ (Scenario.t0 + 9000)%Z) Hnd)
    as [H _].
  - vm_compute; intros [H|[H|[]]]; discriminate H.
  - reflexivity.
  - exact H.
Defined.

(** The interviewer clicks on the one session of the list. *)
Lemma selecting_a_listed_session_keeps_sync_witness :
  in_sync Scenario.joined
    (Dashboard.select
       (Dashboard.received
          (nth 0 (Keyed.values (sessions Scenario.joined))
               Scenario.stamped_only))
       watching).
Proof.
  apply (selecting_a_listed_session_keeps_sync Scenario.joined watching
           joined_keys_ok watching_in_sync).
  vm_compute; auto.
Defined.
